(** * Convolutional autoencoder: model builder, persistence and dataset loader

    A shallow embedding of [ae.py] (class [Autoencoder]) and [train.py]
    (function [load_mnist] and the training script), together with the
    properties of the builder, of [save]/[load] and of the loader.

    Layout:
    - Python values: exceptions, the result monad, indexing;
    - [Keras]: the part of the framework the builder calls (layer
      constructors, static shape inference, functional models, weight files);
    - [os]: the part of the file system [save] and [load] touch;
    - the class [Autoencoder], method by method;
    - [train_py]: the dataset loader and the script;
    - the notions the statements are phrased in;
    - lemmas about the builder, then the properties, each under the id of
      the claim of the specification it settles. *)

From Stdlib Require Import ZArith QArith Reals Lia Lra Ascii String.
From Stdlib Require Import Floats.SpecFloat.
From stdpp Require Import base option list strings gmap pretty.

Local Open Scope Z_scope.

(** ** Python exceptions and the monads the methods run in *)

Inductive exn :=
| IndexError (sequence : string) (index : nat)
| ValueError (message : string)
| TypeError (message : string)
| AttributeError (attribute : string)
| FileNotFoundError (path : string)
| FileExistsError (path : string)
| NotADirectoryError (path : string)
| IsADirectoryError (path : string)
| UnpicklingError (path : string)
| OSError (path : string)
| RuntimeError (message : string).

Inductive result (A : Type) :=
| Ok (a : A)
| Raise (e : exn).
Arguments Ok {A} a.
Arguments Raise {A} e.

#[global] Instance result_ret : MRet result := λ A a, Ok a.
#[global] Instance result_bind : MBind result := λ A B k c,
  match c with
  | Ok a => k a
  | Raise e => Raise e
  end.

(** [for i in indices: x = body(i, x)], stopping at the first exception. *)
Fixpoint for_each {I A} (body : I → A → result A) (indices : list I) (x : A)
  : result A :=
  match indices with
  | [] => Ok x
  | i :: rest => x' ← body i x; for_each body rest x'
  end.

(** [sequence[index]] for a non-negative index: [IndexError] out of range. *)
Definition getitem (sequence : string) (l : list Z) (index : nat) : result Z :=
  match l !! index with
  | Some v => Ok v
  | None => Raise (IndexError sequence index)
  end.

Definition is_ok {A} (r : result A) : bool :=
  match r with Ok _ => true | Raise _ => false end.

(** [np.prod] of a shape; exact, as for every element count below 2^63. *)
Definition np_prod (shape : list Z) : Z := fold_right Z.mul 1 shape.

(** A numpy array: its shape and its elements in row-major order. *)
Record ndarray (A : Type) := { nd_shape : list Z; nd_data : list A }.
Arguments nd_shape {A} _.
Arguments nd_data {A} _.

(** Single-precision floating point numbers (IEEE 754 binary32: 24 bits of
    precision, exponents below 128), with the operations the loader uses:
    the conversion of an integer, and the division, both rounding to the
    nearest representable number, ties to even. *)
Definition float32 : Type := spec_float.

Definition float32_of_Z (n : Z) : float32 := binary_normalize 24 128 n 0 false.

Definition float32_div (x y : float32) : float32 := SFdiv 24 128 x y.

(** The rational a finite number stands for. *)
Definition float32_value (x : float32) : Q :=
  match x with
  | S754_finite negative m e =>
      (inject_Z (if negative then Z.neg m else Z.pos m) * 2 ^ e)%Q
  | _ => 0%Q
  end.

Definition float32_is_finite (x : float32) : bool :=
  match x with
  | S754_zero _ | S754_finite _ _ _ => true
  | _ => false
  end.

(** ** The Keras primitives the builder is written against

    The framework is not part of the repository.  This module records what
    the builder relies on: which arguments a layer constructor accepts, the
    static output shape of a layer called on a symbolic tensor, which
    variables the call creates, and how a functional model is cut out of the
    graph.  Shapes leave out the batch axis.  Layer names are carried along
    as given; nothing here depends on them. *)
Module Keras.

Inductive Padding := same | valid.

#[warnings="-register-all"] Inductive layer :=
| InputLayer (shape : list Z) (name : string)
| Conv2DLayer (filters kernel_size strides : Z) (padding : Padding) (name : string)
| ReLULayer (name : string)
| BatchNormalizationLayer (name : string)
| FlattenLayer
| DenseLayer (units : Z) (name : string)
| ReshapeLayer (target_shape : list Z)
| Conv2DTransposeLayer (filters kernel_size strides : Z) (padding : Padding) (name : string)
| ActivationLayer (activation : string) (name : string)
| FunctionalLayer (name : option string) (input_shape output_shape : list Z)
    (layers : list layer) (trainable non_trainable : list (list Z)).

(** A symbolic tensor: its static shape, the layers on the path from the
    input placeholder to it, and for each of these layers the shapes of the
    variables it owns (empty for a layer without weights), the trainable
    ones first. *)
Record KerasTensor := {
  kt_shape : list Z;
  kt_layers : list layer;
  kt_variables : list (list (list Z))
}.

(** [conv_utils.conv_output_length] with dilation 1. *)
Definition conv_output_length (input_length filter_size : Z) (padding : Padding)
    (stride : Z) : Z :=
  let output_length :=
    match padding with
    | same => input_length
    | valid => input_length - filter_size + 1
    end in
  (output_length + stride - 1) / stride.

(** [conv_utils.deconv_output_length] without output padding. *)
Definition deconv_output_length (input_length filter_size : Z) (padding : Padding)
    (stride : Z) : Z :=
  match padding with
  | same => input_length * stride
  | valid => input_length * stride + Z.max (filter_size - stride) 0
  end.

(** A transposed convolution hands the shape of its output to the backend
    as 32-bit signed integers. *)
Definition fits_int32 (n : Z) : bool := n <? 2 ^ 31.

Definition require (ok : bool) (message : string) : result () :=
  if ok then Ok () else Raise (ValueError message).

(** Layer constructors.  A convolution wants positive sizes; a dense layer
    rejects a negative number of units only. *)
Definition Conv2D (filters kernel_size strides : Z) (padding : Padding)
    (name : string) : result layer :=
  require (0 <? filters) "filters";;
  require (0 <? kernel_size) "kernel_size";;
  require (0 <? strides) "strides";;
  Ok (Conv2DLayer filters kernel_size strides padding name).

Definition Conv2DTranspose (filters kernel_size strides : Z) (padding : Padding)
    (name : string) : result layer :=
  require (0 <? filters) "filters";;
  require (0 <? kernel_size) "kernel_size";;
  require (0 <? strides) "strides";;
  Ok (Conv2DTransposeLayer filters kernel_size strides padding name).

Definition Dense (units : Z) (name : string) : result layer :=
  require (0 <=? units) "units";;
  Ok (DenseLayer units name).

Definition ReLU (name : string) : layer := ReLULayer name.
Definition BatchNormalization (name : string) : layer := BatchNormalizationLayer name.
Definition Flatten : layer := FlattenLayer.
Definition Reshape (target_shape : list Z) : layer := ReshapeLayer target_shape.
Definition Activation (activation name : string) : layer :=
  ActivationLayer activation name.

(** [Input(shape=..., name=...)]: a fresh placeholder. *)
Definition Input (shape : list Z) (name : string) : KerasTensor :=
  {| kt_shape := shape; kt_layers := [InputLayer shape name]; kt_variables := [[]] |}.

(** Static output shape of a layer on an input of the given shape.  A
    convolution works on the last three axes (rows, columns, channels) of an
    input with at least three; a transposed convolution takes exactly
    three. *)
Definition compute_output_shape (l : layer) (input_shape : list Z)
  : result (list Z) :=
  match l with
  | InputLayer _ _ => Raise (ValueError "an input placeholder is not callable")
  | Conv2DLayer filters kernel_size strides padding _ =>
      match reverse input_shape with
      | _ :: cols :: rows :: leading =>
          Ok (reverse leading
              ++ [conv_output_length rows kernel_size padding strides;
                  conv_output_length cols kernel_size padding strides;
                  filters])
      | _ => Raise (ValueError "expected min_ndim=4")
      end
  | Conv2DTransposeLayer filters kernel_size strides padding _ =>
      match input_shape with
      | [rows; cols; _] =>
          let out_rows := deconv_output_length rows kernel_size padding strides in
          let out_cols := deconv_output_length cols kernel_size padding strides in
          if fits_int32 out_rows && fits_int32 out_cols
          then Ok [out_rows; out_cols; filters]
          else Raise (ValueError "output shape out of range")
      | _ => Raise (ValueError "expected ndim=4")
      end
  | ReLULayer _ | ActivationLayer _ _ => Ok input_shape
  | BatchNormalizationLayer _ =>
      match last input_shape with
      | Some _ => Ok input_shape
      | None => Raise (ValueError "expected min_ndim=2")
      end
  | FlattenLayer => Ok [np_prod input_shape]
  | DenseLayer units _ =>
      match last input_shape with
      | Some _ => Ok (removelast input_shape ++ [units])
      | None => Raise (ValueError "expected min_ndim=2")
      end
  | ReshapeLayer target_shape =>
      if np_prod target_shape =? np_prod input_shape then Ok target_shape
      else Raise (ValueError "total size of new array must be unchanged")
  | FunctionalLayer _ expected output_shape _ _ _ =>
      if bool_decide (input_shape = expected) then Ok output_shape
      else Raise (ValueError "incompatible input shape")
  end.

(** Shapes of the variables a layer owns once built on that input, in the
    order in which the layer lists them, the trainable ones first: kernel
    and bias; for normalization gamma and beta, then the moving mean and the
    moving variance, which are not trained; for a model used as a layer the
    trainable variables of all its layers, then the others. *)
Definition layer_variables (l : layer) (input_shape : list Z) : list (list Z) :=
  let channels := default 0 (last input_shape) in
  match l with
  | Conv2DLayer filters kernel_size _ _ _ =>
      [[kernel_size; kernel_size; channels; filters]; [filters]]
  | Conv2DTransposeLayer filters kernel_size _ _ _ =>
      [[kernel_size; kernel_size; filters; channels]; [filters]]
  | BatchNormalizationLayer _ => [[channels]; [channels]; [channels]; [channels]]
  | DenseLayer units _ => [[channels; units]; [units]]
  | FunctionalLayer _ _ _ _ trainable non_trainable => trainable ++ non_trainable
  | _ => []
  end.

(** How many of the variables a layer owns are trainable. *)
Definition trainable_count (l : layer) (owned : list (list Z)) : nat :=
  match l with
  | BatchNormalizationLayer _ => 2
  | FunctionalLayer _ _ _ _ trainable _ => length trainable
  | _ => length owned
  end.

(** [layer(x)]. *)
Definition call (l : layer) (x : KerasTensor) : result KerasTensor :=
  output_shape ← compute_output_shape l (kt_shape x);
  Ok {| kt_shape := output_shape;
        kt_layers := kt_layers x ++ [l];
        kt_variables := kt_variables x ++ [layer_variables l (kt_shape x)] |}.

(** A functional model; [model_optimizer] is set by [compile]. *)
Record Model := {
  model_name : option string;
  model_input_shape : list Z;
  model_output_shape : list Z;
  model_layers : list layer;
  model_variables : list (list (list Z));
  model_optimizer : option (Q * string)
}.

(** [Model(inputs, outputs, name=...)]: the layers between the placeholder
    and the output tensor. *)
Definition new_Model (inputs outputs : KerasTensor) (name : option string) : Model :=
  {| model_name := name;
     model_input_shape := kt_shape inputs;
     model_output_shape := kt_shape outputs;
     model_layers := kt_layers outputs;
     model_variables := kt_variables outputs;
     model_optimizer := None |}.

(** [model.trainable_weights] and [model.non_trainable_weights], as shapes:
    layer after layer. *)
Definition trainable_variables (layers : list layer)
    (variables : list (list (list Z))) : list (list Z) :=
  concat (zip_with (λ l owned, take (trainable_count l owned) owned) layers variables).

Definition non_trainable_variables (layers : list layer)
    (variables : list (list (list Z))) : list (list Z) :=
  concat (zip_with (λ l owned, drop (trainable_count l owned) owned) layers variables).

(** A model used as a layer of another model. *)
Definition as_layer (m : Model) : layer :=
  FunctionalLayer (model_name m) (model_input_shape m) (model_output_shape m)
    (model_layers m)
    (trainable_variables (model_layers m) (model_variables m))
    (non_trainable_variables (model_layers m) (model_variables m)).

(** [model.weights], as shapes: the trainable variables, then the others. *)
Definition model_weights (m : Model) : list (list Z) :=
  trainable_variables (model_layers m) (model_variables m)
  ++ non_trainable_variables (model_layers m) (model_variables m).

(** [K.int_shape(x)[1:]]. *)
Definition int_shape_without_batch (x : KerasTensor) : list Z := kt_shape x.

(** The name of a layer; for a layer that is given none, the one the
    framework makes up for the first layer of its kind. *)
Definition layer_name (l : layer) : string :=
  match l with
  | InputLayer _ name | Conv2DLayer _ _ _ _ name | ReLULayer name
  | BatchNormalizationLayer name | DenseLayer _ name
  | Conv2DTransposeLayer _ _ _ _ name | ActivationLayer _ name => name
  | FlattenLayer => "flatten"
  | ReshapeLayer _ => "reshape"
  | FunctionalLayer name _ _ _ _ _ => default "model" name
  end.

(** [model.summary()] prints one line per layer. *)
Definition summary (m : Model) : list string := map layer_name (model_layers m).

(** The values of a model's variables: layer after layer of the model, and
    for each layer in the order in which the layer lists its variables. *)
Abbreviation Weights := (list (ndarray Q)).

(** A weight file: for every layer of the model a group of arrays under the
    layer's name, empty for a layer without variables. *)
Abbreviation WeightFile := (list (string * list (ndarray Q))).

(** Initial values: what the initializers draw for the variable at a given
    position, of a given shape. *)
Abbreviation Initializer := (nat → list Z → list Q).

Definition initial_weights (rng : Initializer) (variables : list (list Z)) : Weights :=
  imap (λ i shape, {| nd_shape := shape; nd_data := rng i shape |}) variables.

(** [model.save_weights(path)]: the file's contents. *)
Fixpoint weight_groups (layers : list layer) (variables : list (list (list Z)))
    (weights : Weights) : WeightFile :=
  match layers, variables with
  | l :: layers', owned :: variables' =>
      let n := length owned in
      (layer_name l, take n weights)
      :: weight_groups layers' variables' (drop n weights)
  | _, _ => []
  end.

Definition save_weights (m : Model) (weights : Weights) : WeightFile :=
  weight_groups (model_layers m) (model_variables m) weights.

(** [preprocess_weights_for_loading]: the arrays of a group are taken as
    they are, except for a model used as a layer, of which the first are
    taken for the trainable variables and the next for the others, as many
    as the model has of each; arrays beyond are dropped. *)
Definition preprocess_weights_for_loading (l : layer) (arrays : list (ndarray Q))
  : list (ndarray Q) :=
  match l with
  | FunctionalLayer _ _ _ _ trainable non_trainable =>
      take (length trainable) arrays
      ++ take (length non_trainable) (drop (length trainable) arrays)
  | _ => arrays
  end.

(** The loop of [load_weights_from_hdf5_group] over the layers that own
    variables and the groups that hold arrays, matched by position: every
    group has to give as many arrays as the layer has variables. *)
Fixpoint load_groups (expected : list (layer * list (list Z))) (groups : WeightFile)
  : result Weights :=
  match expected, groups with
  | (l, owned) :: expected', (_, arrays) :: groups' =>
      let values := preprocess_weights_for_loading l arrays in
      if bool_decide (length values = length owned) then
        rest ← load_groups expected' groups'; Ok (values ++ rest)
      else Raise (ValueError "weight count mismatch")
  | [], [] => Ok []
  | _, _ => Raise (ValueError "layer count mismatch")
  end.

(** [model.load_weights(path)] on the file's contents: the number of groups
    that hold arrays has to be the number of layers that own variables, and
    when the values are assigned every array has to have the shape of its
    variable. *)
Definition load_weights (m : Model) (file : WeightFile) : result Weights :=
  let expected := filter (λ p, p.2 ≠ []) (zip (model_layers m) (model_variables m)) in
  let groups := filter (λ g, g.2 ≠ []) file in
  if bool_decide (length groups = length expected) then
    values ← load_groups expected groups;
    if bool_decide (map nd_shape values = concat (map snd expected)) then Ok values
    else Raise (ValueError "weight shape mismatch")
  else Raise (ValueError "layer count mismatch").

(** [model.fit]: what the training does with the data, including whether it
    accepts them at all, is the framework's business.  [Fit] stands for it:
    it raises, or says what the training leaves in the variable at a given
    position. *)
Abbreviation Fit :=
  (Model → Weights → ndarray float32 → ndarray float32 → Z → Z → bool →
   result (nat → list Q)).

Definition fit (trainer : Fit) (m : Model) (weights : Weights) (x y : ndarray float32)
    (batch_size epochs : Z) (shuffle : bool) : result Weights :=
  match model_optimizer m with
  | None => Raise (RuntimeError "compile the model before training")
  | Some _ =>
      trained ← trainer m weights x y batch_size epochs shuffle;
      Ok (imap (λ i w, {| nd_shape := nd_shape w; nd_data := trained i |}) weights)
  end.

Definition compile (m : Model) (optimizer : Q) (loss : string) : Model :=
  {| model_name := model_name m;
     model_input_shape := model_input_shape m;
     model_output_shape := model_output_shape m;
     model_layers := model_layers m;
     model_variables := model_variables m;
     model_optimizer := Some (optimizer, loss) |}.

(** The forward pass, over the reals.  The sigmoid activation is the
    logistic function, elementwise; what the other layers compute from their
    input and the values of the variables is the framework's business and
    stays a parameter. *)
Definition sigmoid (x : R) : R := (1 / (1 + exp (- x)))%R.

Abbreviation Kernels := (layer → Weights → list R → list R).

Fixpoint apply_layer (kernels : Kernels) (weights : Weights) (l : layer)
    (x : list R) {struct l} : list R :=
  match l with
  | InputLayer _ _ => x
  | ActivationLayer activation _ =>
      if String.eqb activation "sigmoid" then map sigmoid x
      else kernels l weights x
  | FunctionalLayer _ _ _ layers _ _ =>
      fold_left (λ x inner, apply_layer kernels weights inner x) layers x
  | _ => kernels l weights x
  end.

(** [model.predict(x)] on one example. *)
Definition predict (kernels : Kernels) (m : Model) (weights : Weights)
    (x : list R) : list R :=
  fold_left (λ x l, apply_layer kernels weights l x) (model_layers m) x.

End Keras.

(** ** Files: [os], [os.path], [pickle] and the weight files

    A file system is the set of its directories and the contents of its
    files, both under their path as written: a path stands for itself, and
    two spellings of one place are two paths.  Creating a directory and
    opening a file for writing raise as the operating system does when the
    path is empty, when the directory a file is to go into is not there, and
    when a regular file stands where a directory is needed; permissions,
    devices and full disks are left out. *)
Module os.

(** A pickled object: an integer, or a list or tuple of objects. *)
#[warnings="-register-all"] Inductive pyobj :=
| PyInt (n : Z)
| PySeq (items : list pyobj).

Inductive File :=
| PickleFile (obj : pyobj)
| HDF5File (groups : Keras.WeightFile).

Record FileSystem := {
  directories : gset string;
  files : gmap string File
}.

Definition sep : Ascii.ascii := "/"%char.

Fixpoint endswith_sep (path : string) : bool :=
  match path with
  | EmptyString => false
  | String c EmptyString => Ascii.eqb c sep
  | String _ rest => endswith_sep rest
  end.

Definition startswith_sep (path : string) : bool :=
  match path with
  | String c _ => Ascii.eqb c sep
  | EmptyString => false
  end.

(** [os.path.join(a, b)]. *)
Definition path_join (a b : string) : string :=
  if startswith_sep b then b
  else if bool_decide (a = EmptyString) || endswith_sep a then a +:+ b
  else a +:+ String sep b.

(** [os.path.exists(path)]; the empty path never exists. *)
Definition path_exists (path : string) (fs : FileSystem) : bool :=
  negb (bool_decide (path = EmptyString)) &&
  (bool_decide (path ∈ directories fs) || bool_decide (is_Some (files fs !! path))).

Definition is_file (path : string) (fs : FileSystem) : bool :=
  bool_decide (is_Some (files fs !! path)).

(** The directories on the way to [path]: every prefix of it that stops
    just before a separator, and [path] itself. [walked] is the part of the
    path already read. *)
Fixpoint leading_directories (walked rest : string) : list string :=
  match rest with
  | EmptyString => [walked]
  | String c rest' =>
      (if Ascii.eqb c sep && negb (bool_decide (walked = EmptyString))
       then [walked] else [])
      ++ leading_directories (walked +:+ String c EmptyString) rest'
  end.

(** [s.rstrip("/")]. *)
Fixpoint rstrip_sep (s : string) : string :=
  match s with
  | EmptyString => EmptyString
  | String c rest =>
      let rest' := rstrip_sep rest in
      if Ascii.eqb c sep && bool_decide (rest' = EmptyString) then EmptyString
      else String c rest'
  end.

(** What stands before the last separator of [rest], after [walked]; the
    empty string when there is no separator. *)
Fixpoint before_last_sep (walked rest : string) : string :=
  match rest with
  | EmptyString => EmptyString
  | String c rest' =>
      let further := before_last_sep (walked +:+ String c EmptyString) rest' in
      if Ascii.eqb c sep && bool_decide (further = EmptyString)
      then walked else further
  end.

(** The directory a file goes into, [os.path.dirname(path)], without
    trailing separators; the empty string stands for the working directory,
    and for the root. *)
Definition dirname (path : string) : string :=
  rstrip_sep (before_last_sep EmptyString path).

(** [os.makedirs(path)]: the leaf directory and the intermediate ones.  It
    raises for the empty path, for a path on which a regular file stands
    where a directory has to be, and for a leaf that is there already. *)
Definition makedirs (path : string) (fs : FileSystem) : result FileSystem :=
  if bool_decide (path = EmptyString) then Raise (FileNotFoundError path)
  else if existsb (λ d, is_file d fs && negb (bool_decide (d = path)))
            (leading_directories EmptyString path)
  then Raise (NotADirectoryError path)
  else if path_exists path fs then Raise (FileExistsError path)
  else Ok {| directories :=
               list_to_set (leading_directories EmptyString path) ∪ directories fs;
             files := files fs |}.

(** Opening [path] for writing and writing [contents]: the file is created
    or replaced.  The directory it goes into has to be there (a name without
    a separator goes into the working directory, which is), and [path] must
    not be a directory itself. *)
Definition write (path : string) (contents : File) (fs : FileSystem)
  : result FileSystem :=
  let parent := dirname path in
  if bool_decide (path ∈ directories fs) then Raise (IsADirectoryError path)
  else if negb (bool_decide (parent = EmptyString)) && is_file parent fs
  then Raise (NotADirectoryError path)
  else if negb (bool_decide (parent = EmptyString))
          && negb (bool_decide (parent ∈ directories fs))
  then Raise (FileNotFoundError path)
  else Ok {| directories := directories fs; files := <[path := contents]> (files fs) |}.

(** [pickle.load] of the file at [path]. *)
Definition pickle_load (path : string) (fs : FileSystem) : result pyobj :=
  match files fs !! path with
  | None => Raise (FileNotFoundError path)
  | Some (PickleFile obj) => Ok obj
  | Some (HDF5File _) => Raise (UnpicklingError path)
  end.

(** Opening the weight file at [path]. *)
Definition h5_load (path : string) (fs : FileSystem) : result Keras.WeightFile :=
  match files fs !! path with
  | None => Raise (FileNotFoundError path)
  | Some (HDF5File groups) => Ok groups
  | Some (PickleFile _) => Raise (OSError path)
  end.

End os.

(** ** [ae.py]: the class [Autoencoder] *)
Module ae.

Import Keras.

(** The attributes of an instance.  [weights] holds the values of the
    variables of the layers; the three models share the layers, hence the
    variables, so there is one store for them. *)
Record Autoencoder := {
  input_shape : list Z;
  conv_filters : list Z;
  conv_kernels : list Z;
  conv_strides : list Z;
  latent_space_dim : Z;
  encoder : option Model;
  decoder : option Model;
  model : option Model;
  _shape_before_bottleneck : option (list Z);
  _model_input : option KerasTensor;
  _num_conv_layers : nat;
  weights : Weights
}.

Definition set_encoder (v : option Model) (self : Autoencoder) : Autoencoder :=
  {| input_shape := input_shape self; conv_filters := conv_filters self;
     conv_kernels := conv_kernels self; conv_strides := conv_strides self;
     latent_space_dim := latent_space_dim self;
     encoder := v; decoder := decoder self; model := model self;
     _shape_before_bottleneck := _shape_before_bottleneck self;
     _model_input := _model_input self;
     _num_conv_layers := _num_conv_layers self; weights := weights self |}.

Definition set_decoder (v : option Model) (self : Autoencoder) : Autoencoder :=
  {| input_shape := input_shape self; conv_filters := conv_filters self;
     conv_kernels := conv_kernels self; conv_strides := conv_strides self;
     latent_space_dim := latent_space_dim self;
     encoder := encoder self; decoder := v; model := model self;
     _shape_before_bottleneck := _shape_before_bottleneck self;
     _model_input := _model_input self;
     _num_conv_layers := _num_conv_layers self; weights := weights self |}.

Definition set_model (v : option Model) (self : Autoencoder) : Autoencoder :=
  {| input_shape := input_shape self; conv_filters := conv_filters self;
     conv_kernels := conv_kernels self; conv_strides := conv_strides self;
     latent_space_dim := latent_space_dim self;
     encoder := encoder self; decoder := decoder self; model := v;
     _shape_before_bottleneck := _shape_before_bottleneck self;
     _model_input := _model_input self;
     _num_conv_layers := _num_conv_layers self; weights := weights self |}.

Definition set__shape_before_bottleneck (v : option (list Z)) (self : Autoencoder)
  : Autoencoder :=
  {| input_shape := input_shape self; conv_filters := conv_filters self;
     conv_kernels := conv_kernels self; conv_strides := conv_strides self;
     latent_space_dim := latent_space_dim self;
     encoder := encoder self; decoder := decoder self; model := model self;
     _shape_before_bottleneck := v;
     _model_input := _model_input self;
     _num_conv_layers := _num_conv_layers self; weights := weights self |}.

Definition set__model_input (v : option KerasTensor) (self : Autoencoder)
  : Autoencoder :=
  {| input_shape := input_shape self; conv_filters := conv_filters self;
     conv_kernels := conv_kernels self; conv_strides := conv_strides self;
     latent_space_dim := latent_space_dim self;
     encoder := encoder self; decoder := decoder self; model := model self;
     _shape_before_bottleneck := _shape_before_bottleneck self;
     _model_input := v;
     _num_conv_layers := _num_conv_layers self; weights := weights self |}.

Definition set_weights (v : Weights) (self : Autoencoder) : Autoencoder :=
  {| input_shape := input_shape self; conv_filters := conv_filters self;
     conv_kernels := conv_kernels self; conv_strides := conv_strides self;
     latent_space_dim := latent_space_dim self;
     encoder := encoder self; decoder := decoder self; model := model self;
     _shape_before_bottleneck := _shape_before_bottleneck self;
     _model_input := _model_input self;
     _num_conv_layers := _num_conv_layers self; weights := v |}.

(** [self.name.method(...)]: on [None] the method lookup raises. *)
Definition attribute {A} (name : string) (value : option A) : result A :=
  match value with
  | Some v => Ok v
  | None => Raise (AttributeError name)
  end.

(** A value that is called, or handed to the framework where an object is
    expected: [None] is a type error. *)
Definition not_None {A} (name : string) (value : option A) : result A :=
  match value with
  | Some v => Ok v
  | None => Raise (TypeError name)
  end.

(** f-strings over a layer number. *)
Definition numbered (stem : string) (n : nat) : string := stem +:+ pretty n.

(** *** The encoder *)

Definition _add_encoder_input (self : Autoencoder) : KerasTensor :=
  Input (input_shape self) "encoder_input".

Definition _add_conv_layer (self : Autoencoder) (layer_index : nat) (x : KerasTensor)
  : result KerasTensor :=
  let layer_number := (layer_index + 1)%nat in
  filters ← getitem "conv_filters" (conv_filters self) layer_index;
  kernel_size ← getitem "conv_kernels" (conv_kernels self) layer_index;
  strides ← getitem "conv_strides" (conv_strides self) layer_index;
  conv_layer ← Conv2D filters kernel_size strides same
                  (numbered "encoder_conv_layer_" layer_number);
  x ← call conv_layer x;
  x ← call (ReLU (numbered "encoder_relu_" layer_number)) x;
  x ← call (BatchNormalization (numbered "encoder_bn_" layer_number)) x;
  mret x.

Definition _add_conv_layers (self : Autoencoder) (encoder_input : KerasTensor)
  : result KerasTensor :=
  let x := encoder_input in
  for_each (_add_conv_layer self) (seq 0 (_num_conv_layers self)) x.

Definition _add_bottleneck (self : Autoencoder) (x : KerasTensor)
  : result (KerasTensor * Autoencoder) :=
  let self := set__shape_before_bottleneck (Some (int_shape_without_batch x)) self in
  x ← call Flatten x;
  dense ← Dense (latent_space_dim self) "encoder_output";
  x ← call dense x;
  mret (x, self).

Definition _build_encoder (self : Autoencoder) : result Autoencoder :=
  let encoder_input := _add_encoder_input self in
  conv_layers ← _add_conv_layers self encoder_input;
  '(bottleneck, self) ← _add_bottleneck self conv_layers;
  let self := set__model_input (Some encoder_input) self in
  mret (set_encoder (Some (new_Model encoder_input bottleneck (Some "encoder"%string))) self).

(** *** The decoder *)

Definition _add_decoder_input (self : Autoencoder) : KerasTensor :=
  Input [latent_space_dim self] "decoder_input".

Definition _add_dense_layer (self : Autoencoder) (decoder_input : KerasTensor)
  : result KerasTensor :=
  shape ← not_None "_shape_before_bottleneck" (_shape_before_bottleneck self);
  let num_neurons := np_prod shape in
  dense ← Dense num_neurons "decoder_dense";
  call dense decoder_input.

Definition _add_reshape_layer (self : Autoencoder) (dense_layer : KerasTensor)
  : result KerasTensor :=
  shape ← not_None "_shape_before_bottleneck" (_shape_before_bottleneck self);
  call (Reshape shape) dense_layer.

Definition _add_conv_transpose_layer (self : Autoencoder) (layer_index : nat)
    (x : KerasTensor) : result KerasTensor :=
  let layer_num := (_num_conv_layers self - layer_index)%nat in
  filters ← getitem "conv_filters" (conv_filters self) layer_index;
  kernel_size ← getitem "conv_kernels" (conv_kernels self) layer_index;
  strides ← getitem "conv_strides" (conv_strides self) layer_index;
  conv_transpose_layer ← Conv2DTranspose filters kernel_size strides same
                            (numbered "dcoder_conv_transpose_layer_" layer_num);
  x ← call conv_transpose_layer x;
  x ← call (ReLU (numbered "decoder_relu_" layer_num)) x;
  x ← call (BatchNormalization (numbered "decoder_bn_" layer_num)) x;
  mret x.

Definition _add_conv_transpose_layers (self : Autoencoder) (x : KerasTensor)
  : result KerasTensor :=
  for_each (_add_conv_transpose_layer self) (reverse (seq 0 (_num_conv_layers self))) x.

Definition _add_decoder_output (self : Autoencoder) (x : KerasTensor)
  : result KerasTensor :=
  kernel_size ← getitem "conv_kernels" (conv_kernels self) 0;
  strides ← getitem "conv_strides" (conv_strides self) 0;
  conv_transpose_layer ← Conv2DTranspose 1 kernel_size strides same
                            (numbered "decoder_conv_transpose_layer_" (_num_conv_layers self));
  x ← call conv_transpose_layer x;
  let output_layer := call (Activation "sigmoid" "sigmoid_layer") x in
  output_layer.

Definition _build_decoder (self : Autoencoder) : result Autoencoder :=
  let decoder_input := _add_decoder_input self in
  dense_layer ← _add_dense_layer self decoder_input;
  reshape_layer ← _add_reshape_layer self dense_layer;
  conv_transpose_layer ← _add_conv_transpose_layers self reshape_layer;
  decoder_output ← _add_decoder_output self conv_transpose_layer;
  mret (set_decoder (Some (new_Model decoder_input decoder_output (Some "decoder"%string))) self).

(** *** The autoencoder *)

Definition _build_autoencoder (self : Autoencoder) : result Autoencoder :=
  let model_input := _model_input self in
  encoder ← not_None "encoder" (encoder self);
  model_input ← not_None "_model_input" model_input;
  encoded ← call (as_layer encoder) model_input;
  decoder ← not_None "decoder" (decoder self);
  model_output ← call (as_layer decoder) encoded;
  mret (set_model (Some (new_Model model_input model_output None)) self).

Definition _build (self : Autoencoder) : result Autoencoder :=
  self ← _build_encoder self;
  self ← _build_decoder self;
  _build_autoencoder self.

(** The constructor.  The layers draw the initial values of their variables
    from [rng] as the graph is built; the store is filled from the finished
    model, layer after layer: for the encoder and for the decoder the
    trainable variables, then the others. *)
Definition __init__ (rng : Initializer)
    (input_shape conv_filters conv_kernels conv_strides : list Z)
    (latent_space_dim : Z) : result Autoencoder :=
  let self :=
    {| input_shape := input_shape;
       conv_filters := conv_filters;
       conv_kernels := conv_kernels;
       conv_strides := conv_strides;
       latent_space_dim := latent_space_dim;
       encoder := None;
       decoder := None;
       model := None;
       _shape_before_bottleneck := None;
       _model_input := None;
       _num_conv_layers := length conv_filters;
       weights := [] |} in
  self ← _build self;
  model ← attribute "model" (model self);
  mret (set_weights (initial_weights rng (concat (model_variables model))) self).

(** *** Methods *)

Definition summary (self : Autoencoder) : result (list string) :=
  encoder ← attribute "encoder" (encoder self);
  let printed_encoder := Keras.summary encoder in
  decoder ← attribute "decoder" (decoder self);
  let printed_decoder := Keras.summary decoder in
  model ← attribute "model" (model self);
  mret (printed_encoder ++ printed_decoder ++ Keras.summary model).

Definition compile (self : Autoencoder) (learning_rate : Q) : result Autoencoder :=
  let optimizer := learning_rate in
  let mse_loss := "mean_squared_error"%string in
  model ← attribute "model" (model self);
  mret (set_model (Some (Keras.compile model optimizer mse_loss)) self).

Definition train (trainer : Fit) (self : Autoencoder) (x_train : ndarray float32)
    (batch_size num_epochs : Z) : result Autoencoder :=
  model ← attribute "model" (model self);
  trained ← fit trainer model (weights self) x_train x_train batch_size num_epochs true;
  mret (set_weights trained self).

(** The methods that write: the outcome and the file system they leave,
    also when they raise. *)
Definition _create_folder_if_it_doesnt_exist (self : Autoencoder) (folder : string)
    (fs : os.FileSystem) : result () * os.FileSystem :=
  if negb (os.path_exists folder fs) then
    match os.makedirs folder fs with
    | Ok fs' => (Ok (), fs')
    | Raise e => (Raise e, fs)
    end
  else (Ok (), fs).

Definition py_ints (l : list Z) : os.pyobj := os.PySeq (map os.PyInt l).

Definition _save_parameters (self : Autoencoder) (save_folder : string)
    (fs : os.FileSystem) : result () * os.FileSystem :=
  let parameters :=
    os.PySeq [py_ints (input_shape self);
              py_ints (conv_filters self);
              py_ints (conv_kernels self);
              py_ints (conv_strides self);
              os.PyInt (latent_space_dim self)] in
  let save_path := os.path_join save_folder "parameters.pkl" in
  match os.write save_path (os.PickleFile parameters) fs with
  | Ok fs' => (Ok (), fs')
  | Raise e => (Raise e, fs)
  end.

Definition _save_weights (self : Autoencoder) (save_folder : string)
    (fs : os.FileSystem) : result () * os.FileSystem :=
  let save_path := os.path_join save_folder "weights.h5" in
  match attribute "model" (model self) with
  | Ok model =>
      match os.write save_path (os.HDF5File (save_weights model (weights self))) fs with
      | Ok fs' => (Ok (), fs')
      | Raise e => (Raise e, fs)
      end
  | Raise e => (Raise e, fs)
  end.

Definition save (self : Autoencoder) (save_folder : string) (fs : os.FileSystem)
  : result () * os.FileSystem :=
  match _create_folder_if_it_doesnt_exist self save_folder fs with
  | (Raise e, fs) => (Raise e, fs)
  | (Ok _, fs) =>
      match _save_parameters self save_folder fs with
      | (Raise e, fs) => (Raise e, fs)
      | (Ok _, fs) => _save_weights self save_folder fs
      end
  end.

Definition load_weights (self : Autoencoder) (weights_path : string)
    (fs : os.FileSystem) : result Autoencoder :=
  model ← attribute "model" (model self);
  groups ← os.h5_load weights_path fs;
  loaded ← Keras.load_weights model groups;
  mret (set_weights loaded self).

(** The hyperparameters are integers and sequences of integers throughout.
    Python hands the items of the unpickled list to the constructor
    unchecked, and an item of another type fails, or not, where the builder
    or the framework first uses it; here such an item raises a TypeError
    before the constructor runs.  The statements below are about parameter
    lists of integers and sequences of integers, and about lists of the
    wrong length. *)
Definition as_int (obj : os.pyobj) : result Z :=
  match obj with
  | os.PyInt n => Ok n
  | os.PySeq _ => Raise (TypeError "an integer is required")
  end.

Fixpoint as_ints_items (items : list os.pyobj) : result (list Z) :=
  match items with
  | [] => Ok []
  | obj :: rest => n ← as_int obj; l ← as_ints_items rest; mret (n :: l)
  end.

Definition as_ints (obj : os.pyobj) : result (list Z) :=
  match obj with
  | os.PySeq items => as_ints_items items
  | os.PyInt _ => Raise (TypeError "a sequence is required")
  end.

(** A shape: the framework takes an integer for the shape of one entry, as
    it does for [latent_space_dim] in [_add_decoder_input]. *)
Definition as_shape (obj : os.pyobj) : result (list Z) :=
  match obj with
  | os.PySeq items => as_ints_items items
  | os.PyInt n => Ok [n]
  end.

(** The constructor called on the unpacked list [parameters]: its items, in
    order, are the five positional arguments. *)
Definition Autoencoder_star (rng : Initializer) (parameters : os.pyobj)
  : result Autoencoder :=
  match parameters with
  | os.PySeq [arg1; arg2; arg3; arg4; arg5] =>
      input_shape ← as_shape arg1;
      conv_filters ← as_ints arg2;
      conv_kernels ← as_ints arg3;
      conv_strides ← as_ints arg4;
      latent_space_dim ← as_int arg5;
      __init__ rng input_shape conv_filters conv_kernels conv_strides latent_space_dim
  | os.PySeq _ => Raise (TypeError "__init__() takes 5 positional arguments")
  | os.PyInt _ => Raise (TypeError "argument after * must be an iterable")
  end.

(** The class method [load]; [rng] initializes the rebuilt layers before the
    saved weights replace the initial values. *)
Definition load (rng : Initializer) (save_folder : string) (fs : os.FileSystem)
  : result Autoencoder :=
  let parameters_path := os.path_join save_folder "parameters.pkl" in
  parameters ← os.pickle_load parameters_path fs;
  autoencoder ← Autoencoder_star rng parameters;
  let weights_path := os.path_join save_folder "weights.h5" in
  load_weights autoencoder weights_path fs.

End ae.

(** ** [train.py] *)
Module train_py.

Import Keras ae.

Definition LEARNING_RATE : Q := 5 # 10000.
Definition BATCH_SIZE : Z := 32.
Definition EPOCHS : Z := 20.

(** What [mnist.load_data()] hands back: images and labels of the training
    and of the test partition, as arrays of unsigned bytes. *)
Abbreviation Dataset := ((ndarray Z * ndarray Z) * (ndarray Z * ndarray Z))%type.

(** [mnist.load_data] itself: it reads the dataset from its cache, which it
    downloads and writes first when it is not there, and it may fail.  What
    it hands back and what it does to the file system stay a parameter. *)
Abbreviation Loader := (os.FileSystem → result Dataset * os.FileSystem).

(** [a.astype("float32") / d] for an integer [d]: every element is
    converted to single precision and divided in single precision. *)
Definition astype_float32_div (a : ndarray Z) (d : Z) : ndarray float32 :=
  {| nd_shape := nd_shape a;
     nd_data := map (λ p, float32_div (float32_of_Z p) (float32_of_Z d)) (nd_data a) |}.

(** [a.reshape(new_shape)]: the number of elements has to stay the same. *)
Definition reshape {A} (a : ndarray A) (new_shape : list Z) : result (ndarray A) :=
  if np_prod new_shape =? np_prod (nd_shape a) then
    Ok {| nd_shape := new_shape; nd_data := nd_data a |}
  else Raise (ValueError "cannot reshape array").

Definition load_mnist (mnist_load_data : Loader) (fs : os.FileSystem)
  : result (ndarray float32 * ndarray Z * ndarray float32 * ndarray Z) * os.FileSystem :=
  match mnist_load_data fs with
  | (Raise e, fs) => (Raise e, fs)
  | (Ok ((x_train, y_train), (x_test, y_test)), fs) =>
      (let x_train := astype_float32_div x_train 255 in
       x_train ← reshape x_train (nd_shape x_train ++ [1]);
       let x_test := astype_float32_div x_test 255 in
       x_test ← reshape x_test (nd_shape x_test ++ [1]);
       mret (x_train, y_train, x_test, y_test),
       fs)
  end.

Definition train (rng : Initializer) (trainer : Fit) (x_train : ndarray float32)
    (learning_rate : Q) (batch_size epochs : Z)
  : result (list string * Autoencoder) :=
  autoencoder ← __init__ rng [28; 28; 1] [32; 64; 64; 64] [3; 3; 3; 3] [1; 2; 2; 1] 2;
  printed ← summary autoencoder;
  autoencoder ← compile autoencoder learning_rate;
  autoencoder ← ae.train trainer autoencoder x_train batch_size epochs;
  mret (printed, autoencoder).

(** [a[:k]] along the first axis. *)
Definition take_first {A} (k : Z) (a : ndarray A) : ndarray A :=
  match nd_shape a with
  | [] => a
  | n :: inner =>
      let k := Z.min (Z.max k 0) n in
      {| nd_shape := k :: inner;
         nd_data := take (Z.to_nat (k * np_prod inner)) (nd_data a) |}
  end.

(** The script: what it trains on, and the two instances it ends with. *)
Definition main (mnist_load_data : Loader) (rng rng2 : Initializer) (trainer : Fit)
    (fs : os.FileSystem)
  : result (ndarray float32 * Autoencoder * Autoencoder) * os.FileSystem :=
  match load_mnist mnist_load_data fs with
  | (Raise e, fs) => (Raise e, fs)
  | (Ok (x_train, _, _, _), fs) =>
      let training_input := take_first 500 x_train in
      match train rng trainer training_input LEARNING_RATE BATCH_SIZE EPOCHS with
      | Raise e => (Raise e, fs)
      | Ok (_, autoencoder) =>
          match save autoencoder "model" fs with
          | (Raise e, fs) => (Raise e, fs)
          | (Ok _, fs) =>
              (autoencoder2 ← load rng2 "model" fs;
               mret (training_input, autoencoder, autoencoder2), fs)
          end
      end
  end.

End train_py.

Import Keras ae.

(** ** Notions the statements are phrased in *)

(** The three per-layer sequences have the same length. *)
Definition aligned (filters kernels strides : list Z) : Prop :=
  length kernels = length filters ∧ length strides = length filters.


(** Height and width of a feature map. *)
Definition spatial (shape : list Z) : list Z := take 2 shape.

(** The block the encoder adds for a layer index. *)
Definition encoder_block (self : Autoencoder) (layer_index : nat) : list layer :=
  let layer_number := (layer_index + 1)%nat in
  [Conv2DLayer (nth layer_index (conv_filters self) 0)
     (nth layer_index (conv_kernels self) 0)
     (nth layer_index (conv_strides self) 0) same
     (numbered "encoder_conv_layer_" layer_number);
   ReLULayer (numbered "encoder_relu_" layer_number);
   BatchNormalizationLayer (numbered "encoder_bn_" layer_number)].

(** The block the decoder adds for a layer index. *)
Definition decoder_block (self : Autoencoder) (layer_index : nat) : list layer :=
  let layer_num := (_num_conv_layers self - layer_index)%nat in
  [Conv2DTransposeLayer (nth layer_index (conv_filters self) 0)
     (nth layer_index (conv_kernels self) 0)
     (nth layer_index (conv_strides self) 0) same
     (numbered "dcoder_conv_transpose_layer_" layer_num);
   ReLULayer (numbered "decoder_relu_" layer_num);
   BatchNormalizationLayer (numbered "decoder_bn_" layer_num)].

(** The decoder's output layers. *)
Definition decoder_output_layers (self : Autoencoder) : list layer :=
  [Conv2DTransposeLayer 1 (nth 0 (conv_kernels self) 0) (nth 0 (conv_strides self) 0)
     same (numbered "decoder_conv_transpose_layer_" (_num_conv_layers self));
   ActivationLayer "sigmoid" "sigmoid_layer"].

(** A block can be built: its three sizes are there and positive. *)
Definition block_ok (self : Autoencoder) (layer_index : nat) : Prop :=
  0 < nth layer_index (conv_filters self) 0 ∧
  0 < nth layer_index (conv_kernels self) 0 ∧
  0 < nth layer_index (conv_strides self) 0.

(** Static shapes along the two stacks. *)
Definition conv_shape (self : Autoencoder) (shape : list Z) (layer_index : nat)
  : list Z :=
  match reverse shape with
  | _ :: cols :: rows :: leading =>
      reverse leading
      ++ [conv_output_length rows (nth layer_index (conv_kernels self) 0) same
            (nth layer_index (conv_strides self) 0);
          conv_output_length cols (nth layer_index (conv_kernels self) 0) same
            (nth layer_index (conv_strides self) 0);
          nth layer_index (conv_filters self) 0]
  | _ => shape
  end.

Definition conv_transpose_shape (self : Autoencoder) (shape : list Z)
    (layer_index : nat) : list Z :=
  match shape with
  | [rows; cols; _] =>
      [deconv_output_length rows (nth layer_index (conv_kernels self) 0) same
         (nth layer_index (conv_strides self) 0);
       deconv_output_length cols (nth layer_index (conv_kernels self) 0) same
         (nth layer_index (conv_strides self) 0);
       nth layer_index (conv_filters self) 0]
  | _ => shape
  end.

(** The feature map the encoder's convolutions end with. *)
Definition feature_shape (self : Autoencoder) : list Z :=
  fold_left (conv_shape self) (seq 0 (_num_conv_layers self)) (input_shape self).

(** The layers the encoder calls on its input placeholder, in order, and the
    layers of the encoder. *)
Definition encoder_body (self : Autoencoder) : list layer :=
  flat_map (encoder_block self) (seq 0 (_num_conv_layers self))
  ++ [FlattenLayer; DenseLayer (latent_space_dim self) "encoder_output"].

Definition encoder_layers (self : Autoencoder) : list layer :=
  InputLayer (input_shape self) "encoder_input" :: encoder_body self.

(** The same for the decoder, for a feature map of shape [shape]. *)
Definition decoder_body (self : Autoencoder) (shape : list Z) : list layer :=
  [DenseLayer (np_prod shape) "decoder_dense"; ReshapeLayer shape]
  ++ flat_map (decoder_block self) (reverse (seq 0 (_num_conv_layers self)))
  ++ decoder_output_layers self.

Definition decoder_layers (self : Autoencoder) (shape : list Z) : list layer :=
  InputLayer [latent_space_dim self] "decoder_input" :: decoder_body self shape.

(** The shape the decoder ends with. *)
Definition decoder_output_shape (self : Autoencoder) (shape : list Z) : list Z :=
  match fold_left (conv_transpose_shape self)
          (reverse (seq 0 (_num_conv_layers self))) shape with
  | [rows; cols; _] =>
      [deconv_output_length rows (nth 0 (conv_kernels self) 0) same
         (nth 0 (conv_strides self) 0);
       deconv_output_length cols (nth 0 (conv_kernels self) 0) same
         (nth 0 (conv_strides self) 0);
       1]
  | other => other
  end.

(** The stride a layer index has, and the strides of a list of indices. *)
Definition stride_at (self : Autoencoder) (layer_index : nat) : Z :=
  nth layer_index (conv_strides self) 0.

(** What a stack of [same]-padded convolutions with these strides leaves of
    a length: a rounded-up division per layer. *)
Definition downsampled (strides : list Z) (len : Z) : Z :=
  fold_left (λ len s, (len + s - 1) / s) strides len.

(** Strides of the convolutions, and of the transposed convolutions, among
    some layers; their products are the factors by which a stack of such
    layers with [same] padding shrinks, or stretches, height and width. *)
Definition conv_strides_in (layers : list layer) : list Z :=
  omap (λ l, match l with Conv2DLayer _ _ s _ _ => Some s | _ => None end) layers.

Definition conv_transpose_strides_in (layers : list layer) : list Z :=
  omap (λ l, match l with Conv2DTransposeLayer _ _ s _ _ => Some s | _ => None end)
    layers.

Definition downsampling_factor (m : Model) : Z :=
  np_prod (conv_strides_in (model_layers m)).

Definition upsampling_factor (m : Model) : Z :=
  np_prod (conv_transpose_strides_in (model_layers m)).

(** Two instances with the same hyperparameters. *)
Definition same_hyperparameters (a b : Autoencoder) : Prop :=
  input_shape a = input_shape b ∧ conv_filters a = conv_filters b ∧
  conv_kernels a = conv_kernels b ∧ conv_strides a = conv_strides b ∧
  latent_space_dim a = latent_space_dim b ∧
  _num_conv_layers a = _num_conv_layers b.

(** Two models with the same graph; they may differ in the optimizer. *)
Definition same_graph (a b : Model) : Prop :=
  model_name a = model_name b ∧ model_input_shape a = model_input_shape b ∧
  model_output_shape a = model_output_shape b ∧
  model_layers a = model_layers b ∧ model_variables a = model_variables b.

(** The attributes as the constructor sets them, before it builds. *)
Definition new_instance (input_shape conv_filters conv_kernels conv_strides : list Z)
    (latent_space_dim : Z) : Autoencoder :=
  {| ae.input_shape := input_shape; ae.conv_filters := conv_filters;
     ae.conv_kernels := conv_kernels; ae.conv_strides := conv_strides;
     ae.latent_space_dim := latent_space_dim;
     encoder := None; decoder := None; model := None;
     _shape_before_bottleneck := None; _model_input := None;
     _num_conv_layers := length conv_filters; weights := [] |}.

(** What [_build] needs to get through. *)
Definition buildable (self : Autoencoder) : Prop :=
  length (input_shape self) = 3%nat ∧
  Forall (block_ok self) (seq 0 (_num_conv_layers self)) ∧
  0 < nth 0 (conv_kernels self) 0 ∧ 0 < nth 0 (conv_strides self) 0 ∧
  0 ≤ latent_space_dim self ∧ 0 ≤ np_prod (feature_shape self).

(** The model that chains an encoder and a decoder behind the encoder's
    input placeholder. *)
Definition chained (input_shape : list Z) (enc dec : Model) : Model :=
  {| model_name := None;
     model_input_shape := input_shape;
     model_output_shape := model_output_shape dec;
     model_layers := [InputLayer input_shape "encoder_input"; as_layer enc; as_layer dec];
     model_variables := [[]; model_weights enc; model_weights dec];
     model_optimizer := None |}.

(** What [_build] leaves in the attributes: the two graphs are the ones
    that calling the layers of [encoder_body] and [decoder_body] in turn
    gives. *)
Definition built_from (self built : Autoencoder) : Prop :=
  same_hyperparameters self built ∧
  _shape_before_bottleneck built = Some (feature_shape self) ∧
  _model_input built = Some (Input (input_shape self) "encoder_input") ∧
  ∃ x_enc x_dec,
    for_each call (encoder_body self) (Input (input_shape self) "encoder_input")
      = Ok x_enc ∧
    for_each call (decoder_body self (feature_shape self))
      (Input [latent_space_dim self] "decoder_input") = Ok x_dec ∧
    kt_shape x_enc = [latent_space_dim self] ∧
    kt_shape x_dec = decoder_output_shape self (feature_shape self) ∧
    let enc := new_Model (Input (input_shape self) "encoder_input") x_enc
                 (Some "encoder"%string) in
    let dec := new_Model (Input [latent_space_dim self] "decoder_input") x_dec
                 (Some "decoder"%string) in
    encoder built = Some enc ∧ decoder built = Some dec ∧
    model built = Some (chained (input_shape self) enc dec).

(** Output shapes of the encoder and of the decoder the constructor builds
    from some hyperparameters (the initial values do not matter here). *)
Definition built_output_shapes (input_shape conv_filters conv_kernels conv_strides : list Z)
    (latent_space_dim : Z) : result (list Z * list Z) :=
  self ← __init__ (λ _ _, []) input_shape conv_filters conv_kernels conv_strides
            latent_space_dim;
  enc ← attribute "encoder" (encoder self);
  dec ← attribute "decoder" (decoder self);
  mret (model_output_shape enc, model_output_shape dec).

(** The factors by which the encoder and the decoder that the constructor
    builds from some hyperparameters shrink and stretch height and width. *)
Definition built_factors (input_shape conv_filters conv_kernels conv_strides : list Z)
    (latent_space_dim : Z) : result (Z * Z) :=
  self ← __init__ (λ _ _, []) input_shape conv_filters conv_kernels conv_strides
            latent_space_dim;
  enc ← attribute "encoder" (encoder self);
  dec ← attribute "decoder" (decoder self);
  mret (downsampling_factor enc, upsampling_factor dec).

(** What holds of every instance: it carries what [_build] makes of its own
    hyperparameters (the model possibly with an optimizer), and one value of
    the right shape for every variable. *)
Definition well_formed (self : Autoencoder) : Prop :=
  ∃ built mdl0 mdl,
    _build (new_instance (input_shape self) (conv_filters self) (conv_kernels self)
              (conv_strides self) (latent_space_dim self)) = Ok built ∧
    model built = Some mdl0 ∧ model self = Some mdl ∧ same_graph mdl mdl0 ∧
    encoder self = encoder built ∧ decoder self = decoder built ∧
    map nd_shape (weights self) = concat (model_variables mdl0).

(** The instance both scripts construct, with every variable left empty. *)
Definition script_instance : Autoencoder :=
  match __init__ (λ _ _, []) [28; 28; 1] [32; 64; 64; 64] [3; 3; 3; 3] [1; 2; 2; 1] 2 with
  | Ok self => self
  | Raise _ => new_instance [] [] [] [] 0
  end.

(** A file system with nothing in it. *)
Definition empty_fs : os.FileSystem := {| os.directories := ∅; os.files := ∅ |}.

(** The script's instance after [compile] and [train], with a training run
    that leaves in each variable its own position. *)
Definition trained_instance : Autoencoder :=
  match
    compiled ← compile script_instance train_py.LEARNING_RATE;
    train (λ _ _ _ _ _ _ _, Ok (λ i, [inject_Z (Z.of_nat i)])) compiled
      {| nd_shape := [1; 28; 28; 1]; nd_data := [] |}
      train_py.BATCH_SIZE train_py.EPOCHS
  with
  | Ok self => self
  | Raise _ => script_instance
  end.

(** The instances: what the constructor returns, and what the methods that
    change an instance make of it. *)
Inductive instance : Autoencoder → Prop :=
| instance_init rng input_shape conv_filters conv_kernels conv_strides
    latent_space_dim self :
    __init__ rng input_shape conv_filters conv_kernels conv_strides
      latent_space_dim = Ok self →
    instance self
| instance_compile self learning_rate self' :
    instance self → compile self learning_rate = Ok self' → instance self'
| instance_train trainer self x_train batch_size num_epochs self' :
    instance self →
    train trainer self x_train batch_size num_epochs = Ok self' →
    instance self'
| instance_load_weights self weights_path fs self' :
    instance self → load_weights self weights_path fs = Ok self' →
    instance self'.

(** A model used as a layer lists its trainable variables, then the
    others. *)
Definition owns (l : layer) (owned : list (list Z)) : Prop :=
  match l with
  | FunctionalLayer _ _ _ _ trainable non_trainable => owned = trainable ++ non_trainable
  | _ => True
  end.

(** The object [save] pickles: the five hyperparameters, in the order of
    the constructor's arguments. *)
Definition saved_parameters (self : Autoencoder) : os.File :=
  os.PickleFile
    (os.PySeq [py_ints (input_shape self); py_ints (conv_filters self);
               py_ints (conv_kernels self); py_ints (conv_strides self);
               os.PyInt (latent_space_dim self)]).

(** A file can be written at [path]: no directory stands there, and the
    directory the file goes into is there, unless it is the working
    directory. *)
Definition writable (path : string) (fs : os.FileSystem) : Prop :=
  (path ∉ os.directories fs) ∧
  (os.dirname path ≠ EmptyString →
   os.files fs !! os.dirname path = None ∧ os.dirname path ∈ os.directories fs).

(** A file system in which a regular file has the name "model". *)
Definition occupied_fs : os.FileSystem :=
  {| os.directories := ∅;
     os.files := {["model"%string := os.PickleFile (os.PyInt 0)]} |}.

(** A dataset loader that finds the dataset in its cache: it hands it back
    and leaves the files alone. *)
Definition cached (dataset : train_py.Dataset) : train_py.Loader :=
  λ fs, (Ok dataset, fs).

(** What is checked of a byte: converted to single precision and divided by
    255, it gives a finite number between 0 and 1, within 2^-25 of the exact
    quotient. *)
Definition pixel_normalized (p : Z) : bool :=
  let v := float32_div (float32_of_Z p) (float32_of_Z 255) in
  float32_is_finite v
  && Qle_bool 0 (float32_value v) && Qle_bool (float32_value v) 1
  && Qle_bool (inject_Z p / inject_Z 255 - (1 # 33554432)) (float32_value v)
  && Qle_bool (float32_value v) (inject_Z p / inject_Z 255 + (1 # 33554432)).

(** Division rounded up: a [same]-padded convolution with stride [b] leaves
    [ceil_div a b] of a length [a]. *)
Definition ceil_div (a b : Z) : Z := (a + b - 1) / b.

(** The entries of the kernel sizes, or of the strides, that the builder
    reads: those at the layer indices, and the one at index 0, which the
    decoder's output layer reads even when there is no layer. *)
Definition entries_read (conv_filters l : list Z) : list Z :=
  take (length conv_filters `max` 1) l.

(** An instance with other kernel sizes and strides in its attributes. *)
Definition with_sequences (kernels strides : list Z) (self : Autoencoder)
  : Autoencoder :=
  {| ae.input_shape := input_shape self; ae.conv_filters := conv_filters self;
     ae.conv_kernels := kernels; ae.conv_strides := strides;
     ae.latent_space_dim := latent_space_dim self;
     encoder := encoder self; decoder := decoder self; model := model self;
     _shape_before_bottleneck := _shape_before_bottleneck self;
     _model_input := _model_input self;
     _num_conv_layers := _num_conv_layers self; weights := weights self |}.

(** An exception of the file system. *)
Definition file_error (e : exn) : Prop :=
  match e with
  | FileNotFoundError _ | FileExistsError _ | NotADirectoryError _
  | IsADirectoryError _ | OSError _ => True
  | _ => False
  end.

(** ** The monad and the loops *)

Lemma bind_Ok {A B} (c : result A) (k : A → result B) (b : B) :
  c ≫= k = Ok b ↔ ∃ a, c = Ok a ∧ k a = Ok b.
Proof.
  destruct c as [a|e]; simpl; split.
  - intros H. exists a. auto.
  - intros (a' & [= <-] & H). exact H.
  - discriminate.
  - intros (a' & H & _). discriminate.
Qed.

Lemma bind_ret {A} (c : result A) : c ≫= (λ a, Ok a) = c.
Proof. destruct c; reflexivity. Qed.

Lemma Ok_bind {A B} (a : A) (k : A → result B) : Ok a ≫= k = k a.
Proof. reflexivity. Qed.

(** Run the statements that are known to return. *)
Ltac returns := repeat (rewrite Ok_bind; cbv beta).

Lemma for_each_app {I A} (body : I → A → result A) (l1 l2 : list I) (x : A) :
  for_each body (l1 ++ l2) x = for_each body l1 x ≫= for_each body l2.
Proof.
  revert x. induction l1 as [|i l1 IH]; intros x; simpl; [reflexivity|].
  destruct (body i x) as [x'|e]; simpl; [apply IH | reflexivity].
Qed.

Lemma getitem_Ok name (l : list Z) i v :
  getitem name l i = Ok v ↔ l !! i = Some v.
Proof.
  unfold getitem. destruct (l !! i); split; intros H; congruence.
Qed.

Lemma getitem_nth name (l : list Z) i v :
  getitem name l i = Ok v → nth i l 0 = v.
Proof.
  intros H%getitem_Ok. rewrite nth_lookup, H. reflexivity.
Qed.

Lemma getitem_positive name (l : list Z) i :
  0 < nth i l 0 → getitem name l i = Ok (nth i l 0).
Proof.
  intros H. apply getitem_Ok. rewrite nth_lookup in *.
  destruct (l !! i); simpl in *; [reflexivity | lia].
Qed.


Lemma nth_positive_in_range (l : list Z) i :
  0 < nth i l 0 → (i < length l)%nat.
Proof.
  intros H. destruct (decide (i < length l)%nat) as [|Hge]; [assumption|].
  rewrite nth_overflow in H; lia.
Qed.

Lemma Forall_positive_nth (l : list Z) i :
  Forall (λ d, 0 < d) l → (i < length l)%nat → 0 < nth i l 0.
Proof.
  intros Hall Hi. rewrite nth_lookup.
  destruct (lookup_lt_is_Some_2 l i Hi) as [v Hv]. rewrite Hv. simpl.
  exact (proj1 (Forall_lookup _ l) Hall i v Hv).
Qed.

Lemma Conv2D_Ok filters kernel_size strides padding name l :
  Conv2D filters kernel_size strides padding name = Ok l ↔
  (0 < filters ∧ 0 < kernel_size ∧ 0 < strides) ∧
  l = Conv2DLayer filters kernel_size strides padding name.
Proof.
  unfold Conv2D, require.
  destruct (Z.ltb_spec 0 filters), (Z.ltb_spec 0 kernel_size),
    (Z.ltb_spec 0 strides); simpl; split;
    first [ intros [= <-]; split; [lia | reflexivity]
          | intros [? ->]; reflexivity
          | discriminate
          | intros [? _]; lia ].
Qed.

Lemma Conv2DTranspose_Ok filters kernel_size strides padding name l :
  Conv2DTranspose filters kernel_size strides padding name = Ok l ↔
  (0 < filters ∧ 0 < kernel_size ∧ 0 < strides) ∧
  l = Conv2DTransposeLayer filters kernel_size strides padding name.
Proof.
  unfold Conv2DTranspose, require.
  destruct (Z.ltb_spec 0 filters), (Z.ltb_spec 0 kernel_size),
    (Z.ltb_spec 0 strides); simpl; split;
    first [ intros [= <-]; split; [lia | reflexivity]
          | intros [? ->]; reflexivity
          | discriminate
          | intros [? _]; lia ].
Qed.

Lemma Dense_Ok units name l :
  Dense units name = Ok l ↔ 0 ≤ units ∧ l = DenseLayer units name.
Proof.
  unfold Dense, require. destruct (Z.leb_spec 0 units); simpl; split;
    first [ intros [= <-]; split; [lia | reflexivity]
          | intros [? ->]; reflexivity
          | discriminate
          | intros [? _]; lia ].
Qed.

(** Calling a layer appends it to the path, with its variables. *)
Lemma call_Ok l x x' :
  call l x = Ok x' ↔
  ∃ shape, compute_output_shape l (kt_shape x) = Ok shape ∧
    x' = {| kt_shape := shape; kt_layers := kt_layers x ++ [l];
            kt_variables := kt_variables x ++ [layer_variables l (kt_shape x)] |}.
Proof.
  unfold call. rewrite bind_Ok. split.
  - intros (shape & H & [= <-]). eauto.
  - intros (shape & H & ->). eauto.
Qed.


Lemma calls_layers ls : ∀ x x',
  for_each call ls x = Ok x' →
  kt_layers x' = kt_layers x ++ ls ∧
  length (kt_variables x') = (length (kt_variables x) + length ls)%nat.
Proof.
  induction ls as [|l ls IH]; intros x x'; simpl.
  - intros [= <-]. rewrite app_nil_r. split; [reflexivity | lia].
  - intros (x1 & (shape & _ & ->)%call_Ok & H)%bind_Ok.
    apply IH in H as [-> ->]. simpl. rewrite <- app_assoc, length_app. simpl.
    split; [reflexivity | lia].
Qed.

(** A stack of blocks, one per index of a list of indices: what both loops
    of the builder have in common. *)
Section Stack.

Variable body : nat → KerasTensor → result KerasTensor.
Variable block : nat → list layer.
Variable ok : nat → Prop.
Variable shape_after : list Z → nat → list Z.
Variable rank_ok : list Z → Prop.

Hypothesis body_spec : ∀ i x x',
  body i x = Ok x' ↔ ok i ∧ for_each call (block i) x = Ok x'.
Hypothesis block_shape : ∀ i x x',
  for_each call (block i) x = Ok x' →
  rank_ok (kt_shape x) ∧ kt_shape x' = shape_after (kt_shape x) i.
Hypothesis block_runs : ∀ i x,
  rank_ok (kt_shape x) → ∃ x', for_each call (block i) x = Ok x'.
Hypothesis shape_rank : ∀ shape i,
  rank_ok shape → rank_ok (shape_after shape i).

Lemma stack_rank indices : ∀ shape,
  rank_ok shape → rank_ok (fold_left shape_after indices shape).
Proof.
  induction indices as [|i indices IH]; intros shape H; simpl; auto.
Qed.

Lemma stack_inv indices : ∀ x x',
  for_each body indices x = Ok x' →
  Forall ok indices ∧
  kt_layers x' = kt_layers x ++ flat_map block indices ∧
  kt_shape x' = fold_left shape_after indices (kt_shape x) ∧
  (indices ≠ [] → rank_ok (kt_shape x)).
Proof.
  induction indices as [|i indices IH]; intros x x'; simpl.
  - intros [= <-]. rewrite app_nil_r. split_and!; [constructor | done..].
  - intros (x1 & [Hok Hblock]%body_spec & Hrest)%bind_Ok.
    destruct (block_shape _ _ _ Hblock) as [Hrank Hshape].
    apply calls_layers in Hblock as [Hlayers _].
    apply IH in Hrest as (Hall & -> & -> & _).
    rewrite Hlayers, Hshape, <- app_assoc.
    split_and!; [constructor; assumption | done..].
Qed.

Lemma stack_calls indices : ∀ x x',
  for_each body indices x = Ok x' →
  for_each call (flat_map block indices) x = Ok x'.
Proof.
  induction indices as [|i indices IH]; intros x x'; cbn [for_each flat_map].
  - trivial.
  - intros (x1 & [_ Hblock]%body_spec & Hrest)%bind_Ok.
    rewrite for_each_app, Hblock. apply IH, Hrest.
Qed.


End Stack.

(** *** The encoder's loop *)

Lemma _add_conv_layer_spec self i x x' :
  _add_conv_layer self i x = Ok x' ↔
  block_ok self i ∧ for_each call (encoder_block self i) x = Ok x'.
Proof.
  unfold _add_conv_layer, block_ok, encoder_block. split.
  - intros (f & Hf & (k & Hk & (s & Hs & (l & [Hpos ->]%Conv2D_Ok & H)%bind_Ok
      )%bind_Ok)%bind_Ok)%bind_Ok.
    apply getitem_nth in Hf, Hk, Hs. subst f k s. split; [exact Hpos|].
    exact H.
  - intros [(Hf & Hk & Hs) H].
    rewrite !getitem_positive by assumption. simpl.
    assert (Conv2D (nth i (conv_filters self) 0) (nth i (conv_kernels self) 0)
              (nth i (conv_strides self) 0) same
              (numbered "encoder_conv_layer_" (i + 1)) = Ok _) as ->
      by (apply Conv2D_Ok; eauto).
    exact H.
Qed.

Lemma last_three {A} (leading : list A) a b c :
  last (leading ++ [a; b; c]) = Some c.
Proof.
  change [a; b; c] with ([a; b] ++ [c]). rewrite app_assoc. apply last_snoc.
Qed.

Lemma encoder_block_shape self i x x' :
  for_each call (encoder_block self i) x = Ok x' →
  (3 ≤ length (kt_shape x))%nat ∧ kt_shape x' = conv_shape self (kt_shape x) i.
Proof.
  unfold encoder_block, conv_shape. cbn [for_each]. intros H.
  apply bind_Ok in H as (x1 & H1 & H). apply bind_Ok in H as (x2 & H2 & H).
  apply bind_Ok in H as (x3 & H3 & H). injection H as <-.
  apply call_Ok in H1 as (s1 & E1 & ->). apply call_Ok in H2 as (s2 & E2 & ->).
  apply call_Ok in H3 as (s3 & E3 & ->).
  cbn [compute_output_shape ReLU BatchNormalization kt_shape] in E1, E2, E3 |- *.
  destruct (reverse (kt_shape x)) as [|c [|cols [|rows leading]]] eqn:E;
    try discriminate.
  injection E1 as <-. injection E2 as <-. rewrite last_three in E3.
  injection E3 as <-.
  apply (f_equal length) in E. rewrite length_reverse in E. simpl in E.
  split; [lia | reflexivity].
Qed.



Lemma conv_shape_length self shape i :
  length (conv_shape self shape i) = length shape.
Proof.
  unfold conv_shape.
  destruct (reverse shape) as [|c [|cols [|rows leading]]] eqn:E; try reflexivity.
  apply (f_equal length) in E. rewrite length_reverse in E.
  rewrite length_app, length_reverse. simpl in *. lia.
Qed.

(** *** The decoder's loop *)

Lemma _add_conv_transpose_layer_spec self i x x' :
  _add_conv_transpose_layer self i x = Ok x' ↔
  block_ok self i ∧ for_each call (decoder_block self i) x = Ok x'.
Proof.
  unfold _add_conv_transpose_layer, block_ok, decoder_block. split.
  - intros (f & Hf & (k & Hk & (s & Hs & (l & [Hpos ->]%Conv2DTranspose_Ok & H)%bind_Ok
      )%bind_Ok)%bind_Ok)%bind_Ok.
    apply getitem_nth in Hf, Hk, Hs. subst f k s. split; [exact Hpos|].
    exact H.
  - intros [(Hf & Hk & Hs) H].
    rewrite !getitem_positive by assumption. simpl.
    assert (Conv2DTranspose (nth i (conv_filters self) 0) (nth i (conv_kernels self) 0)
              (nth i (conv_strides self) 0) same
              (numbered "dcoder_conv_transpose_layer_" (_num_conv_layers self - i))
            = Ok _) as ->
      by (apply Conv2DTranspose_Ok; eauto).
    exact H.
Qed.

Lemma decoder_block_shape self i x x' :
  for_each call (decoder_block self i) x = Ok x' →
  length (kt_shape x) = 3%nat ∧ kt_shape x' = conv_transpose_shape self (kt_shape x) i.
Proof.
  unfold decoder_block, conv_transpose_shape. cbn [for_each]. intros H.
  apply bind_Ok in H as (x1 & H1 & H). apply bind_Ok in H as (x2 & H2 & H).
  apply bind_Ok in H as (x3 & H3 & H). injection H as <-.
  apply call_Ok in H1 as (s1 & E1 & ->). apply call_Ok in H2 as (s2 & E2 & ->).
  apply call_Ok in H3 as (s3 & E3 & ->).
  cbn [compute_output_shape ReLU BatchNormalization kt_shape] in E1, E2, E3 |- *.
  destruct (kt_shape x) as [|h [|w [|c [|]]]]; try discriminate.
  destruct (fits_int32 _ && fits_int32 _); [|discriminate].
  injection E1 as <-. injection E2 as <-. cbn in E3. injection E3 as <-.
  auto.
Qed.

Lemma conv_transpose_shape_rank self shape i :
  length shape = 3%nat → length (conv_transpose_shape self shape i) = 3%nat.
Proof.
  destruct shape as [|h [|w [|c [|]]]]; try discriminate. reflexivity.
Qed.

(** *** The three building steps *)

Lemma _add_conv_layers_inv self x x' :
  _add_conv_layers self x = Ok x' →
  Forall (block_ok self) (seq 0 (_num_conv_layers self)) ∧
  kt_layers x' = kt_layers x ++ flat_map (encoder_block self) (seq 0 (_num_conv_layers self)) ∧
  kt_shape x' = fold_left (conv_shape self) (seq 0 (_num_conv_layers self)) (kt_shape x).
Proof.
  intros H.
  destruct (stack_inv _ _ _ _ (λ s, (3 ≤ length s)%nat) (_add_conv_layer_spec self)
              (encoder_block_shape self) _ _ _ H) as (? & ? & ? & _). auto.
Qed.


Lemma _add_conv_transpose_layers_inv self x x' :
  _add_conv_transpose_layers self x = Ok x' →
  Forall (block_ok self) (reverse (seq 0 (_num_conv_layers self))) ∧
  kt_layers x' =
    kt_layers x ++ flat_map (decoder_block self) (reverse (seq 0 (_num_conv_layers self))) ∧
  kt_shape x' =
    fold_left (conv_transpose_shape self) (reverse (seq 0 (_num_conv_layers self)))
      (kt_shape x) ∧
  (_num_conv_layers self ≠ 0%nat → length (kt_shape x) = 3%nat).
Proof.
  intros H.
  destruct (stack_inv _ _ _ _ (λ s, length s = 3%nat)
              (_add_conv_transpose_layer_spec self)
              (decoder_block_shape self) _ _ _ H) as (? & ? & ? & Hrank).
  split_and!; [assumption..|]. intros Hn. apply Hrank.
  destruct (_num_conv_layers self); [done|].
  rewrite seq_S, reverse_app. discriminate.
Qed.

Lemma conv_stack_length self indices : ∀ shape,
  length (fold_left (conv_shape self) indices shape) = length shape.
Proof.
  induction indices as [|i indices IH]; intros shape; simpl; [reflexivity|].
  rewrite IH. apply conv_shape_length.
Qed.

Lemma feature_shape_length self :
  length (feature_shape self) = length (input_shape self).
Proof. apply conv_stack_length. Qed.

Lemma conv_transpose_stack_rank self indices shape :
  length shape = 3%nat →
  length (fold_left (conv_transpose_shape self) indices shape) = 3%nat.
Proof. apply (stack_rank _ (λ s, length s = 3%nat)), conv_transpose_shape_rank. Qed.

Lemma same_hyperparameters_blocks a b :
  same_hyperparameters a b →
  encoder_block a = encoder_block b ∧ decoder_block a = decoder_block b ∧
  decoder_output_layers a = decoder_output_layers b ∧
  conv_shape a = conv_shape b ∧ conv_transpose_shape a = conv_transpose_shape b ∧
  feature_shape a = feature_shape b.
Proof.
  intros (Hi & Hf & Hk & Hs & Hl & Hn).
  unfold encoder_block, decoder_block, decoder_output_layers, conv_shape,
    conv_transpose_shape, feature_shape, conv_shape.
  rewrite Hi, Hf, Hk, Hs, Hn. repeat split.
Qed.

Lemma _build_encoder_inv self self' :
  _build_encoder self = Ok self' →
  Forall (block_ok self) (seq 0 (_num_conv_layers self)) ∧
  0 ≤ latent_space_dim self ∧
  ∃ x_enc,
    for_each call (encoder_body self) (Input (input_shape self) "encoder_input")
      = Ok x_enc ∧
    kt_shape x_enc = [latent_space_dim self] ∧
    self' =
      set_encoder
        (Some (new_Model (Input (input_shape self) "encoder_input") x_enc
                 (Some "encoder"%string)))
        (set__model_input (Some (Input (input_shape self) "encoder_input"))
           (set__shape_before_bottleneck (Some (feature_shape self)) self)).
Proof.
  unfold _build_encoder, _add_encoder_input. intros H.
  apply bind_Ok in H as (x & Hconv & H).
  pose proof (stack_calls _ _ _ (_add_conv_layer_spec self) _ _ _ Hconv) as Hcalls.
  apply _add_conv_layers_inv in Hconv as (Hblocks & _ & Hshape).
  apply bind_Ok in H as ([bottleneck self1] & Hbottle & [= <-]).
  unfold _add_bottleneck in Hbottle.
  apply bind_Ok in Hbottle as (x1 & H1 & Hbottle).
  apply bind_Ok in Hbottle as (dense & [Hlatent ->]%Dense_Ok & Hbottle).
  apply bind_Ok in Hbottle as (x2 & H2 & [= <- <-]).
  cbn in Hlatent. split; [assumption|]. split; [assumption|].
  exists x2. split_and!.
  - unfold encoder_body. rewrite for_each_app, Hcalls. returns.
    cbn [for_each]. unfold Flatten in H1. rewrite H1. returns.
    cbn [latent_space_dim set__shape_before_bottleneck] in H2.
    rewrite H2. reflexivity.
  - apply call_Ok in H1 as (s1 & E1 & ->). apply call_Ok in H2 as (s2 & E2 & ->).
    cbn in E1. injection E1 as <-. cbn in E2. injection E2 as <-. reflexivity.
  - unfold feature_shape, int_shape_without_batch. cbn in Hshape.
    rewrite <- Hshape. reflexivity.
Qed.


Lemma decoder_output_Ok self x x' :
  _add_decoder_output self x = Ok x' ↔
  (0 < nth 0 (conv_kernels self) 0 ∧ 0 < nth 0 (conv_strides self) 0) ∧
  for_each call (decoder_output_layers self) x = Ok x'.
Proof.
  unfold _add_decoder_output, decoder_output_layers. split.
  - intros (k & Hk & (s & Hs & (l & [Hpos ->]%Conv2DTranspose_Ok & H)%bind_Ok
      )%bind_Ok)%bind_Ok.
    apply getitem_nth in Hk, Hs. subst k s. split; [tauto|].
    cbn [for_each]. apply bind_Ok in H as (x1 & -> & H).
    change (call (ActivationLayer "sigmoid" "sigmoid_layer") x1 ≫= (λ a, Ok a)
            = Ok x').
    rewrite bind_ret. exact H.
  - intros [[Hk Hs] H]. rewrite !getitem_positive by assumption. returns.
    assert (Conv2DTranspose 1 (nth 0 (conv_kernels self) 0)
              (nth 0 (conv_strides self) 0) same
              (numbered "decoder_conv_transpose_layer_" (_num_conv_layers self))
            = Ok _) as HC by (apply Conv2DTranspose_Ok; split; [lia | reflexivity]).
    rewrite HC. returns. cbn [for_each] in H.
    apply bind_Ok in H as (x1 & -> & H). returns. rewrite bind_ret in H. exact H.
Qed.

Lemma _build_decoder_inv self self' shape :
  _shape_before_bottleneck self = Some shape →
  _build_decoder self = Ok self' →
  length shape = 3%nat ∧ 0 ≤ np_prod shape ∧
  Forall (block_ok self) (seq 0 (_num_conv_layers self)) ∧
  0 < nth 0 (conv_kernels self) 0 ∧ 0 < nth 0 (conv_strides self) 0 ∧
  ∃ x_dec,
    for_each call (decoder_body self shape)
      (Input [latent_space_dim self] "decoder_input") = Ok x_dec ∧
    kt_shape x_dec = decoder_output_shape self shape ∧
    self' =
      set_decoder
        (Some (new_Model (Input [latent_space_dim self] "decoder_input") x_dec
                 (Some "decoder"%string)))
        self.
Proof.
  intros Hshape. unfold _build_decoder, _add_decoder_input. intros H.
  apply bind_Ok in H as (x1 & Hdense & H).
  apply bind_Ok in H as (x2 & Hreshape & H).
  apply bind_Ok in H as (x3 & Hstack & H).
  apply bind_Ok in H as (x4 & Hout & [= <-]).
  unfold _add_dense_layer in Hdense. rewrite Hshape in Hdense.
  cbn [not_None] in Hdense. rewrite Ok_bind in Hdense.
  apply bind_Ok in Hdense as (dense & [Hunits ->]%Dense_Ok & Hdense).
  unfold _add_reshape_layer in Hreshape. rewrite Hshape in Hreshape.
  cbn [not_None] in Hreshape. rewrite Ok_bind in Hreshape.
  pose proof (stack_calls _ _ _ (_add_conv_transpose_layer_spec self) _ _ _ Hstack)
    as Hcalls.
  apply _add_conv_transpose_layers_inv in Hstack as (Hblocks & _ & Hshape3 & Hrank3).
  apply decoder_output_Ok in Hout as [[Hk Hs] Hout].
  assert (for_each call (decoder_body self shape)
            (Input [latent_space_dim self] "decoder_input") = Ok x4) as Hbody.
  { unfold decoder_body. rewrite for_each_app. cbn [for_each].
    rewrite Hdense. returns. unfold Reshape in Hreshape. rewrite Hreshape. returns.
    rewrite for_each_app, Hcalls. exact Hout. }
  apply call_Ok in Hdense as (s1 & E1 & ->). cbn in E1. injection E1 as <-.
  apply call_Ok in Hreshape as (s2 & E2 & ->). cbn in E2.
  destruct (np_prod shape =? np_prod shape * 1) in E2; [|discriminate].
  injection E2 as <-. cbn in Hshape3, Hrank3.
  unfold decoder_output_layers in Hout. cbn [for_each] in Hout.
  apply bind_Ok in Hout as (y1 & (t1 & F1 & ->)%call_Ok & Hout).
  apply bind_Ok in Hout as (y2 & (t2 & F2 & ->)%call_Ok & [= <-]).
  cbn in F1, F2. rewrite Hshape3 in F1.
  assert (length shape = 3%nat) as Hrank.
  { destruct (decide (length shape = 3%nat)) as [|Hne]; [assumption|exfalso].
    destruct (_num_conv_layers self) as [|n] eqn:Hn.
    - cbn in F1. destruct shape as [|h [|w [|c [|]]]]; try discriminate.
      apply Hne. reflexivity.
    - apply Hne, Hrank3. discriminate. }
  split; [assumption|]. split; [assumption|].
  split; [rewrite <- (reverse_involutive (seq _ _)); apply Forall_reverse; assumption|].
  split; [assumption|]. split; [assumption|].
  eexists. split; [exact Hbody|]. split; [|reflexivity].
  pose proof (conv_transpose_stack_rank self (reverse (seq 0 (_num_conv_layers self)))
                shape Hrank) as Hr.
  unfold decoder_output_shape. cbn.
  destruct (fold_left _ _ shape) as [|h [|w [|c [|]]]]; try discriminate.
  cbn in F1. destruct (fits_int32 _ && fits_int32 _) in F1; [|discriminate].
  injection F1 as <-. injection F2 as <-. reflexivity.
Qed.

Lemma _build_autoencoder_inv self self' :
  _build_autoencoder self = Ok self' →
  ∃ input enc dec,
    _model_input self = Some input ∧ encoder self = Some enc ∧
    decoder self = Some dec ∧
    kt_shape input = model_input_shape enc ∧
    model_output_shape enc = model_input_shape dec ∧
    self' =
      set_model
        (Some {| model_name := None;
                 model_input_shape := kt_shape input;
                 model_output_shape := model_output_shape dec;
                 model_layers := kt_layers input ++ [as_layer enc; as_layer dec];
                 model_variables :=
                   kt_variables input ++ [model_weights enc; model_weights dec];
                 model_optimizer := None |})
        self.
Proof.
  unfold _build_autoencoder. intros H.
  apply bind_Ok in H as (enc & Henc & H).
  apply bind_Ok in H as (input & Hinput & H).
  apply bind_Ok in H as (encoded & (s1 & E1 & ->)%call_Ok & H).
  apply bind_Ok in H as (dec & Hdec & H).
  apply bind_Ok in H as (output & (s2 & E2 & ->)%call_Ok & [= <-]).
  destruct (encoder self); [|discriminate]. cbn in Henc. injection Henc as ->.
  destruct (_model_input self); [|discriminate]. cbn in Hinput.
  injection Hinput as ->.
  destruct (decoder self); [|discriminate]. cbn in Hdec. injection Hdec as ->.
  exists input, enc, dec. split_and!; try reflexivity.
  - cbn in E1. case_bool_decide; [assumption|discriminate].
  - cbn in E1. case_bool_decide; [|discriminate]. injection E1 as <-.
    cbn in E2. case_bool_decide; [assumption|discriminate].
  - cbn in E1. destruct (bool_decide _) in E1; [|discriminate]. injection E1 as <-.
    cbn in E2. destruct (bool_decide _) in E2; [|discriminate]. injection E2 as <-.
    unfold new_Model. cbn. rewrite <- !app_assoc. reflexivity.
Qed.

(** [_build] returns on buildable hyperparameters only, and then leaves the
    three models as [built_from] says. *)
Lemma _build_inv self built :
  _build self = Ok built → buildable self ∧ built_from self built.
Proof.
  unfold _build. intros H.
  apply bind_Ok in H as (s1 & Henc & H). apply bind_Ok in H as (s2 & Hdec & H).
  apply _build_encoder_inv in Henc as (Hblocks & Hlatent & x_enc & Hx_enc & Hs_enc & ->).
  apply (λ E, _build_decoder_inv _ _ (feature_shape self) E) in Hdec
    as (Hrank & Hunits & _ & Hk & Hs & x_dec & Hx_dec & Hs_dec & ->); [|reflexivity].
  apply _build_autoencoder_inv in H
    as (input & enc & dec & [= <-] & [= <-] & [= <-] & _ & _ & ->).
  split.
  - unfold buildable. rewrite <- feature_shape_length. auto 10.
  - unfold built_from. split; [repeat split|].
    split; [reflexivity|]. split; [reflexivity|].
    exists x_enc, x_dec. split_and!; try reflexivity; assumption.
Qed.

Lemma __init___inv rng input_shape conv_filters conv_kernels conv_strides
    latent_space_dim self :
  __init__ rng input_shape conv_filters conv_kernels conv_strides
    latent_space_dim = Ok self ↔
  ∃ built mdl,
    _build {| ae.input_shape := input_shape; ae.conv_filters := conv_filters;
              ae.conv_kernels := conv_kernels; ae.conv_strides := conv_strides;
              ae.latent_space_dim := latent_space_dim;
              encoder := None; decoder := None; model := None;
              _shape_before_bottleneck := None; _model_input := None;
              _num_conv_layers := length conv_filters; weights := [] |}
      = Ok built ∧
    model built = Some mdl ∧
    self = set_weights (initial_weights rng (concat (model_variables mdl))) built.
Proof.
  unfold __init__. rewrite bind_Ok. split.
  - intros (built & Hbuilt & H). apply bind_Ok in H as (mdl & Hmdl & [= <-]).
    exists built, mdl. destruct (model built); [|discriminate].
    cbn in Hmdl. injection Hmdl as ->. auto.
  - intros (built & mdl & Hbuilt & Hmdl & ->). exists built. split; [assumption|].
    rewrite Hmdl. reflexivity.
Qed.

(** ** Shapes along the two stacks *)

Lemma np_prod_app (l1 l2 : list Z) : np_prod (l1 ++ l2) = np_prod l1 * np_prod l2.
Proof.
  unfold np_prod. induction l1 as [|a l1 IH]; cbn [app fold_right]; [lia|].
  rewrite IH. lia.
Qed.

Lemma np_prod_reverse (l : list Z) : np_prod (reverse l) = np_prod l.
Proof.
  induction l as [|a l IH]; [reflexivity|].
  rewrite reverse_cons, np_prod_app, IH. unfold np_prod. cbn. lia.
Qed.

Lemma np_prod_positive (l : list Z) : Forall (λ d, 0 < d) l → 0 < np_prod l.
Proof.
  unfold np_prod. induction 1 as [|a l Ha _ IH]; cbn; [lia|]. nia.
Qed.

Lemma strides_of_range (l : list Z) n :
  (n ≤ length l)%nat → map (λ i, nth i l 0) (seq 0 n) = take n l.
Proof.
  intros Hn. apply list_eq. intros i.
  rewrite list_lookup_fmap, lookup_take.
  destruct (decide (i < n)%nat) as [Hi|Hi].
  - rewrite lookup_seq_lt by assumption. cbn. rewrite nth_lookup.
    destruct (lookup_lt_is_Some_2 l i ltac:(lia)) as [v ->]. reflexivity.
  - rewrite lookup_seq_ge by lia. reflexivity.
Qed.

Lemma conv_stack_shape self indices : ∀ h w c,
  ∃ c', fold_left (conv_shape self) indices [h; w; c] =
        [downsampled (map (stride_at self) indices) h;
         downsampled (map (stride_at self) indices) w; c'].
Proof.
  induction indices as [|i indices IH]; intros h w c; cbn.
  - eauto.
  - unfold conv_output_length. apply IH.
Qed.

Lemma conv_transpose_stack_shape self indices : ∀ h w c,
  ∃ c', fold_left (conv_transpose_shape self) indices [h; w; c] =
        [h * np_prod (map (stride_at self) indices);
         w * np_prod (map (stride_at self) indices); c'].
Proof.
  induction indices as [|i indices IH]; intros h w c; cbn.
  - exists c. f_equal; [lia|]. f_equal. lia.
  - destruct (IH (h * nth i (conv_strides self) 0) (w * nth i (conv_strides self) 0)
                (nth i (conv_filters self) 0)) as [c' ->].
    exists c'. unfold stride_at, np_prod. f_equal; [lia|]. f_equal. lia.
Qed.

(** When the product of the strides divides a length, every division on the
    way is exact. *)
Lemma downsampled_exact strides : ∀ len,
  Forall (λ s, 0 < s) strides → (np_prod strides | len) →
  downsampled strides len * np_prod strides = len.
Proof.
  unfold downsampled, np_prod.
  induction strides as [|s strides IH]; intros len Hall Hdiv; cbn; [lia|].
  apply Forall_cons in Hall as [Hs Hall]. destruct Hdiv as [q ->].
  cbn in *.
  replace ((q * (s * fold_right Z.mul 1 strides) + s - 1) / s)
    with (q * fold_right Z.mul 1 strides).
  - specialize (IH (q * fold_right Z.mul 1 strides) Hall
                  ltac:(exists q; reflexivity)).
    nia.
  - apply Z.div_unique with (r := s - 1); lia.
Qed.

(** ** The constructor *)

Lemma __init___built rng input_shape conv_filters conv_kernels conv_strides
    latent_space_dim self :
  __init__ rng input_shape conv_filters conv_kernels conv_strides
    latent_space_dim = Ok self →
  let blank := new_instance input_shape conv_filters conv_kernels conv_strides
                 latent_space_dim in
  buildable blank ∧ built_from blank self ∧
  ∃ mdl, model self = Some mdl ∧
         weights self = initial_weights rng (concat (model_variables mdl)).
Proof.
  intros H blank. apply __init___inv in H as (built & mdl & Hbuilt & Hmdl & ->).
  apply _build_inv in Hbuilt as [Hok Hfrom]. split; [exact Hok|]. split.
  - exact Hfrom.
  - exists mdl. split; [exact Hmdl | reflexivity].
Qed.

(** ** What a built instance holds *)

Lemma encoder_calls_shape self indices : ∀ x x',
  for_each call (flat_map (encoder_block self) indices) x = Ok x' →
  kt_shape x' = fold_left (conv_shape self) indices (kt_shape x).
Proof.
  induction indices as [|i indices IH]; intros x x'; cbn [flat_map fold_left].
  - intros [= <-]. reflexivity.
  - rewrite for_each_app.
    intros (x1 & [_ Hshape]%encoder_block_shape & Hrest)%bind_Ok.
    rewrite (IH _ _ Hrest), Hshape. reflexivity.
Qed.

Lemma built_layers self built :
  built_from self built →
  ∃ enc dec,
    encoder built = Some enc ∧ decoder built = Some dec ∧
    model built = Some (chained (input_shape self) enc dec) ∧
    model_layers enc = encoder_layers self ∧
    model_layers dec = decoder_layers self (feature_shape self) ∧
    model_output_shape enc = [latent_space_dim self] ∧
    model_output_shape dec = decoder_output_shape self (feature_shape self).
Proof.
  intros (_ & _ & _ & x_enc & x_dec & Henc & Hdec & Hs_enc & Hs_dec & He & Hd & Hm).
  eexists _, _. split; [exact He|]. split; [exact Hd|]. split; [exact Hm|].
  apply calls_layers in Henc as [Henc _]. apply calls_layers in Hdec as [Hdec _].
  cbn. rewrite Henc, Hdec. auto.
Qed.

Lemma block_ok_in_range self n :
  Forall (block_ok self) (seq 0 n) →
  (n ≤ length (conv_filters self))%nat ∧ (n ≤ length (conv_kernels self))%nat ∧
  (n ≤ length (conv_strides self))%nat ∧
  Forall (λ s, 0 < s) (take n (conv_strides self)).
Proof.
  intros Hall.
  assert (∀ i, (i < n)%nat → block_ok self i) as Hi.
  { intros i Hlt. apply (proj1 (Forall_forall _ _) Hall). apply elem_of_seq. lia. }
  assert ((n ≤ length (conv_strides self))%nat) as Hs.
  { destruct n as [|n]; [lia|]. destruct (Hi n ltac:(lia)) as (_ & _ & H).
    apply nth_positive_in_range in H. lia. }
  split_and!; [| |exact Hs|].
  - destruct n as [|n]; [lia|]. destruct (Hi n ltac:(lia)) as (H & _ & _).
    apply nth_positive_in_range in H. lia.
  - destruct n as [|n]; [lia|]. destruct (Hi n ltac:(lia)) as (_ & H & _).
    apply nth_positive_in_range in H. lia.
  - rewrite <- strides_of_range by exact Hs. apply Forall_fmap, Forall_forall.
    intros i Hlt%elem_of_seq. apply Hi. lia.
Qed.

Lemma encoder_block_strides self indices :
  conv_strides_in (flat_map (encoder_block self) indices) = map (stride_at self) indices.
Proof.
  induction indices as [|i indices IH]; [reflexivity|].
  cbn [flat_map map]. unfold conv_strides_in in *. rewrite omap_app, IH. reflexivity.
Qed.

Lemma decoder_block_strides self indices :
  conv_transpose_strides_in (flat_map (decoder_block self) indices)
  = map (stride_at self) indices.
Proof.
  induction indices as [|i indices IH]; [reflexivity|].
  cbn [flat_map map]. unfold conv_transpose_strides_in in *.
  rewrite omap_app, IH. reflexivity.
Qed.

Lemma encoder_layers_strides self :
  conv_strides_in (encoder_layers self)
  = map (stride_at self) (seq 0 (_num_conv_layers self)).
Proof.
  unfold encoder_layers, encoder_body.
  change (conv_strides_in (?l :: ?r)) with (conv_strides_in r).
  unfold conv_strides_in at 1. rewrite omap_app.
  fold (conv_strides_in (flat_map (encoder_block self) (seq 0 (_num_conv_layers self)))).
  rewrite encoder_block_strides. cbn. apply app_nil_r.
Qed.

Lemma decoder_layers_strides self shape :
  conv_transpose_strides_in (decoder_layers self shape)
  = map (stride_at self) (reverse (seq 0 (_num_conv_layers self))) ++ [stride_at self 0].
Proof.
  unfold decoder_layers, decoder_body.
  change (conv_transpose_strides_in (?a :: [?b; ?c] ++ ?r))
    with (conv_transpose_strides_in r).
  unfold conv_transpose_strides_in at 1. rewrite omap_app.
  fold (conv_transpose_strides_in
          (flat_map (decoder_block self) (reverse (seq 0 (_num_conv_layers self))))).
  rewrite decoder_block_strides. reflexivity.
Qed.

Lemma sigmoid_range x : (0 <= sigmoid x <= 1)%R.
Proof.
  unfold sigmoid. pose proof (exp_pos (- x)) as Hexp.
  assert (0 < 1 + exp (- x))%R as Hden by lra.
  split.
  - apply Rlt_le, Rdiv_lt_0_compat; lra.
  - apply (Rmult_le_reg_r (1 + exp (- x))); [exact Hden|].
    unfold Rdiv. rewrite Rmult_assoc, Rinv_l by lra. lra.
Qed.

Lemma predict_sigmoid kernels m weights layers name z :
  model_layers m = layers ++ [ActivationLayer "sigmoid" name] →
  Forall (λ v, (0 <= v <= 1)%R) (predict kernels m weights z).
Proof.
  intros Hlayers. unfold predict. rewrite Hlayers, fold_left_app. cbn.
  apply Forall_fmap, Forall_forall. intros v _. apply sigmoid_range.
Qed.

Lemma script_instance_built :
  __init__ (λ _ _, []) [28; 28; 1] [32; 64; 64; 64] [3; 3; 3; 3] [1; 2; 2; 1] 2
  = Ok script_instance.
Proof. vm_compute. reflexivity. Qed.

(** ** The decoder *)

(** C5. The decoder of a constructed instance consists of: its input
    placeholder, a dense layer, a reshape to the cached feature-map shape,
    then for each layer index from the last down to 0 a transposed
    convolution with that index's filter count, kernel size and stride, a
    ReLU and a batch normalization, then a transposed convolution with one
    filter and the kernel size and stride of index 0, then a sigmoid
    activation; whatever the other layers compute, every element of the
    decoder's output lies in [0, 1]. *)
Theorem decoder_structure rng input_shape conv_filters conv_kernels conv_strides
    latent_space_dim self :
  __init__ rng input_shape conv_filters conv_kernels conv_strides latent_space_dim
    = Ok self →
  ∃ dec shape,
    decoder self = Some dec ∧ _shape_before_bottleneck self = Some shape ∧
    model_layers dec =
      [InputLayer [latent_space_dim] "decoder_input";
       DenseLayer (np_prod shape) "decoder_dense";
       ReshapeLayer shape]
      ++ flat_map
           (λ layer_index,
              let layer_num := (length conv_filters - layer_index)%nat in
              [Conv2DTransposeLayer (nth layer_index conv_filters 0)
                 (nth layer_index conv_kernels 0) (nth layer_index conv_strides 0)
                 same (numbered "dcoder_conv_transpose_layer_" layer_num);
               ReLULayer (numbered "decoder_relu_" layer_num);
               BatchNormalizationLayer (numbered "decoder_bn_" layer_num)])
           (reverse (seq 0 (length conv_filters)))
      ++ [Conv2DTransposeLayer 1 (nth 0 conv_kernels 0) (nth 0 conv_strides 0) same
            (numbered "decoder_conv_transpose_layer_" (length conv_filters));
          ActivationLayer "sigmoid" "sigmoid_layer"] ∧
    ∀ kernels values z,
      Forall (λ v, (0 <= v <= 1)%R) (predict kernels dec values z).
Proof.
  intros H. apply __init___built in H as (_ & Hfrom & _).
  pose proof Hfrom as (_ & Hshape & _).
  apply built_layers in Hfrom as (enc & dec & _ & Hdec & _ & _ & Hlayers & _).
  exists dec, (feature_shape (new_instance input_shape conv_filters conv_kernels
                                conv_strides latent_space_dim)).
  split; [exact Hdec|]. split; [exact Hshape|]. split.
  - rewrite Hlayers. reflexivity.
  - intros kernels values z.
    eapply (predict_sigmoid kernels dec values
              (_ :: _ :: _ :: _ ++ [_]) "sigmoid_layer").
    rewrite Hlayers. unfold decoder_layers, decoder_body, decoder_output_layers.
    cbn [app]. rewrite <- app_assoc. reflexivity.
Qed.

Lemma decoder_structure_witness :
  ∃ dec, decoder script_instance = Some dec ∧
         Forall (λ v, (0 <= v <= 1)%R) (predict (λ _ _ x, x) dec [] [0%R; 7%R]).
Proof.
  destruct (decoder_structure _ _ _ _ _ _ _ script_instance_built)
    as (dec & shape & Hdec & _ & _ & Hrange).
  exists dec. split; [exact Hdec | apply Hrange].
Defined.

(** Height and width through the encoder's convolutions and back through
    the decoder's transposed convolutions. *)
Lemma built_spatial rng input_shape conv_filters conv_kernels conv_strides
    latent_space_dim self :
  __init__ rng input_shape conv_filters conv_kernels conv_strides latent_space_dim
    = Ok self →
  let used := take (length conv_filters) conv_strides in
  ∃ dec shape,
    decoder self = Some dec ∧ _shape_before_bottleneck self = Some shape ∧
    Forall (λ s, 0 < s) used ∧
    spatial shape = map (downsampled used) (spatial input_shape) ∧
    spatial (model_output_shape dec)
      = map (λ d, d * (np_prod used * nth 0 conv_strides 0)) (spatial shape).
Proof.
  intros H used. apply __init___built in H as (Hok & Hfrom & _).
  set (n := length conv_filters) in *.
  set (blank := new_instance input_shape conv_filters conv_kernels conv_strides
                  latent_space_dim) in *.
  destruct Hok as (Hrank & Hblocks & _).
  pose proof Hfrom as (_ & Hshape & _).
  apply built_layers in Hfrom as (enc & dec & _ & Hdec & _ & _ & _ & _ & Hout).
  apply block_ok_in_range in Hblocks as (_ & _ & Hn & Hpos).
  change (ae.conv_strides blank) with conv_strides in Hn, Hpos.
  change (_num_conv_layers blank) with n in Hn, Hpos.
  assert (map (stride_at blank) (seq 0 n) = used) as Hused
    by (apply strides_of_range, Hn).
  exists dec, (feature_shape blank).
  split; [exact Hdec|]. split; [exact Hshape|]. split; [exact Hpos|].
  cbn in Hrank. destruct input_shape as [|h [|w [|c [|]]]]; try discriminate.
  unfold feature_shape in *. change (ae.input_shape blank) with [h; w; c] in *.
  change (_num_conv_layers blank) with n in *.
  destruct (conv_stack_shape blank (seq 0 n) h w c) as [c1 Hfeature].
  rewrite Hused in Hfeature.
  split; [rewrite Hfeature; reflexivity|].
  rewrite Hout. unfold decoder_output_shape.
  change (_num_conv_layers blank) with n. rewrite Hfeature.
  destruct (conv_transpose_stack_shape blank (reverse (seq 0 n))
              (downsampled used h) (downsampled used w) c1) as [c2 ->].
  replace (map (stride_at blank) (reverse (seq 0 n))) with (reverse used)
    by (rewrite <- Hused; symmetry; apply (fmap_reverse (stride_at blank))).
  rewrite np_prod_reverse. cbn. f_equal; [lia|]. f_equal. lia.
Qed.

(** C8, as stated, fails when conv_strides has entries beyond the layers:
    these are not among the factors.  With one layer and strides (1, 2) the
    encoder shrinks by 1 and the decoder stretches by 1, where the product
    of all conv_strides is 2 and its product with conv_strides[0] is 2; with
    no layer and strides (2,) the encoder shrinks by 1 and the decoder
    stretches by 2, where the two products are 2 and 4. *)
Lemma upsampling_factor_counterexample :
  built_factors [28; 28; 1] [32] [3; 3] [1; 2] 2 = Ok (1, 1) ∧
  (np_prod [1; 2], np_prod [1; 2] * nth 0 [1; 2] 0) = (2, 2) ∧
  built_factors [28; 28; 1] [] [3] [2] 2 = Ok (1, 2) ∧
  (np_prod [2], np_prod [2] * nth 0 [2] 0) = (2, 4).
Proof. vm_compute. repeat split. Qed.

(** C8, amended.  A constructed instance with n = len(conv_filters) layers
    has n + 1 transposed convolutions in its decoder: one per layer index,
    from the last down to 0, and the output layer, which uses the stride of
    index 0 once more.  With [same] padding the decoder therefore stretches
    height and width of the cached feature map by the product of the first
    n entries of conv_strides (all of conv_strides when the sequences are
    aligned) times conv_strides[0], while the encoder's convolutions shrink
    by the product of the first n entries only; the two factors are equal
    exactly when conv_strides[0] = 1. *)
Theorem decoder_upsampling rng input_shape conv_filters conv_kernels conv_strides
    latent_space_dim self :
  __init__ rng input_shape conv_filters conv_kernels conv_strides latent_space_dim
    = Ok self →
  let n := length conv_filters in
  let used := take n conv_strides in
  ∃ enc dec shape,
    encoder self = Some enc ∧ decoder self = Some dec ∧
    _shape_before_bottleneck self = Some shape ∧
    conv_transpose_strides_in (model_layers dec) = reverse used ++ [nth 0 conv_strides 0] ∧
    length (conv_transpose_strides_in (model_layers dec)) = S n ∧
    conv_strides_in (model_layers enc) = used ∧
    upsampling_factor dec = np_prod used * nth 0 conv_strides 0 ∧
    downsampling_factor enc = np_prod used ∧
    spatial shape = map (downsampled used) (spatial input_shape) ∧
    spatial (model_output_shape dec)
      = map (λ d, d * upsampling_factor dec) (spatial shape) ∧
    (upsampling_factor dec = downsampling_factor enc ↔ nth 0 conv_strides 0 = 1).
Proof.
  intros H n used.
  destruct (built_spatial _ _ _ _ _ _ _ H)
    as (dec & shape & Hdec & Hshape & Hpos & Hfeature & Hout).
  apply __init___built in H as (Hok & Hfrom & _).
  set (blank := new_instance input_shape conv_filters conv_kernels conv_strides
                  latent_space_dim) in *.
  destruct Hok as (_ & Hblocks & _).
  apply built_layers in Hfrom as (enc & dec' & Henc & Hdec' & _ & Hl_enc & Hl_dec & _).
  rewrite Hdec in Hdec'. injection Hdec' as <-.
  apply block_ok_in_range in Hblocks as (_ & _ & Hn & _).
  change (ae.conv_strides blank) with conv_strides in Hn.
  change (_num_conv_layers blank) with n in Hn.
  assert (map (stride_at blank) (seq 0 n) = used) as Hused
    by (apply strides_of_range, Hn).
  assert (conv_transpose_strides_in (model_layers dec)
          = reverse used ++ [nth 0 conv_strides 0]) as Hup.
  { rewrite Hl_dec, decoder_layers_strides.
    change (_num_conv_layers blank) with n.
    rewrite <- Hused, <- fmap_reverse. reflexivity. }
  assert (conv_strides_in (model_layers enc) = used) as Hdown.
  { rewrite Hl_enc, encoder_layers_strides. exact Hused. }
  assert (upsampling_factor dec = np_prod used * nth 0 conv_strides 0) as Hfactor.
  { unfold upsampling_factor. rewrite Hup, np_prod_app, np_prod_reverse.
    unfold np_prod at 2. cbn. lia. }
  exists enc, dec, shape.
  split; [exact Henc|]. split; [exact Hdec|]. split; [exact Hshape|].
  split; [exact Hup|].
  split; [rewrite Hup, length_app, length_reverse; unfold used;
          rewrite length_take; cbn; lia|].
  split; [exact Hdown|]. split; [exact Hfactor|].
  split; [unfold downsampling_factor; rewrite Hdown; reflexivity|].
  split; [exact Hfeature|]. split; [rewrite Hfactor; exact Hout|].
  rewrite Hfactor. unfold downsampling_factor. rewrite Hdown.
  pose proof (np_prod_positive used Hpos). split; intros; nia.
Qed.

Lemma decoder_upsampling_witness :
  ∃ enc dec,
    encoder script_instance = Some enc ∧ decoder script_instance = Some dec ∧
    upsampling_factor dec = 4 ∧ downsampling_factor enc = 4 ∧
    length (conv_transpose_strides_in (model_layers dec)) = 5%nat.
Proof.
  destruct (decoder_upsampling _ _ _ _ _ _ _ script_instance_built)
    as (enc & dec & shape & Henc & Hdec & _ & _ & Hcount & _ & Hup & Hdown & _).
  exists enc, dec. split; [exact Henc|]. split; [exact Hdec|].
  split; [exact Hup|]. split; [exact Hdown | exact Hcount].
Defined.

(** ** Eager construction *)

(** What creating a directory and writing a file raise. *)
Lemma makedirs_raises path fs e : os.makedirs path fs = Raise e → file_error e.
Proof.
  unfold os.makedirs. repeat case_match; try discriminate; intros [= <-]; exact I.
Qed.

Lemma write_raises path contents fs e :
  os.write path contents fs = Raise e → file_error e.
Proof.
  unfold os.write. repeat case_match; try discriminate; intros [= <-]; exact I.
Qed.

(** With a model to write, [save] raises only what the file system raises. *)
Lemma save_raises self save_folder fs e :
  is_Some (model self) → (save self save_folder fs).1 = Raise e → file_error e.
Proof.
  intros [mdl Hmdl]. unfold save, _create_folder_if_it_doesnt_exist, _save_parameters,
    _save_weights. rewrite Hmdl. cbn [attribute].
  destruct (negb (os.path_exists save_folder fs)).
  - destruct (os.makedirs save_folder fs) as [fs1|e1] eqn:E1.
    + destruct (os.write _ _ fs1) as [fs2|e2] eqn:E2.
      * destruct (os.write _ _ fs2) as [fs3|e3] eqn:E3; cbn; [discriminate|].
        intros [= <-]. eapply write_raises, E3.
      * cbn. intros [= <-]. eapply write_raises, E2.
    + cbn. intros [= <-]. eapply makedirs_raises, E1.
  - destruct (os.write _ _ fs) as [fs2|e2] eqn:E2.
    + destruct (os.write _ _ fs2) as [fs3|e3] eqn:E3; cbn; [discriminate|].
      intros [= <-]. eapply write_raises, E3.
    + cbn. intros [= <-]. eapply write_raises, E2.
Qed.

(** C10. When the constructor returns, [encoder], [decoder], [model],
    [_model_input] and [_shape_before_bottleneck] are all set.  The cached
    shape is the static shape of the feature map the encoder's convolution
    blocks end with, the tensor that is flattened next; the decoder's dense
    layer has its element product as width and the decoder's reshape has it
    as target.  [summary], [compile], [train] after [compile], and [save]
    then find the models they operate on: [summary] and [compile] return,
    [train] hands the compiled model and its weights to the framework's
    training and raises only what that raises, and [save] raises nothing but
    what the file system raises. *)
Theorem construction_complete rng input_shape conv_filters conv_kernels conv_strides
    latent_space_dim self :
  __init__ rng input_shape conv_filters conv_kernels conv_strides latent_space_dim
    = Ok self →
  ∃ enc dec mdl input shape feature_map,
    encoder self = Some enc ∧ decoder self = Some dec ∧ model self = Some mdl ∧
    _model_input self = Some input ∧ _shape_before_bottleneck self = Some shape ∧
    for_each call (flat_map (encoder_block self) (seq 0 (length conv_filters))) input
      = Ok feature_map ∧
    shape = kt_shape feature_map ∧
    model_layers dec !! 1%nat = Some (DenseLayer (np_prod shape) "decoder_dense") ∧
    model_layers dec !! 2%nat = Some (ReshapeLayer shape) ∧
    is_ok (summary self) = true ∧
    (∀ learning_rate, ∃ compiled,
       compile self learning_rate = Ok compiled ∧
       ∀ (trainer : Fit) x_train batch_size num_epochs,
         let outcome :=
           trainer (Keras.compile mdl learning_rate "mean_squared_error")
             (weights self) x_train x_train batch_size num_epochs true in
         (is_ok outcome = true →
          is_ok (train trainer compiled x_train batch_size num_epochs) = true) ∧
         (∀ e, train trainer compiled x_train batch_size num_epochs = Raise e →
               outcome = Raise e)) ∧
    (∀ save_folder fs e, (save self save_folder fs).1 = Raise e → file_error e).
Proof.
  intros H. apply __init___built in H as (_ & Hfrom & _).
  set (blank := new_instance input_shape conv_filters conv_kernels conv_strides
                  latent_space_dim) in *.
  pose proof Hfrom as (Hsame & Hshape & Hinput & x_enc & _ & Hx_enc & _).
  apply built_layers in Hfrom as (enc & dec & Henc & Hdec & Hmdl & _ & Hl_dec & _).
  unfold encoder_body in Hx_enc. rewrite for_each_app in Hx_enc.
  apply bind_Ok in Hx_enc as (feature_map & Hmap & _).
  pose proof (encoder_calls_shape _ _ _ _ Hmap) as Hfeature.
  destruct (same_hyperparameters_blocks _ _ Hsame) as (Hblock & _).
  eexists enc, dec, _, _, (feature_shape blank), feature_map.
  split; [exact Henc|]. split; [exact Hdec|]. split; [exact Hmdl|].
  split; [exact Hinput|]. split; [exact Hshape|].
  split; [rewrite <- Hblock; exact Hmap|]. split; [rewrite Hfeature; reflexivity|].
  split; [rewrite Hl_dec; reflexivity|]. split; [rewrite Hl_dec; reflexivity|].
  split; [unfold summary; rewrite Henc, Hdec, Hmdl; reflexivity|]. split.
  - intros learning_rate. unfold compile. rewrite Hmdl. eexists. split; [reflexivity|].
    intros trainer x_train batch_size num_epochs.
    unfold train, fit. cbn.
    destruct (trainer _ _ x_train x_train batch_size num_epochs true) as [trained|e'];
      cbn; split; try done. intros e [= ->]. reflexivity.
  - intros save_folder fs e. apply save_raises. rewrite Hmdl. eauto.
Qed.

Lemma construction_complete_witness :
  is_Some (encoder script_instance) ∧ is_Some (decoder script_instance) ∧
  is_Some (model script_instance) ∧ is_Some (_model_input script_instance) ∧
  is_Some (_shape_before_bottleneck script_instance) ∧
  is_ok (summary script_instance) = true.
Proof.
  destruct (construction_complete _ _ _ _ _ _ _ script_instance_built)
    as (enc & dec & mdl & input & shape & feature_map & Henc & Hdec & Hmdl
        & Hinput & Hshape & _ & _ & _ & _ & Hsummary & _).
  rewrite Henc, Hdec, Hmdl, Hinput, Hshape. split_and!; eauto.
Defined.

(** ** Output shapes *)

(** C1, as stated, fails.  The encoder's output has the bottleneck
    dimensionality, but the decoder's output has the input's height and width
    only for some hyperparameters: a 7 x 7 input through strides (1, 2) comes
    back 8 x 8, because the strided convolution rounds 7 / 2 up to 4; a
    28 x 28 input through the single stride 2 comes back 56 x 56, because the
    decoder applies the stride of index 0 twice; and with no layer at all the
    constructor raises. *)
Lemma decoder_output_shape_counterexample :
  built_output_shapes [7; 7; 1] [32; 64] [3; 3] [1; 2] 2 = Ok ([2], [8; 8; 1]) ∧
  built_output_shapes [28; 28; 1] [32] [3] [2] 2 = Ok ([2], [56; 56; 1]) ∧
  built_output_shapes [28; 28; 1] [] [] [] 2 = Raise (IndexError "conv_kernels" 0).
Proof. vm_compute. repeat split. Qed.

(** C1, amended.  For sequences of equal length and a height-width-channels
    input for which the constructor returns: the encoder's output is a
    vector of [latent_space_dim] elements; and when conv_strides[0] = 1 and
    height and width are multiples of the product of the strides, the
    decoder's output has the input's height and width. *)
Theorem encoder_decoder_output_shapes rng h w c conv_filters conv_kernels conv_strides
    latent_space_dim self :
  aligned conv_filters conv_kernels conv_strides →
  __init__ rng [h; w; c] conv_filters conv_kernels conv_strides latent_space_dim
    = Ok self →
  ∃ enc dec,
    encoder self = Some enc ∧ decoder self = Some dec ∧
    model_output_shape enc = [latent_space_dim] ∧
    (nth 0 conv_strides 0 = 1 →
     (np_prod conv_strides | h) → (np_prod conv_strides | w) →
     spatial (model_output_shape dec) = [h; w]).
Proof.
  intros [Hlk Hls] Hself.
  destruct (built_spatial _ _ _ _ _ _ _ Hself)
    as (dec & shape & Hdec & _ & Hstrides & Hfeature & Hout).
  pose proof Hself as Hbuilt. apply __init___built in Hbuilt as (_ & Hfrom & _).
  apply built_layers in Hfrom as (enc & dec' & Henc & _ & _ & _ & _ & Hlatent & _).
  exists enc, dec. split; [exact Henc|]. split; [exact Hdec|].
  split; [exact Hlatent|].
  intros Hfirst Hh Hw. rewrite Hout, Hfeature, Hfirst.
  rewrite take_ge in * by lia.
  cbn. rewrite !Z.mul_1_r, !downsampled_exact by assumption. reflexivity.
Qed.

Lemma encoder_decoder_output_shapes_witness :
  ∃ enc dec,
    encoder script_instance = Some enc ∧ decoder script_instance = Some dec ∧
    model_output_shape enc = [2] ∧ spatial (model_output_shape dec) = [28; 28].
Proof.
  destruct (encoder_decoder_output_shapes (λ _ _, []) 28 28 1 [32; 64; 64; 64]
              [3; 3; 3; 3] [1; 2; 2; 1] 2 script_instance)
    as (enc & dec & Henc & Hdec & Hlatent & Hshape).
  - split; reflexivity.
  - exact script_instance_built.
  - exists enc, dec. split_and!; try assumption.
    apply Hshape; [reflexivity | exists 7; reflexivity | exists 7; reflexivity].
Defined.

(** ** Sequences of different lengths *)

Lemma nth_take (l : list Z) n i : (i < n)%nat → nth i (take n l) 0 = nth i l 0.
Proof. intros H. rewrite !nth_lookup, lookup_take_lt by exact H. reflexivity. Qed.


(** *** Kernel sizes and strides beyond the layers

    The builder reads conv_kernels and conv_strides at the layer indices,
    and at index 0; two instances that agree there, and in everything but
    these two attributes, are built alike. *)
Section Trim.

Variables kernels strides kernels' strides' : list Z.
Variable n : nat.
Hypothesis positive_n : (0 < n)%nat.
Hypothesis kernels_agree : ∀ i, (i < n)%nat → kernels' !! i = kernels !! i.
Hypothesis strides_agree : ∀ i, (i < n)%nat → strides' !! i = strides !! i.

Local Abbreviation full := (with_sequences kernels strides).
Local Abbreviation trimmed := (with_sequences kernels' strides').

Lemma for_each_agree {I A} (f g : I → A → result A) (l : list I) : ∀ x,
  (∀ i, i ∈ l → ∀ y, f i y = g i y) → for_each f l x = for_each g l x.
Proof.
  induction l as [|i l IH]; intros x H; cbn; [reflexivity|].
  rewrite (H i); [|left]. destruct (g i x) as [x'|e]; [|reflexivity].
  cbn. apply IH. intros i' Hi'. apply H. right. exact Hi'.
Qed.

Lemma _add_conv_layer_trim self i x :
  (i < n)%nat →
  _add_conv_layer (full self) i x = _add_conv_layer (trimmed self) i x.
Proof.
  intros Hi. unfold _add_conv_layer, getitem.
  cbn [ae.conv_kernels ae.conv_strides ae.conv_filters with_sequences].
  rewrite (kernels_agree i Hi), (strides_agree i Hi). reflexivity.
Qed.

Lemma _add_conv_transpose_layer_trim self i x :
  (i < n)%nat →
  _add_conv_transpose_layer (full self) i x
  = _add_conv_transpose_layer (trimmed self) i x.
Proof.
  intros Hi. unfold _add_conv_transpose_layer, getitem.
  cbn [ae.conv_kernels ae.conv_strides ae.conv_filters _num_conv_layers with_sequences].
  rewrite (kernels_agree i Hi), (strides_agree i Hi). reflexivity.
Qed.

Lemma _add_decoder_output_trim self x :
  _add_decoder_output (full self) x = _add_decoder_output (trimmed self) x.
Proof.
  unfold _add_decoder_output, getitem.
  cbn [ae.conv_kernels ae.conv_strides _num_conv_layers with_sequences].
  rewrite (kernels_agree 0 positive_n), (strides_agree 0 positive_n). reflexivity.
Qed.

Lemma _build_encoder_trim self :
  (_num_conv_layers self ≤ n)%nat →
  _build_encoder (full self)
  = (built ← _build_encoder (trimmed self); mret (full built)).
Proof.
  intros Hn. unfold _build_encoder, _add_conv_layers.
  cbn [_num_conv_layers with_sequences].
  rewrite (for_each_agree (_add_conv_layer (full self))
             (_add_conv_layer (trimmed self))).
  - destruct (for_each _ _ _) as [x|e]; [|reflexivity]. returns.
    unfold _add_bottleneck. destruct (call Flatten x) as [x1|e]; [|reflexivity].
    returns. cbn [ae.latent_space_dim set__shape_before_bottleneck with_sequences].
    destruct (Dense _ _) as [dense|e]; [|reflexivity]. returns.
    destruct (call dense x1) as [x2|e]; reflexivity.
  - intros i Hi%elem_of_seq y. apply _add_conv_layer_trim. lia.
Qed.

Lemma _build_decoder_trim self :
  (_num_conv_layers self ≤ n)%nat →
  _build_decoder (full self)
  = (built ← _build_decoder (trimmed self); mret (full built)).
Proof.
  intros Hn. unfold _build_decoder, _add_conv_transpose_layers.
  change (_add_dense_layer (full self)) with (_add_dense_layer (trimmed self)).
  destruct (_add_dense_layer _ _) as [x1|e]; [|reflexivity]. returns.
  change (_add_reshape_layer (full self)) with (_add_reshape_layer (trimmed self)).
  destruct (_add_reshape_layer _ _) as [x2|e]; [|reflexivity]. returns.
  cbn [_num_conv_layers with_sequences].
  rewrite (for_each_agree (_add_conv_transpose_layer (full self))
             (_add_conv_transpose_layer (trimmed self))).
  - destruct (for_each _ _ _) as [x3|e]; [|reflexivity]. returns.
    rewrite _add_decoder_output_trim.
    destruct (_add_decoder_output _ _) as [x4|e]; reflexivity.
  - intros i Hi%elem_of_reverse%elem_of_seq y.
    apply _add_conv_transpose_layer_trim. lia.
Qed.

Lemma _build_autoencoder_trim self :
  _build_autoencoder (full self)
  = (built ← _build_autoencoder (trimmed self); mret (full built)).
Proof.
  unfold _build_autoencoder.
  cbn [ae.encoder ae.decoder _model_input with_sequences].
  destruct (not_None "encoder" _) as [enc|e]; [|reflexivity]. returns.
  destruct (not_None "_model_input" _) as [input|e]; [|reflexivity]. returns.
  destruct (call (as_layer enc) input) as [encoded|e]; [|reflexivity]. returns.
  destruct (not_None "decoder" _) as [dec|e]; [|reflexivity]. returns.
  destruct (call (as_layer dec) encoded) as [output|e]; reflexivity.
Qed.

Lemma _build_trim self :
  (_num_conv_layers self ≤ n)%nat →
  _build (full self) = (built ← _build (trimmed self); mret (full built)).
Proof.
  intros Hn. unfold _build. rewrite _build_encoder_trim by exact Hn.
  destruct (_build_encoder (trimmed self)) as [s1|e] eqn:Henc; [|reflexivity].
  returns. apply _build_encoder_inv in Henc as (_ & _ & x_enc & _ & _ & ->).
  match goal with
  | |- context [_build_decoder (with_sequences kernels strides ?s)] =>
      change (_build_decoder (with_sequences kernels strides s))
        with (_build_decoder (full (trimmed s)));
      rewrite (_build_decoder_trim (trimmed s)) by exact Hn;
      change (trimmed (trimmed s)) with s
  end.
  destruct (_build_decoder _) as [s2|e] eqn:Hdec; [|reflexivity]. returns.
  eapply _build_decoder_inv in Hdec
    as (_ & _ & _ & _ & _ & x_dec & _ & _ & ->); [|reflexivity].
  match goal with
  | |- context [_build_autoencoder (with_sequences kernels strides ?s)] =>
      change (_build_autoencoder (with_sequences kernels strides s))
        with (_build_autoencoder (full (trimmed s)));
      rewrite (_build_autoencoder_trim (trimmed s))
  end.
  reflexivity.
Qed.

Lemma __init___trim rng input_shape conv_filters latent_space_dim :
  (length conv_filters ≤ n)%nat →
  __init__ rng input_shape conv_filters kernels strides latent_space_dim
  = (built ← __init__ rng input_shape conv_filters kernels' strides' latent_space_dim;
     mret (full built)).
Proof.
  intros Hn. unfold __init__.
  match goal with
  | |- _ = (?b ≫= _) ≫= _ =>
      match b with
      | _build ?s =>
          change (_build (full s) ≫= (λ self, model ← attribute "model" (model self);
                    mret (set_weights
                            (initial_weights rng (concat (model_variables model)))
                            self))
                  = (b ≫= (λ self, model ← attribute "model" (model self);
                       mret (set_weights
                               (initial_weights rng (concat (model_variables model)))
                               self)))
                    ≫= (λ built, mret (full built)));
          rewrite (_build_trim s) by exact Hn
      end
  end.
  destruct (_build _) as [built|e]; [|reflexivity]. returns.
  cbn [model with_sequences]. destruct (attribute "model" _) as [mdl|e]; reflexivity.
Qed.

End Trim.




(** C9, as stated, fails when conv_filters is empty.  Empty conv_kernels
    and conv_strides are then at least as long, yet the constructor raises,
    because the decoder's output layer reads index 0 of both; and when they
    are not empty their entry at index 0, which lies beyond the last layer
    index, is used, not ignored. *)
Lemma no_layer_counterexample :
  built_output_shapes [28; 28; 1] [] [] [] 2 = Raise (IndexError "conv_kernels" 0) ∧
  built_output_shapes [28; 28; 1] [] [3] [1] 2 = Ok ([2], [28; 28; 1]) ∧
  built_output_shapes [28; 28; 1] [] [3] [2] 2 = Ok ([2], [56; 56; 1]).
Proof. vm_compute. repeat split. Qed.

(** C9, amended.  The number of blocks is n = len(conv_filters).  When
    conv_filters is not empty, the constructor does with conv_kernels and
    conv_strides what it does with their first n entries: it returns in the
    same cases, with the same models, cached shape and weights, and
    otherwise raises the same exception.  The entries beyond index n - 1,
    whatever they are, are ignored, not rejected; they are only kept in the
    two attributes. *)
Theorem longer_sequences_ignored rng input_shape conv_filters conv_kernels conv_strides
    latent_space_dim :
  let n := length conv_filters in
  conv_filters ≠ [] →
  __init__ rng input_shape conv_filters conv_kernels conv_strides latent_space_dim
  = (trimmed ← __init__ rng input_shape conv_filters (take n conv_kernels)
                  (take n conv_strides) latent_space_dim;
     mret (with_sequences conv_kernels conv_strides trimmed)).
Proof.
  intros n Hne.
  apply (__init___trim conv_kernels conv_strides (take n conv_kernels)
           (take n conv_strides) n).
  - unfold n. destruct conv_filters; [done | cbn; lia].
  - intros i Hi. apply lookup_take_lt, Hi.
  - intros i Hi. apply lookup_take_lt, Hi.
  - reflexivity.
Qed.

Lemma longer_sequences_ignored_witness :
  __init__ (λ _ _, []) [28; 28; 1] [32; 64] [3; 3; 0] [1; 2; -2; 7] 2
  = (trimmed ← __init__ (λ _ _, []) [28; 28; 1] [32; 64] [3; 3] [1; 2] 2;
     mret (with_sequences [3; 3; 0] [1; 2; -2; 7] trimmed)).
Proof.
  exact (longer_sequences_ignored (λ _ _, []) [28; 28; 1] [32; 64] [3; 3; 0]
           [1; 2; -2; 7] 2 ltac:(discriminate)).
Defined.

(** ** Weights: initial values, training, files *)

Lemma initial_weights_shapes rng variables :
  map nd_shape (initial_weights rng variables) = variables.
Proof.
  unfold initial_weights. apply list_eq. intros i.
  rewrite list_lookup_fmap, list_lookup_imap. destruct (variables !! i); reflexivity.
Qed.

Lemma fit_shapes trainer m values x y batch_size epochs shuffle trained :
  fit trainer m values x y batch_size epochs shuffle = Ok trained →
  map nd_shape trained = map nd_shape values.
Proof.
  unfold fit. destruct (model_optimizer m); [|discriminate].
  intros (left & _ & [= <-])%bind_Ok.
  apply list_eq. intros i.
  rewrite !list_lookup_fmap, list_lookup_imap. destruct (values !! i); reflexivity.
Qed.

(** The variables the loader expects are all the variables of the model. *)
Lemma concat_expected (layers : list layer) : ∀ variables : list (list (list Z)),
  length layers = length variables →
  concat (map snd (filter (λ p, p.2 ≠ []) (zip layers variables))) = concat variables.
Proof.
  induction layers as [|l layers IH]; intros [|owned variables] Hlen;
    try discriminate; [reflexivity|].
  cbn [zip zip_with]. injection Hlen as Hlen. destruct owned as [|v owned].
  - rewrite filter_cons_False by (intros H; apply H; reflexivity).
    cbn [concat app]. apply IH, Hlen.
  - rewrite filter_cons_True by discriminate. cbn [map snd concat].
    change (zip_with pair layers variables) with (zip layers variables).
    rewrite (IH _ Hlen). reflexivity.
Qed.

(** What [load_weights] returns has the shapes of the model's variables. *)
Lemma load_weights_shapes m file values :
  length (model_layers m) = length (model_variables m) →
  Keras.load_weights m file = Ok values →
  map nd_shape values = concat (model_variables m).
Proof.
  intros Hlen. unfold Keras.load_weights.
  case_bool_decide; [|discriminate]. intros (loaded & _ & Hvalues)%bind_Ok.
  case_bool_decide as Hshapes; [|discriminate]. injection Hvalues as <-.
  rewrite Hshapes. apply concat_expected, Hlen.
Qed.

(** Arrays that are as many as a layer's variables are taken as they are. *)
Lemma preprocess_owned l owned arrays :
  owns l owned → length arrays = length owned →
  preprocess_weights_for_loading l arrays = arrays.
Proof.
  destruct l; try reflexivity. cbn [owns preprocess_weights_for_loading].
  intros -> Hlen. rewrite length_app in Hlen.
  rewrite (take_ge (drop _ _)) by (rewrite length_drop; lia). apply take_drop.
Qed.

(** Loading what was saved from a model with the same graph gives the saved
    values back. *)
Lemma save_load_groups layers : ∀ variables values,
  Forall2 owns layers variables →
  map nd_shape values = concat variables →
  let expected := filter (λ p, p.2 ≠ []) (zip layers variables) in
  let groups := filter (λ g, g.2 ≠ []) (weight_groups layers variables values) in
  length groups = length expected ∧ load_groups expected groups = Ok values.
Proof.
  induction layers as [|l layers IH]; intros variables values Howns Hshapes;
    inversion Howns as [|? owned ? variables' Hown Howns']; subst.
  - destruct values; [split; reflexivity | discriminate].
  - cbn [weight_groups concat zip zip_with] in *.
    change (zip_with pair layers variables') with (zip layers variables').
    assert (length (take (length owned) values) = length owned) as Htake.
    { apply length_take_le. rewrite <- (length_map nd_shape), Hshapes, length_app. lia. }
    assert (map nd_shape (drop (length owned) values) = concat variables') as Hdrop.
    { change (map nd_shape ?l) with (nd_shape <$> l).
      rewrite fmap_drop. change (nd_shape <$> values) with (map nd_shape values).
      rewrite Hshapes, drop_app_length. reflexivity. }
    destruct (IH variables' (drop (length owned) values) Howns' Hdrop) as [IHlen IHload].
    destruct owned as [|v owned].
    + rewrite !filter_cons_False by (intros H; apply H; reflexivity).
      cbn in IHlen, IHload |- *. split; assumption.
    + rewrite !filter_cons_True
        by (cbn [snd]; first [discriminate | intros H; rewrite H in Htake; discriminate]).
      cbn [length load_groups] in *. split; [f_equal; exact IHlen|].
      rewrite (preprocess_owned l (v :: owned)) by assumption.
      rewrite bool_decide_eq_true_2 by exact Htake.
      rewrite IHload. cbn. rewrite take_drop. reflexivity.
Qed.

Lemma load_saved_weights m values :
  Forall2 owns (model_layers m) (model_variables m) →
  map nd_shape values = concat (model_variables m) →
  Keras.load_weights m (save_weights m values) = Ok values.
Proof.
  intros Howns Hshapes. unfold Keras.load_weights, save_weights.
  destruct (save_load_groups _ _ _ Howns Hshapes) as [Hlen Hload].
  rewrite bool_decide_eq_true_2 by exact Hlen. rewrite Hload. returns.
  rewrite bool_decide_eq_true_2; [reflexivity|].
  rewrite Hshapes. symmetry. apply concat_expected.
  eapply Forall2_length, Howns.
Qed.

(** The model that chains the encoder and the decoder lists, for each of
    them, their variables as they list them. *)
Lemma chained_owns input_shape enc dec :
  Forall2 owns (model_layers (chained input_shape enc dec))
    (model_variables (chained input_shape enc dec)).
Proof. repeat constructor. Qed.

Lemma same_graph_refl m : same_graph m m.
Proof. repeat split. Qed.

Lemma same_graph_compile m m0 optimizer loss :
  same_graph m m0 → same_graph (Keras.compile m optimizer loss) m0.
Proof. intros H. exact H. Qed.

(** Every instance is well formed. *)
Lemma instance_well_formed self : instance self → well_formed self.
Proof.
  induction 1 as [rng a f k s l self Hinit
                 | self lr self' _ IH Hcompile
                 | trainer self x b e self' _ IH Htrain
                 | self path fs self' _ IH Hload].
  - pose proof Hinit as Hbuilt.
    apply __init___built in Hbuilt as (_ & ((Hi & Hf & Hk & Hs & Hl & _) & _) & _).
    apply __init___inv in Hinit as (built & mdl & Hbuilt & Hmdl & ->).
    cbn in Hi, Hf, Hk, Hs, Hl.
    exists built, mdl, mdl. cbn. rewrite <- Hi, <- Hf, <- Hk, <- Hs, <- Hl.
    split; [exact Hbuilt|]. split; [exact Hmdl|]. split; [exact Hmdl|].
    split; [apply same_graph_refl|]. split; [reflexivity|]. split; [reflexivity|].
    apply initial_weights_shapes.
  - destruct IH as (built & mdl0 & mdl & Hbuilt & Hmdl0 & Hmdl & Hsame & He & Hd & Hw).
    unfold compile in Hcompile. rewrite Hmdl in Hcompile. injection Hcompile as <-.
    exists built, mdl0, (Keras.compile mdl lr "mean_squared_error").
    split; [exact Hbuilt|]. split; [exact Hmdl0|]. split; [reflexivity|].
    split; [apply same_graph_compile, Hsame|]. auto.
  - destruct IH as (built & mdl0 & mdl & Hbuilt & Hmdl0 & Hmdl & Hsame & He & Hd & Hw).
    unfold train in Htrain. rewrite Hmdl in Htrain.
    apply bind_Ok in Htrain as (mdl1 & [= <-] & Htrain).
    apply bind_Ok in Htrain as (trained & Hfit & [= <-]).
    exists built, mdl0, mdl. split; [exact Hbuilt|]. split; [exact Hmdl0|].
    split; [exact Hmdl|]. split; [exact Hsame|]. split; [exact He|].
    split; [exact Hd|]. cbn. rewrite (fit_shapes _ _ _ _ _ _ _ _ _ Hfit). exact Hw.
  - destruct IH as (built & mdl0 & mdl & Hbuilt & Hmdl0 & Hmdl & Hsame & He & Hd & Hw).
    unfold load_weights in Hload. rewrite Hmdl in Hload.
    apply bind_Ok in Hload as (mdl1 & [= <-] & Hload).
    apply bind_Ok in Hload as (groups & _ & Hload).
    apply bind_Ok in Hload as (loaded & Hloaded & [= <-]).
    exists built, mdl0, mdl. split; [exact Hbuilt|]. split; [exact Hmdl0|].
    split; [exact Hmdl|]. split; [exact Hsame|]. split; [exact He|].
    split; [exact Hd|]. cbn.
    apply _build_inv in Hbuilt as [_ Hfrom].
    apply built_layers in Hfrom as (enc & dec & _ & _ & Hchained & _).
    rewrite Hmdl0 in Hchained. injection Hchained as Hchained.
    destruct Hsame as (_ & _ & _ & Hlayers & Hvariables).
    apply load_weights_shapes in Hloaded;
      [|rewrite Hlayers, Hvariables, Hchained; reflexivity].
    rewrite Hloaded, Hvariables. reflexivity.
Qed.

(** ** Files *)

Lemma path_join_distinct folder :
  os.path_join folder "parameters.pkl" ≠ os.path_join folder "weights.h5".
Proof.
  unfold os.path_join. cbn [os.startswith_sep Ascii.eqb]. cbn.
  destruct (bool_decide (folder = "") || os.endswith_sep folder);
    intros H%(inj (String.app folder)); discriminate.
Qed.

Lemma path_join_inside folder name :
  os.startswith_sep name = false → folder ≠ EmptyString →
  os.endswith_sep folder = false →
  os.path_join folder name = folder +:+ String os.sep name.
Proof.
  intros Hname Hfolder Hsep. unfold os.path_join. rewrite Hname, Hsep.
  rewrite bool_decide_eq_false_2 by exact Hfolder. reflexivity.
Qed.

Lemma string_app_nil_r (s : string) : s +:+ EmptyString = s.
Proof.
  induction s as [|c s IH]; [reflexivity|].
  change (String c (s +:+ EmptyString) = String c s). f_equal. exact IH.
Qed.

Lemma string_app_assoc (s1 s2 s3 : string) :
  (s1 +:+ s2) +:+ s3 = s1 +:+ (s2 +:+ s3).
Proof.
  induction s1 as [|c s1 IH]; [reflexivity|].
  change (String c ((s1 +:+ s2) +:+ s3) = String c (s1 +:+ (s2 +:+ s3))).
  f_equal. exact IH.
Qed.

Lemma leading_directories_self rest : ∀ walked,
  walked +:+ rest ∈ os.leading_directories walked rest.
Proof.
  induction rest as [|c rest IH]; intros walked; cbn [os.leading_directories].
  - rewrite string_app_nil_r. left.
  - apply elem_of_app. right.
    replace (walked +:+ String c rest)
      with ((walked +:+ String c EmptyString) +:+ rest)
      by (rewrite string_app_assoc; reflexivity).
    apply IH.
Qed.

Lemma leading_directories_prefix rest : ∀ walked d,
  d ∈ os.leading_directories walked rest → ∃ tail, walked +:+ rest = d +:+ tail.
Proof.
  induction rest as [|c rest IH]; intros walked d; cbn [os.leading_directories].
  - intros ->%list_elem_of_singleton. exists EmptyString. reflexivity.
  - intros [Hd|Hd]%elem_of_app.
    + destruct (Ascii.eqb c os.sep && negb (bool_decide (walked = EmptyString)));
        [|inversion Hd].
      apply list_elem_of_singleton in Hd as ->. eauto.
    + apply IH in Hd as [tail Htail]. exists tail. rewrite <- Htail.
      rewrite string_app_assoc. reflexivity.
Qed.

Lemma as_ints_py_ints l : as_ints (py_ints l) = Ok l.
Proof.
  unfold as_ints, py_ints. induction l as [|n l IH]; [reflexivity|].
  cbn [map as_ints_items as_int]. returns. rewrite IH. reflexivity.
Qed.

Lemma as_shape_py_ints l : as_shape (py_ints l) = Ok l.
Proof. exact (as_ints_py_ints l). Qed.

Lemma file_system_eq (a b : os.FileSystem) :
  os.directories a = os.directories b → os.files a = os.files b → a = b.
Proof. destruct a, b. cbn. intros -> ->. reflexivity. Qed.

(** When a directory is created, and what is there afterwards. *)
Lemma makedirs_Ok path fs fs' :
  os.makedirs path fs = Ok fs' →
  path ≠ EmptyString ∧ os.path_exists path fs = false ∧
  fs' = {| os.directories :=
             list_to_set (os.leading_directories EmptyString path) ∪ os.directories fs;
           os.files := os.files fs |}.
Proof.
  unfold os.makedirs. case_bool_decide as Hempty; [discriminate|].
  destruct (existsb _ _); [discriminate|].
  destruct (os.path_exists path fs); [discriminate|]. intros [= <-]. auto.
Qed.

(** When a file is written, and what is there afterwards. *)
Lemma write_Ok path contents fs fs' :
  os.write path contents fs = Ok fs' ↔
  writable path fs ∧
  fs' = {| os.directories := os.directories fs;
           os.files := <[path := contents]> (os.files fs) |}.
Proof.
  unfold os.write, writable, os.is_file.
  case_bool_decide as Hdir; [split; [discriminate | intros [[[] _] _]; exact Hdir]|].
  case_bool_decide as Hparent; cbn [negb andb].
  - split; [intros [= <-] | intros [_ ->]]; [|reflexivity].
    split; [|reflexivity]. split; [exact Hdir | intros []; exact Hparent].
  - case_bool_decide as Hfile; cbn [negb andb].
    + split; [discriminate|]. intros [[_ Hwritable] _].
      destruct (Hwritable Hparent) as [Hnone _]. rewrite Hnone in Hfile.
      destruct Hfile as [? [=]].
    + case_bool_decide as Hthere; cbn [negb].
      * split; [intros [= <-] | intros [_ ->]]; [|reflexivity].
        split; [|reflexivity]. split; [exact Hdir|]. intros _.
        split; [|exact Hthere]. apply eq_None_not_Some, Hfile.
      * split; [discriminate|]. intros [[_ Hwritable] _].
        destruct (Hwritable Hparent) as [_ Hin]. destruct (Hthere Hin).
Qed.

(** The two writes of [save], once the folder is there. *)
Lemma save_files self save_folder created after :
  match _save_parameters self save_folder created with
  | (Raise e, fs) => (Raise e, fs)
  | (Ok _, fs) => _save_weights self save_folder fs
  end = (Ok (), after) ↔
  ∃ mdl,
    model self = Some mdl ∧
    writable (os.path_join save_folder "parameters.pkl") created ∧
    writable (os.path_join save_folder "weights.h5")
      {| os.directories := os.directories created;
         os.files := <[os.path_join save_folder "parameters.pkl" := saved_parameters self]>
                       (os.files created) |} ∧
    after =
      {| os.directories := os.directories created;
         os.files :=
           <[os.path_join save_folder "weights.h5" :=
               os.HDF5File (save_weights mdl (weights self))]>
             (<[os.path_join save_folder "parameters.pkl" := saved_parameters self]>
                (os.files created)) |}.
Proof.
  unfold _save_parameters, _save_weights. fold (saved_parameters self). split.
  - destruct (os.write _ _ created) as [fs2|e] eqn:Hp; [|discriminate].
    destruct (model self) as [mdl|]; [|discriminate]. cbn [attribute].
    destruct (os.write _ _ fs2) as [fs3|e] eqn:Hw; [|discriminate].
    intros [= <-].
    apply write_Ok in Hp as [Hp ->]. apply write_Ok in Hw as [Hw ->].
    exists mdl. auto.
  - intros (mdl & Hmdl & Hp & Hw & ->).
    rewrite (proj2 (write_Ok _ _ _ _) (conj Hp eq_refl)).
    rewrite Hmdl. cbn [attribute].
    rewrite (proj2 (write_Ok _ _ _ _) (conj Hw eq_refl)). reflexivity.
Qed.

(** [save] returns exactly when the instance has its model, the folder is
    there or can be created, and the two files can be written; what it
    leaves is the directories of the folder and the two files over the files
    there were. *)
Lemma save_Ok self save_folder fs after :
  save self save_folder fs = (Ok (), after) ↔
  ∃ mdl created,
    model self = Some mdl ∧
    (if os.path_exists save_folder fs then created = fs
     else os.makedirs save_folder fs = Ok created) ∧
    os.files created = os.files fs ∧
    writable (os.path_join save_folder "parameters.pkl") created ∧
    writable (os.path_join save_folder "weights.h5")
      {| os.directories := os.directories created;
         os.files := <[os.path_join save_folder "parameters.pkl" := saved_parameters self]>
                       (os.files created) |} ∧
    after =
      {| os.directories := os.directories created;
         os.files :=
           <[os.path_join save_folder "weights.h5" :=
               os.HDF5File (save_weights mdl (weights self))]>
             (<[os.path_join save_folder "parameters.pkl" := saved_parameters self]>
                (os.files fs)) |}.
Proof.
  unfold save, _create_folder_if_it_doesnt_exist.
  destruct (os.path_exists save_folder fs); cbn [negb].
  - rewrite save_files. split.
    + intros (mdl & Hmdl & Hp & Hw & ->). exists mdl, fs. auto 10.
    + intros (mdl & created & Hmdl & -> & _ & Hp & Hw & ->). exists mdl. auto.
  - destruct (os.makedirs save_folder fs) as [created|e] eqn:Hmake.
    + rewrite save_files.
      pose proof (makedirs_Ok _ _ _ Hmake) as (_ & _ & Hcreated).
      assert (os.files created = os.files fs) as Hfiles by (subst; reflexivity).
      split.
      * intros (mdl & Hmdl & Hp & Hw & ->). exists mdl, created.
        rewrite <- Hfiles. auto 10.
      * intros (mdl & created' & Hmdl & [= <-] & _ & Hp & Hw & ->). exists mdl.
        rewrite <- Hfiles. auto.
    + split; [discriminate|]. intros (mdl & created & _ & [=] & _).
Qed.

(** The files [save] leaves: the two it writes over the ones there were. *)
Lemma saved_files self save_folder fs after :
  save self save_folder fs = (Ok (), after) →
  ∃ mdl,
    model self = Some mdl ∧
    os.files after =
      <[os.path_join save_folder "weights.h5" :=
          os.HDF5File (save_weights mdl (weights self))]>
        (<[os.path_join save_folder "parameters.pkl" := saved_parameters self]>
           (os.files fs)).
Proof.
  intros (mdl & created & Hmdl & _ & _ & _ & _ & ->)%save_Ok. eauto.
Qed.

(** The directories [save] leaves. *)
Lemma saved_directories self save_folder fs after :
  save self save_folder fs = (Ok (), after) →
  save_folder ≠ EmptyString ∧
  os.directories after =
    if os.path_exists save_folder fs then os.directories fs
    else list_to_set (os.leading_directories EmptyString save_folder) ∪ os.directories fs.
Proof.
  intros (mdl & created & _ & Hcreated & _ & _ & _ & ->)%save_Ok. cbn.
  destruct (os.path_exists save_folder fs) eqn:Hexists.
  - subst created. split; [|reflexivity]. intros ->.
    unfold os.path_exists in Hexists. discriminate.
  - apply makedirs_Ok in Hcreated as (Hne & _ & ->). auto.
Qed.

Lemma saved_folder_exists self save_folder fs after :
  save self save_folder fs = (Ok (), after) →
  os.path_exists save_folder after = true.
Proof.
  intros Hsave. destruct (saved_directories _ _ _ _ Hsave) as [Hne Hdirs].
  destruct (saved_files _ _ _ _ Hsave) as (mdl & _ & Hfiles).
  unfold os.path_exists at 1. rewrite Hdirs, Hfiles.
  rewrite bool_decide_eq_false_2 by exact Hne. cbn [negb andb].
  destruct (os.path_exists save_folder fs) eqn:Hexists.
  - unfold os.path_exists in Hexists.
    rewrite bool_decide_eq_false_2 in Hexists by exact Hne. cbn [negb andb] in Hexists.
    apply orb_true_iff in Hexists as [Hdir|Hfile].
    + rewrite Hdir. reflexivity.
    + apply orb_true_iff. right. apply bool_decide_eq_true in Hfile.
      apply bool_decide_eq_true.
      assert (∀ (m : gmap string os.File) path v,
                is_Some (m !! save_folder) → is_Some (<[path := v]> m !! save_folder))
        as Hkeep.
      { intros m path v Hm. destruct (decide (path = save_folder)) as [->|Hother].
        - rewrite lookup_insert_eq. eauto.
        - rewrite lookup_insert_ne by exact Hother. exact Hm. }
      auto.
  - apply orb_true_iff. left. apply bool_decide_eq_true, elem_of_union. left.
    apply elem_of_list_to_set. apply (leading_directories_self save_folder EmptyString).
Qed.

(** Where one instance was saved, any instance that has its model can be
    saved, before as well as after; and saving after leaves what saving
    instead would have left. *)
Lemma save_again self other save_folder fs after :
  save self save_folder fs = (Ok (), after) → is_Some (model other) →
  ∃ after',
    save other save_folder fs = (Ok (), after') ∧
    save other save_folder after = (Ok (), after').
Proof.
  intros Hsave [mdl' Hmdl'].
  pose proof (saved_folder_exists _ _ _ _ Hsave) as Hexists.
  pose proof (path_join_distinct save_folder) as Hdistinct.
  apply save_Ok in Hsave as (mdl & created & Hmdl & Hcreated & Hfiles & Hp & Hw & ->).
  exists {| os.directories := os.directories created;
            os.files :=
              <[os.path_join save_folder "weights.h5" :=
                  os.HDF5File (save_weights mdl' (weights other))]>
                (<[os.path_join save_folder "parameters.pkl" := saved_parameters other]>
                   (os.files fs)) |}.
  revert Hexists Hdistinct Hp Hw.
  rewrite !save_Ok.
  generalize (os.path_join save_folder "parameters.pkl") as P.
  generalize (os.path_join save_folder "weights.h5") as W.
  intros W P Hexists Hdistinct [Hp_dir Hp_parent] [Hw_dir Hw_parent].
  cbn [os.directories os.files] in Hw_dir, Hw_parent.
  assert (∀ d, d ∈ os.directories created → P ≠ d ∧ W ≠ d) as Hfresh.
  { intros d Hd. split; intros ->; [exact (Hp_dir Hd) | exact (Hw_dir Hd)]. }
  split.
  - exists mdl', created. split; [exact Hmdl'|].
    split; [exact Hcreated|]. split; [exact Hfiles|].
    split; [split; assumption|]. split; [|reflexivity].
    split; [exact Hw_dir|]. cbn [os.directories os.files]. intros Hne.
    destruct (Hw_parent Hne) as [Hnone Hin]. split; [|exact Hin].
    apply lookup_insert_None in Hnone as [Hnone HP].
    apply lookup_insert_None. auto.
  - eexists mdl', _. split; [exact Hmdl'|].
    rewrite Hexists. split; [reflexivity|]. split; [reflexivity|].
    cbn [os.directories os.files]. split; [|split].
    + split; [exact Hp_dir|]. cbn [os.directories os.files]. intros Hne.
      destruct (Hp_parent Hne) as [Hnone Hin]. split; [|exact Hin].
      destruct (Hfresh _ Hin). rewrite Hfiles in Hnone.
      rewrite !lookup_insert_None. auto.
    + split; [exact Hw_dir|]. cbn [os.directories os.files]. intros Hne.
      destruct (Hw_parent Hne) as [Hnone Hin]. split; [|exact Hin].
      apply lookup_insert_None in Hnone as [Hnone _].
      destruct (Hfresh _ Hin). rewrite Hfiles in Hnone.
      rewrite !lookup_insert_None. auto.
    + f_equal. rewrite (insert_insert_ne _ P W) by exact Hdistinct.
      rewrite !insert_insert_eq. reflexivity.
Qed.

(** [load] looks at two paths only. *)
Lemma load_reads_two_files rng save_folder fs1 fs2 :
  os.files fs1 !! os.path_join save_folder "parameters.pkl"
    = os.files fs2 !! os.path_join save_folder "parameters.pkl" →
  os.files fs1 !! os.path_join save_folder "weights.h5"
    = os.files fs2 !! os.path_join save_folder "weights.h5" →
  load rng save_folder fs1 = load rng save_folder fs2.
Proof.
  intros H1 H2. unfold load, os.pickle_load, load_weights, os.h5_load.
  rewrite H1, H2. reflexivity.
Qed.

(** The model of an instance is built like the one that chains its encoder
    and its decoder, and there is one value of the right shape for each of
    its variables. *)
Lemma instance_model self :
  instance self →
  ∃ built mdl0 mdl,
    _build (new_instance (input_shape self) (conv_filters self) (conv_kernels self)
              (conv_strides self) (latent_space_dim self)) = Ok built ∧
    model built = Some mdl0 ∧ model self = Some mdl ∧ same_graph mdl mdl0 ∧
    encoder self = encoder built ∧ decoder self = decoder built ∧
    map nd_shape (weights self) = concat (model_variables mdl0) ∧
    Forall2 owns (model_layers mdl0) (model_variables mdl0).
Proof.
  intros (built & mdl0 & mdl & Hbuilt & Hmdl0 & Hmdl & Hsame & He & Hd & Hw
         )%instance_well_formed.
  exists built, mdl0, mdl. split_and!; try assumption.
  pose proof (_build_inv _ _ Hbuilt)
    as [_ (_ & _ & _ & x_enc & x_dec & _ & _ & _ & _ & _ & _ & Hchained)].
  rewrite Hmdl0 in Hchained. injection Hchained as ->. apply chained_owns.
Qed.

(** [load] after [save]: the rebuilt instance with the saved values in its
    variables. *)
Lemma load_after_save rng self save_folder fs after :
  instance self → save self save_folder fs = (Ok (), after) →
  ∃ built mdl0 mdl,
    _build (new_instance (input_shape self) (conv_filters self) (conv_kernels self)
              (conv_strides self) (latent_space_dim self)) = Ok built ∧
    model built = Some mdl0 ∧ model self = Some mdl ∧ same_graph mdl mdl0 ∧
    encoder self = encoder built ∧ decoder self = decoder built ∧
    load rng save_folder after = Ok (set_weights (weights self) built).
Proof.
  intros (built & mdl0 & mdl & Hbuilt & Hmdl0 & Hmdl & Hsame & He & Hd & Hw & Howns
         )%instance_model Hsave.
  exists built, mdl0, mdl. split_and!; try assumption.
  destruct (saved_files _ _ _ _ Hsave) as (mdl' & Hmdl' & Hfiles).
  rewrite Hmdl in Hmdl'. injection Hmdl' as <-.
  pose proof (f_equal (λ files : gmap string os.File,
                         files !! os.path_join save_folder "parameters.pkl") Hfiles)
    as Hp1.
  pose proof (f_equal (λ files : gmap string os.File,
                         files !! os.path_join save_folder "weights.h5") Hfiles)
    as Hp2.
  cbv beta in Hp1, Hp2. rewrite lookup_insert_eq in Hp2.
  rewrite lookup_insert_ne in Hp1 by (apply not_eq_sym, path_join_distinct).
  rewrite lookup_insert_eq in Hp1.
  unfold load, os.pickle_load, load_weights, os.h5_load. rewrite Hp1, Hp2.
  unfold saved_parameters. returns. unfold Autoencoder_star.
  rewrite as_shape_py_ints, !as_ints_py_ints. returns. cbn [as_int]. returns.
  assert (__init__ rng (input_shape self) (conv_filters self) (conv_kernels self)
            (conv_strides self) (latent_space_dim self)
          = Ok (set_weights (initial_weights rng (concat (model_variables mdl0)))
                  built)) as ->
    by (apply __init___inv; exists built, mdl0; auto).
  returns. cbn [model set_weights]. rewrite Hmdl0.
  cbn [attribute]. returns.
  destruct Hsame as (_ & _ & _ & Hlayers & Hvariables).
  assert (save_weights mdl (weights self) = save_weights mdl0 (weights self)) as ->
    by (unfold save_weights; rewrite Hlayers, Hvariables; reflexivity).
  rewrite load_saved_weights by assumption. reflexivity.
Qed.

Lemma trained_instance_is_instance : instance trained_instance.
Proof.
  assert (∃ compiled, compile script_instance train_py.LEARNING_RATE = Ok compiled ∧
            train (λ _ _ _ _ _ _ _, Ok (λ i, [inject_Z (Z.of_nat i)])) compiled
              {| nd_shape := [1; 28; 28; 1]; nd_data := [] |}
              train_py.BATCH_SIZE train_py.EPOCHS = Ok trained_instance)
    as (compiled & Hcompile & Htrain)
    by (eexists; split; vm_compute; reflexivity).
  eapply instance_train; [|exact Htrain].
  eapply instance_compile; [|exact Hcompile].
  eapply instance_init. exact script_instance_built.
Qed.

(** The trained instance of the script can be saved into a new folder. *)
Lemma trained_instance_saves :
  ∃ after, save trained_instance "model" empty_fs = (Ok (), after).
Proof. eexists. vm_compute. reflexivity. Qed.

Lemma trained_instance_saves_nested :
  ∃ after, save trained_instance "runs/model" empty_fs = (Ok (), after).
Proof. eexists. vm_compute. reflexivity. Qed.

(** ** Persistence *)

(** C2. For every instance and folder for which [save] returns, [load] from
    the folder then returns an instance with the same five hyperparameters,
    the same values in its variables and a model with the same graph, hence
    the same output for the same input whatever the layers compute. *)
Theorem save_load_round_trip rng self save_folder fs after :
  instance self →
  save self save_folder fs = (Ok (), after) →
  ∃ loaded mdl mdl',
    load rng save_folder after = Ok loaded ∧
    input_shape loaded = input_shape self ∧
    conv_filters loaded = conv_filters self ∧
    conv_kernels loaded = conv_kernels self ∧
    conv_strides loaded = conv_strides self ∧
    latent_space_dim loaded = latent_space_dim self ∧
    weights loaded = weights self ∧
    model self = Some mdl ∧ model loaded = Some mdl' ∧ same_graph mdl' mdl ∧
    encoder loaded = encoder self ∧ decoder loaded = decoder self ∧
    ∀ kernels x,
      predict kernels mdl' (weights loaded) x = predict kernels mdl (weights self) x.
Proof.
  intros Hinstance Hsave.
  destruct (load_after_save rng self save_folder fs after Hinstance Hsave)
    as (built & mdl0 & mdl & Hbuilt & Hmdl0 & Hmdl & Hsame & He & Hd & Hload).
  apply _build_inv in Hbuilt as [_ ((Hi & Hf & Hk & Hs & Hl & _) & _)].
  cbn in Hi, Hf, Hk, Hs, Hl.
  exists (set_weights (weights self) built), mdl, mdl0.
  split; [exact Hload|]. cbn.
  split_and!; try (symmetry; assumption); try reflexivity; try assumption.
  - destruct Hsame as (?&?&?&?&?). repeat split; symmetry; assumption.
  - intros kernels x. unfold predict. destruct Hsame as (_ & _ & _ & -> & _).
    reflexivity.
Qed.

Lemma save_load_round_trip_witness :
  ∃ after loaded,
    save trained_instance "model" empty_fs = (Ok (), after) ∧
    load (λ _ _, [1%Q]) "model" after = Ok loaded ∧
    weights loaded = weights trained_instance ∧
    conv_strides loaded = conv_strides trained_instance.
Proof.
  destruct trained_instance_saves as [after Hsave].
  destruct (save_load_round_trip (λ _ _, [1%Q]) trained_instance "model" empty_fs after
              trained_instance_is_instance Hsave)
    as (loaded & mdl & mdl' & Hload & _ & _ & _ & Hstrides & _ & Hweights & _).
  exists after, loaded. split; [exact Hsave|]. split; [exact Hload|].
  split; [exact Hweights | exact Hstrides].
Defined.

(** C4. When [save] returns, the parameters file it has written is the list
    of exactly five values input shape, filter counts, kernel sizes,
    strides, bottleneck dimensionality, in this order; [load] hands the
    items of the list it reads to the constructor in the same order; and the
    instance [load] rebuilds from what an instance saved has the same five
    values. *)
Theorem parameters_file_order :
  (∀ self save_folder fs after,
     save self save_folder fs = (Ok (), after) →
     os.files after !! os.path_join save_folder "parameters.pkl"
     = Some (os.PickleFile
               (os.PySeq [py_ints (input_shape self);
                          py_ints (conv_filters self);
                          py_ints (conv_kernels self);
                          py_ints (conv_strides self);
                          os.PyInt (latent_space_dim self)]))) ∧
  (∀ rng save_folder fs arg1 arg2 arg3 arg4 arg5,
     os.files fs !! os.path_join save_folder "parameters.pkl"
     = Some (os.PickleFile
               (os.PySeq [py_ints arg1; py_ints arg2; py_ints arg3; py_ints arg4;
                          os.PyInt arg5])) →
     load rng save_folder fs =
       autoencoder ← __init__ rng arg1 arg2 arg3 arg4 arg5;
       load_weights autoencoder (os.path_join save_folder "weights.h5") fs) ∧
  (∀ rng self save_folder fs after,
     instance self →
     save self save_folder fs = (Ok (), after) →
     ∃ loaded,
       load rng save_folder after = Ok loaded ∧
       input_shape loaded = input_shape self ∧
       conv_filters loaded = conv_filters self ∧
       conv_kernels loaded = conv_kernels self ∧
       conv_strides loaded = conv_strides self ∧
       latent_space_dim loaded = latent_space_dim self).
Proof.
  split_and!.
  - intros self save_folder fs after Hsave.
    destruct (saved_files _ _ _ _ Hsave) as (mdl & _ & ->).
    rewrite lookup_insert_ne by (apply not_eq_sym, path_join_distinct).
    apply lookup_insert_eq.
  - intros rng save_folder fs arg1 arg2 arg3 arg4 arg5 Hfile.
    unfold load, os.pickle_load. rewrite Hfile. returns. unfold Autoencoder_star.
    rewrite as_shape_py_ints, !as_ints_py_ints. returns. reflexivity.
  - intros rng self save_folder fs after Hinstance Hsave.
    destruct (load_after_save rng self save_folder fs after Hinstance Hsave)
      as (built & mdl0 & mdl & Hbuilt & _ & _ & _ & _ & _ & Hload).
    apply _build_inv in Hbuilt as [_ ((Hi & Hf & Hk & Hs & Hl & _) & _)].
    cbn in Hi, Hf, Hk, Hs, Hl.
    exists (set_weights (weights self) built). split; [exact Hload|]. cbn.
    split_and!; symmetry; assumption.
Qed.

Lemma parameters_file_order_witness :
  ∃ after,
    save trained_instance "model" empty_fs = (Ok (), after) ∧
    os.files after !! "model/parameters.pkl"
    = Some (os.PickleFile
              (os.PySeq [py_ints [28; 28; 1]; py_ints [32; 64; 64; 64];
                         py_ints [3; 3; 3; 3]; py_ints [1; 2; 2; 1]; os.PyInt 2])).
Proof.
  destruct trained_instance_saves as [after Hsave].
  exists after. split; [exact Hsave|].
  exact (proj1 parameters_file_order trained_instance "model" empty_fs after Hsave).
Defined.

(** C6, as stated, fails: [save] does not create every folder and write the
    two files into it.  For the empty folder name the folder is not there
    and creating it raises, before anything is written; and when a regular
    file has the folder's name nothing is created, and writing the
    parameters file where a directory would have to be raises. *)
Lemma save_folder_counterexample :
  save script_instance "" empty_fs = (Raise (FileNotFoundError ""), empty_fs) ∧
  save script_instance "model" occupied_fs
  = (Raise (NotADirectoryError "model/parameters.pkl"), occupied_fs).
Proof. split; vm_compute; reflexivity. Qed.

(** C6, amended.  For every instance and folder for which [save] returns:
    the folder name is not empty and the folder exists afterwards, a folder
    that was not there having been created (with the directories on the way
    to it, and no other), while one that was there leaves the directories
    as they are.  Two files are written, the parameters file and the
    weights file, under two fixed names joined to the folder (inside the
    folder, for a folder name without a trailing separator), and every
    other path is left as it was.  A second [save] into the folder returns
    too, and leaves exactly what that [save] alone would have left, so
    nothing of the first one stays behind.  [load] depends on the contents
    of those two paths only. *)
Theorem save_writes_two_files self save_folder fs after :
  instance self →
  save self save_folder fs = (Ok (), after) →
  let parameters_path := os.path_join save_folder "parameters.pkl" in
  let weights_path := os.path_join save_folder "weights.h5" in
  save_folder ≠ EmptyString ∧
  os.path_exists save_folder after = true ∧
  (os.path_exists save_folder fs = false → save_folder ∈ os.directories after) ∧
  (os.path_exists save_folder fs = true → os.directories after = os.directories fs) ∧
  os.directories fs ⊆ os.directories after ∧
  (∀ d, d ∈ os.directories after →
        d ∈ os.directories fs ∨ ∃ tail, save_folder = d +:+ tail) ∧
  parameters_path ≠ weights_path ∧
  (∃ obj, os.files after !! parameters_path = Some (os.PickleFile obj)) ∧
  (∃ groups, os.files after !! weights_path = Some (os.HDF5File groups)) ∧
  (∀ path, path ≠ parameters_path → path ≠ weights_path →
           os.files after !! path = os.files fs !! path) ∧
  (os.endswith_sep save_folder = false →
   parameters_path = save_folder +:+ "/parameters.pkl" ∧
   weights_path = save_folder +:+ "/weights.h5") ∧
  (∀ other, instance other →
     ∃ after', save other save_folder fs = (Ok (), after') ∧
               save other save_folder after = (Ok (), after')) ∧
  save self save_folder after = (Ok (), after) ∧
  (∀ rng fs1 fs2,
     os.files fs1 !! parameters_path = os.files fs2 !! parameters_path →
     os.files fs1 !! weights_path = os.files fs2 !! weights_path →
     load rng save_folder fs1 = load rng save_folder fs2).
Proof.
  intros Hinstance Hsave parameters_path weights_path.
  destruct (saved_files _ _ _ _ Hsave) as (mdl & Hmdl & Hfiles).
  fold parameters_path weights_path in Hfiles.
  destruct (saved_directories _ _ _ _ Hsave) as [Hne Hdirs].
  pose proof (path_join_distinct save_folder) as Hdistinct.
  fold parameters_path weights_path in Hdistinct.
  split; [exact Hne|].
  split; [eapply saved_folder_exists, Hsave|].
  split.
  { intros Hnew. rewrite Hdirs, Hnew. apply elem_of_union. left.
    apply elem_of_list_to_set, (leading_directories_self save_folder EmptyString). }
  split; [intros Hold; rewrite Hdirs, Hold; reflexivity|].
  split.
  { rewrite Hdirs. destruct (os.path_exists save_folder fs);
      [reflexivity | apply union_subseteq_r]. }
  split.
  { intros d. rewrite Hdirs. destruct (os.path_exists save_folder fs); [auto|].
    intros [Hd|Hd]%elem_of_union; [right | left; exact Hd].
    apply elem_of_list_to_set in Hd.
    apply leading_directories_prefix in Hd. exact Hd. }
  split; [exact Hdistinct|].
  split.
  { eexists. rewrite Hfiles, lookup_insert_ne by (apply not_eq_sym, Hdistinct).
    apply lookup_insert_eq. }
  split; [eexists; rewrite Hfiles; apply lookup_insert_eq|].
  split.
  { intros path H1 H2. rewrite Hfiles.
    rewrite !lookup_insert_ne by (apply not_eq_sym; assumption). reflexivity. }
  split.
  { intros Hsep. unfold parameters_path, weights_path.
    rewrite !path_join_inside by (assumption || reflexivity). split; reflexivity. }
  split.
  { intros other Hother.
    pose proof (instance_well_formed _ Hother) as (_ & _ & mdl' & _ & _ & Hmdl' & _).
    eapply save_again; [exact Hsave | eauto]. }
  split.
  { destruct (save_again self self save_folder fs after Hsave) as (after' & H1 & H2);
      [eauto|]. rewrite Hsave in H1. injection H1 as <-. exact H2. }
  intros rng fs1 fs2. apply load_reads_two_files.
Qed.

Lemma save_writes_two_files_witness :
  ∃ after,
    save trained_instance "runs/model" empty_fs = (Ok (), after) ∧
    "runs/model" ∈ os.directories after ∧
    os.path_join "runs/model" "parameters.pkl" = "runs/model/parameters.pkl" ∧
    os.path_join "runs/model" "weights.h5" = "runs/model/weights.h5" ∧
    os.files after !! "runs/notes.txt" = None ∧
    save trained_instance "runs/model" after = (Ok (), after).
Proof.
  destruct trained_instance_saves_nested as [after Hsave].
  destruct (save_writes_two_files trained_instance "runs/model" empty_fs after
              trained_instance_is_instance Hsave)
    as (_ & _ & Hnew & _ & _ & _ & _ & _ & _ & Hothers & Hinside & _ & Hagain & _).
  exists after. split; [exact Hsave|]. split; [apply Hnew; reflexivity|].
  destruct Hinside as [Hp Hw]; [reflexivity|].
  split; [exact Hp|]. split; [exact Hw|]. split; [|exact Hagain].
  rewrite Hothers; [reflexivity | rewrite Hp; discriminate | rewrite Hw; discriminate].
Defined.

(** ** The dataset loader *)

Lemma np_prod_channel (shape : list Z) : np_prod (shape ++ [1]) = np_prod shape.
Proof. rewrite np_prod_app. unfold np_prod at 2. cbn. lia. Qed.

Lemma reshape_channel {A} (a : ndarray A) :
  train_py.reshape a (nd_shape a ++ [1])
  = Ok {| nd_shape := nd_shape a ++ [1]; nd_data := nd_data a |}.
Proof.
  unfold train_py.reshape. rewrite np_prod_channel, Z.eqb_refl. reflexivity.
Qed.

(** Every byte, converted and divided by 255 in single precision, gives a
    finite number in [0, 1], no further than 2^-25 from the exact
    quotient: all 256 cases are computed. *)
Lemma pixels_normalized : forallb pixel_normalized (seqZ 0 256) = true.
Proof. vm_compute. reflexivity. Qed.

Lemma normalized_range p :
  0 ≤ p ≤ 255 →
  let v := float32_div (float32_of_Z p) (float32_of_Z 255) in
  float32_is_finite v = true ∧ (0 <= float32_value v <= 1)%Q ∧
  (inject_Z p / inject_Z 255 - (1 # 33554432) <= float32_value v
   <= inject_Z p / inject_Z 255 + (1 # 33554432))%Q.
Proof.
  intros Hp v.
  assert (pixel_normalized p = true) as Hok.
  { apply (proj1 (forallb_forall _ _) pixels_normalized).
    apply list_elem_of_In, elem_of_seqZ. lia. }
  unfold pixel_normalized in Hok. fold v in Hok.
  repeat (apply andb_true_iff in Hok as [Hok ?]).
  repeat match goal with H : Qle_bool _ _ = true |- _ => apply Qle_bool_iff in H end.
  auto 10.
Qed.

Lemma load_mnist_returns (mnist_load_data : train_py.Loader) fs after
    x_train y_train x_test y_test :
  mnist_load_data fs = (Ok ((x_train, y_train), (x_test, y_test)), after) →
  train_py.load_mnist mnist_load_data fs =
  (Ok ({| nd_shape := nd_shape x_train ++ [1];
          nd_data := map (λ p, float32_div (float32_of_Z p) (float32_of_Z 255))
                       (nd_data x_train) |},
       y_train,
       {| nd_shape := nd_shape x_test ++ [1];
          nd_data := map (λ p, float32_div (float32_of_Z p) (float32_of_Z 255))
                       (nd_data x_test) |},
       y_test),
   after).
Proof.
  intros Hload. unfold train_py.load_mnist. rewrite Hload.
  rewrite (reshape_channel (train_py.astype_float32_div x_train 255)). returns.
  rewrite (reshape_channel (train_py.astype_float32_div x_test 255)). reflexivity.
Qed.

(** C7, as stated, fails in its first part: [load_mnist] does not discard
    the labels, it returns them.  On one white training pixel labelled 7 and
    one black test pixel labelled 3 both labels are in what it returns. *)
Lemma load_mnist_labels_counterexample :
  train_py.load_mnist
    (cached
       (({| nd_shape := [1; 1; 1]; nd_data := [255] |},
         {| nd_shape := [1]; nd_data := [7] |}),
        ({| nd_shape := [1; 1; 1]; nd_data := [0] |},
         {| nd_shape := [1]; nd_data := [3] |})))
    empty_fs
  = (Ok ({| nd_shape := [1; 1; 1; 1]; nd_data := [S754_finite false 8388608 (-23)] |},
         {| nd_shape := [1]; nd_data := [7] |},
         {| nd_shape := [1; 1; 1; 1]; nd_data := [S754_zero false] |},
         {| nd_shape := [1]; nd_data := [3] |}),
     empty_fs).
Proof. vm_compute. reflexivity. Qed.

(** C7, amended.  When the dataset is there, [load_mnist] returns the
    labels of both partitions as they came, next to the images; it is the
    script's unpacking that keeps the training images only, so what the
    script does depends on neither the labels nor the test images.  Of both
    partitions, every pixel intensity p (a byte, 0 to 255) becomes the
    single-precision quotient of p by 255, a number in [0, 1] within 2^-25
    of p / 255, and every image gets a trailing channel dimension of
    size 1. *)
Theorem load_mnist_normalizes (mnist_load_data : train_py.Loader) fs after
    x_train y_train x_test y_test :
  mnist_load_data fs = (Ok ((x_train, y_train), (x_test, y_test)), after) →
  Forall (λ p, 0 ≤ p ≤ 255) (nd_data x_train) →
  Forall (λ p, 0 ≤ p ≤ 255) (nd_data x_test) →
  let normalized p := float32_div (float32_of_Z p) (float32_of_Z 255) in
  let in_range v :=
    float32_is_finite v = true ∧ (0 <= float32_value v <= 1)%Q in
  let close p :=
    (inject_Z p / inject_Z 255 - (1 # 33554432) <= float32_value (normalized p)
     <= inject_Z p / inject_Z 255 + (1 # 33554432))%Q in
  ∃ images_train images_test,
    train_py.load_mnist mnist_load_data fs
      = (Ok (images_train, y_train, images_test, y_test), after) ∧
    nd_shape images_train = nd_shape x_train ++ [1] ∧
    nd_shape images_test = nd_shape x_test ++ [1] ∧
    nd_data images_train = map normalized (nd_data x_train) ∧
    nd_data images_test = map normalized (nd_data x_test) ∧
    Forall in_range (nd_data images_train) ∧
    Forall in_range (nd_data images_test) ∧
    Forall close (nd_data x_train) ∧ Forall close (nd_data x_test) ∧
    ∀ (other : train_py.Loader) other_y_train other_x_test other_y_test
      rng rng2 trainer,
      other fs = (Ok ((x_train, other_y_train), (other_x_test, other_y_test)), after) →
      train_py.main other rng rng2 trainer fs
      = train_py.main mnist_load_data rng rng2 trainer fs.
Proof.
  intros Hload Htrain Htest normalized in_range close. eexists _, _.
  split; [apply load_mnist_returns, Hload|]. cbn [nd_shape nd_data].
  split; [reflexivity|]. split; [reflexivity|]. split; [reflexivity|].
  split; [reflexivity|].
  split; [apply Forall_fmap; eapply Forall_impl; [exact Htrain|];
          intros p Hp; destruct (normalized_range p Hp) as (? & ? & _); split;
          assumption|].
  split; [apply Forall_fmap; eapply Forall_impl; [exact Htest|];
          intros p Hp; destruct (normalized_range p Hp) as (? & ? & _); split;
          assumption|].
  split; [eapply Forall_impl; [exact Htrain|];
          intros p Hp; apply (normalized_range p Hp)|].
  split; [eapply Forall_impl; [exact Htest|];
          intros p Hp; apply (normalized_range p Hp)|].
  intros other other_y_train other_x_test other_y_test rng rng2 trainer Hother.
  unfold train_py.main.
  rewrite (load_mnist_returns _ _ _ _ _ _ _ Hload),
    (load_mnist_returns _ _ _ _ _ _ _ Hother). reflexivity.
Qed.

Lemma load_mnist_normalizes_witness :
  ∃ images_train images_test,
    train_py.load_mnist
      (cached
         (({| nd_shape := [1; 1; 2]; nd_data := [0; 255] |},
           {| nd_shape := [1]; nd_data := [7] |}),
          ({| nd_shape := [1; 1; 2]; nd_data := [51; 128] |},
           {| nd_shape := [1]; nd_data := [3] |})))
      empty_fs
    = (Ok (images_train, {| nd_shape := [1]; nd_data := [7] |},
           images_test, {| nd_shape := [1]; nd_data := [3] |}), empty_fs) ∧
    nd_shape images_train = [1; 1; 2; 1] ∧
    nd_data images_test
    = [S754_finite false 13421773 (-26); S754_finite false 8421505 (-24)] ∧
    Forall (λ v, float32_is_finite v = true ∧ (0 <= float32_value v <= 1)%Q)
      (nd_data images_test).
Proof.
  destruct (load_mnist_normalizes
              (cached
                 (({| nd_shape := [1; 1; 2]; nd_data := [0; 255] |},
                   {| nd_shape := [1]; nd_data := [7] |}),
                  ({| nd_shape := [1; 1; 2]; nd_data := [51; 128] |},
                   {| nd_shape := [1]; nd_data := [3] |})))
              empty_fs empty_fs
              {| nd_shape := [1; 1; 2]; nd_data := [0; 255] |}
              {| nd_shape := [1]; nd_data := [7] |}
              {| nd_shape := [1; 1; 2]; nd_data := [51; 128] |}
              {| nd_shape := [1]; nd_data := [3] |})
    as (images_train & images_test & Hload & Hshape & _ & _ & Hdata & _ & Hrange & _).
  - reflexivity.
  - repeat constructor; cbn; lia.
  - repeat constructor; cbn; lia.
  - exists images_train, images_test.
    split; [exact Hload|]. split; [exact Hshape|]. split; [|exact Hrange].
    rewrite Hdata. vm_compute. reflexivity.
Defined.

(** ** Rounded-up division and the shapes in closed form *)

Lemma ceil_div_nested x a b :
  0 < a → 0 < b → ceil_div (ceil_div x a) b = ceil_div x (a * b).
Proof.
  intros Ha Hb. unfold ceil_div.
  pose proof (Z.mul_div_le (x + a - 1) a Ha).
  pose proof (Z.mul_succ_div_gt (x + a - 1) a Ha).
  set (q := (x + a - 1) / a) in *.
  pose proof (Z.mul_div_le (q + b - 1) b Hb).
  pose proof (Z.mul_succ_div_gt (q + b - 1) b Hb).
  set (r := (q + b - 1) / b) in *.
  apply (Z.div_unique_pos _ _ _ (x + a * b - 1 - a * b * r)); nia.
Qed.

Lemma ceil_div_covers a b : 0 < b → a ≤ ceil_div a b * b.
Proof.
  intros Hb. unfold ceil_div.
  pose proof (Z.mul_succ_div_gt (a + b - 1) b Hb). nia.
Qed.

Lemma ceil_div_exact a b : 0 < b → ceil_div a b * b = a ↔ (b | a).
Proof.
  intros Hb. split.
  - intros H. exists (ceil_div a b). symmetry. exact H.
  - intros [k ->]. unfold ceil_div.
    replace (k * b + b - 1) with (b - 1 + k * b) by lia.
    rewrite Z.div_add, Z.div_small by lia. lia.
Qed.

Lemma ceil_div_bounds a b : 0 < a → 0 < b → 0 < ceil_div a b ≤ a.
Proof.
  intros Ha Hb. unfold ceil_div.
  pose proof (Z.mul_div_le (a + b - 1) b Hb).
  pose proof (Z.mul_succ_div_gt (a + b - 1) b Hb). nia.
Qed.

(** A stack of rounded-up divisions is one rounded-up division by the
    product. *)
Lemma downsampled_ceil_div strides : ∀ len,
  Forall (λ s, 0 < s) strides → downsampled strides len = ceil_div len (np_prod strides).
Proof.
  induction strides as [|s strides IH]; intros len Hpos.
  - unfold ceil_div. cbn. rewrite Z.div_1_r. lia.
  - apply Forall_cons in Hpos as [Hs Hpos].
    change (downsampled (s :: strides) len) with (downsampled strides (ceil_div len s)).
    rewrite IH by exact Hpos. apply ceil_div_nested; [exact Hs|].
    apply np_prod_positive, Hpos.
Qed.

(** The feature map after the first [n] convolution blocks. *)
Lemma conv_stack_closed self n : ∀ h w c,
  fold_left (conv_shape self) (seq 0 n) [h; w; c] =
  [downsampled (map (stride_at self) (seq 0 n)) h;
   downsampled (map (stride_at self) (seq 0 n)) w;
   match n with O => c | S k => nth k (conv_filters self) 0 end].
Proof.
  induction n as [|n IH]; intros h w c; [reflexivity|].
  rewrite seq_S, fold_left_app, IH, map_app. unfold downsampled.
  rewrite !fold_left_app. reflexivity.
Qed.

Lemma last_filter (conv_filters : list Z) c :
  match length conv_filters with
  | O => c
  | S k => nth k conv_filters 0
  end = default c (last conv_filters).
Proof.
  rewrite last_lookup. destruct conv_filters as [|f l]; [reflexivity|].
  cbn [length pred]. rewrite nth_lookup.
  destruct (lookup_lt_is_Some_2 (f :: l) (length l)) as [v ->]; [cbn; lia|].
  reflexivity.
Qed.

(** The shapes a constructed instance holds, in closed form: the cached
    feature map and the outputs of the encoder and of the decoder. *)
Lemma built_shapes rng h w c conv_filters conv_kernels conv_strides
    latent_space_dim self :
  __init__ rng [h; w; c] conv_filters conv_kernels conv_strides latent_space_dim
    = Ok self →
  let factor := np_prod (take (length conv_filters) conv_strides) in
  let first := nth 0 conv_strides 0 in
  0 < factor ∧ 0 < first ∧
  ∃ enc dec,
    encoder self = Some enc ∧ decoder self = Some dec ∧
    _shape_before_bottleneck self
      = Some [ceil_div h factor; ceil_div w factor; default c (last conv_filters)] ∧
    model_layers dec
      = decoder_layers
          (new_instance [h; w; c] conv_filters conv_kernels conv_strides latent_space_dim)
          [ceil_div h factor; ceil_div w factor; default c (last conv_filters)] ∧
    model_output_shape enc = [latent_space_dim] ∧
    model_output_shape dec
      = [ceil_div h factor * (factor * first); ceil_div w factor * (factor * first); 1].
Proof.
  intros H factor first. apply __init___built in H as (Hok & Hfrom & _).
  set (n := length conv_filters) in *.
  set (blank := new_instance [h; w; c] conv_filters conv_kernels conv_strides
                  latent_space_dim) in *.
  destruct Hok as (_ & Hblocks & _ & Hfirst & _).
  pose proof Hfrom as (_ & Hshape & _).
  apply built_layers in Hfrom as (enc & dec & Henc & Hdec & _ & _ & Hlayers & Hlatent & Hout).
  apply block_ok_in_range in Hblocks as (_ & _ & Hn & Hpos).
  change (ae.conv_strides blank) with conv_strides in Hn, Hpos.
  change (_num_conv_layers blank) with n in Hn, Hpos.
  assert (map (stride_at blank) (seq 0 n) = take n conv_strides) as Hused
    by (apply strides_of_range, Hn).
  assert (feature_shape blank
          = [ceil_div h factor; ceil_div w factor; default c (last conv_filters)])
    as Hfeature.
  { unfold feature_shape. change (_num_conv_layers blank) with n.
    change (ae.input_shape blank) with [h; w; c].
    rewrite conv_stack_closed, Hused, !downsampled_ceil_div by exact Hpos.
    change (ae.conv_filters blank) with conv_filters.
    unfold n. rewrite (last_filter conv_filters c). reflexivity. }
  split; [apply np_prod_positive, Hpos|]. split; [exact Hfirst|].
  exists enc, dec. split; [exact Henc|]. split; [exact Hdec|].
  split; [rewrite Hshape, Hfeature; reflexivity|].
  split; [rewrite Hlayers, Hfeature; reflexivity|].
  split; [exact Hlatent|].
  rewrite Hout, Hfeature. unfold decoder_output_shape.
  change (_num_conv_layers blank) with n.
  destruct (conv_transpose_stack_shape blank (reverse (seq 0 n))
              (ceil_div h factor) (ceil_div w factor) (default c (last conv_filters)))
    as [c2 ->].
  replace (map (stride_at blank) (reverse (seq 0 n))) with (reverse (take n conv_strides))
    by (rewrite <- Hused; symmetry; apply (fmap_reverse (stride_at blank))).
  rewrite np_prod_reverse. cbn. fold factor first. f_equal; [lia|]. f_equal. lia.
Qed.

(** ** The encoder *)

(** X1. The encoder of a constructed instance consists of: its input
    placeholder, of the shape [input_shape]; then for each layer index from
    0 up to the last, in this order, a convolution with that index's filter
    count, kernel size and stride and [same] padding, a ReLU and a batch
    normalization, all three numbered index + 1; then a flatten and a dense
    layer of [latent_space_dim] units.  The placeholder is also kept as the
    input of the whole model. *)
Theorem encoder_structure rng input_shape conv_filters conv_kernels conv_strides
    latent_space_dim self :
  __init__ rng input_shape conv_filters conv_kernels conv_strides latent_space_dim
    = Ok self →
  ∃ enc,
    encoder self = Some enc ∧
    model_name enc = Some "encoder"%string ∧
    model_input_shape enc = input_shape ∧
    model_output_shape enc = [latent_space_dim] ∧
    _model_input self = Some (Input input_shape "encoder_input") ∧
    model_layers enc =
      [InputLayer input_shape "encoder_input"]
      ++ flat_map
           (λ layer_index,
              let layer_number := (layer_index + 1)%nat in
              [Conv2DLayer (nth layer_index conv_filters 0)
                 (nth layer_index conv_kernels 0) (nth layer_index conv_strides 0)
                 same (numbered "encoder_conv_layer_" layer_number);
               ReLULayer (numbered "encoder_relu_" layer_number);
               BatchNormalizationLayer (numbered "encoder_bn_" layer_number)])
           (seq 0 (length conv_filters))
      ++ [FlattenLayer; DenseLayer latent_space_dim "encoder_output"].
Proof.
  intros H. apply __init___built in H as (_ & Hfrom & _).
  pose proof Hfrom as (_ & _ & Hinput & x_enc & _ & _ & _ & _ & _ & Henc' & _).
  apply built_layers in Hfrom as (enc & dec & Henc & _ & _ & Hlayers & _ & Hlatent & _).
  exists enc. split; [exact Henc|].
  rewrite Henc in Henc'. injection Henc' as Henc'.
  split; [rewrite Henc'; reflexivity|]. split; [rewrite Henc'; reflexivity|].
  split; [exact Hlatent|]. split; [exact Hinput|].
  rewrite Hlayers. reflexivity.
Qed.

Lemma encoder_structure_witness :
  ∃ enc, encoder script_instance = Some enc ∧
         model_input_shape enc = [28; 28; 1] ∧ model_output_shape enc = [2].
Proof.
  destruct (encoder_structure _ _ _ _ _ _ _ script_instance_built)
    as (enc & Henc & _ & Hin & Hout & _).
  exists enc. split; [exact Henc|]. split; [exact Hin | exact Hout].
Defined.

(** X2. The shape cached before the bottleneck, of an instance constructed
    for an input of height h, width w and c channels: height and width are
    h and w divided, rounding up, by the product of the strides of the n =
    len(conv_filters) layers, the channels are the last filter count (c
    when there is no layer); the decoder's dense layer has the product of
    the three as its width.  The encoder's convolutions thus never enlarge
    the image and never shrink it to nothing. *)
Theorem feature_map_size rng h w c conv_filters conv_kernels conv_strides
    latent_space_dim self :
  __init__ rng [h; w; c] conv_filters conv_kernels conv_strides latent_space_dim
    = Ok self →
  let factor := np_prod (take (length conv_filters) conv_strides) in
  let channels := default c (last conv_filters) in
  ∃ dec,
    decoder self = Some dec ∧
    _shape_before_bottleneck self
      = Some [ceil_div h factor; ceil_div w factor; channels] ∧
    model_layers dec !! 1%nat
      = Some (DenseLayer (ceil_div h factor * (ceil_div w factor * channels))
                "decoder_dense") ∧
    (0 < h → 0 < ceil_div h factor ≤ h) ∧ (0 < w → 0 < ceil_div w factor ≤ w).
Proof.
  intros H factor channels.
  destruct (built_shapes _ _ _ _ _ _ _ _ _ H)
    as (Hfactor & _ & enc & dec & _ & Hdec & Hshape & Hlayers & _).
  fold factor channels in Hfactor, Hshape, Hlayers.
  exists dec. split; [exact Hdec|]. split; [exact Hshape|].
  split.
  - rewrite Hlayers. cbn. rewrite Z.mul_1_r. reflexivity.
  - split; intros Hpos; apply ceil_div_bounds; assumption.
Qed.

Lemma feature_map_size_witness :
  _shape_before_bottleneck script_instance = Some [7; 7; 64].
Proof.
  destruct (feature_map_size _ _ _ _ _ _ _ _ _ script_instance_built)
    as (dec & _ & Hshape & _).
  exact Hshape.
Defined.

(** ** The shape of the reconstruction *)

(** X3. The decoder of an instance constructed for an input of height h,
    width w and c channels puts out one channel, of height and width h and w
    rounded up to a multiple of the product of the n layers' strides and
    then multiplied by conv_strides[0].  The reconstruction is therefore
    never smaller than the input, and it has the input's shape exactly when
    c = 1, conv_strides[0] = 1 and the product of the strides divides both h
    and w. *)
Theorem reconstruction_shape rng h w c conv_filters conv_kernels conv_strides
    latent_space_dim self :
  __init__ rng [h; w; c] conv_filters conv_kernels conv_strides latent_space_dim
    = Ok self →
  0 < h → 0 < w →
  let factor := np_prod (take (length conv_filters) conv_strides) in
  let first := nth 0 conv_strides 0 in
  ∃ dec out_h out_w,
    decoder self = Some dec ∧
    model_output_shape dec = [out_h; out_w; 1] ∧
    out_h = ceil_div h factor * factor * first ∧
    out_w = ceil_div w factor * factor * first ∧
    h ≤ out_h ∧ w ≤ out_w ∧
    (model_output_shape dec = [h; w; c] ↔
     c = 1 ∧ first = 1 ∧ (factor | h) ∧ (factor | w)).
Proof.
  intros H Hh Hw factor first.
  destruct (built_shapes _ _ _ _ _ _ _ _ _ H)
    as (Hfactor & Hfirst & enc & dec & _ & Hdec & _ & _ & _ & Hout).
  fold factor first in Hfactor, Hfirst, Hout.
  pose proof (ceil_div_covers h factor Hfactor) as Hch.
  pose proof (ceil_div_covers w factor Hfactor) as Hcw.
  exists dec, (ceil_div h factor * factor * first), (ceil_div w factor * factor * first).
  split; [exact Hdec|].
  split; [rewrite Hout; f_equal; [lia|]; f_equal; lia|].
  split; [reflexivity|]. split; [reflexivity|].
  split; [nia|]. split; [nia|].
  rewrite Hout. split.
  - intros [= Hh' Hw' Hc].
    assert (first = 1) as H1 by nia.
    split; [symmetry; exact Hc|]. split; [exact H1|].
    rewrite H1 in Hh', Hw'.
    split; apply ceil_div_exact; (assumption || lia).
  - intros (-> & -> & Hdh & Hdw).
    apply ceil_div_exact in Hdh, Hdw; try exact Hfactor.
    f_equal; [lia|]. f_equal. lia.
Qed.

Lemma reconstruction_shape_witness :
  ∃ dec, decoder script_instance = Some dec ∧ model_output_shape dec = [28; 28; 1].
Proof.
  destruct (reconstruction_shape _ 28 28 1 _ _ _ _ _ script_instance_built)
    as (dec & out_h & out_w & Hdec & _ & _ & _ & _ & _ & Hiff); [lia | lia |].
  exists dec. split; [exact Hdec|]. apply Hiff.
  split; [reflexivity|]. split; [reflexivity|]. split; exists 7; reflexivity.
Defined.

(** X4. The kernel sizes have no part in any of the shapes: two instances
    constructed from hyperparameters that differ in conv_kernels only cache
    the same shape before the bottleneck, and their encoders and decoders
    have the same input and output shapes (every convolution is padded
    [same]). *)
Theorem kernel_sizes_keep_shapes rng rng' h w c conv_filters conv_kernels conv_kernels'
    conv_strides latent_space_dim a b :
  __init__ rng [h; w; c] conv_filters conv_kernels conv_strides latent_space_dim
    = Ok a →
  __init__ rng' [h; w; c] conv_filters conv_kernels' conv_strides latent_space_dim
    = Ok b →
  _shape_before_bottleneck a = _shape_before_bottleneck b ∧
  ∃ enc_a dec_a enc_b dec_b,
    encoder a = Some enc_a ∧ decoder a = Some dec_a ∧
    encoder b = Some enc_b ∧ decoder b = Some dec_b ∧
    model_input_shape enc_a = model_input_shape enc_b ∧
    model_output_shape enc_a = model_output_shape enc_b ∧
    model_input_shape dec_a = model_input_shape dec_b ∧
    model_output_shape dec_a = model_output_shape dec_b.
Proof.
  intros Ha Hb.
  destruct (built_shapes _ _ _ _ _ _ _ _ _ Ha)
    as (_ & _ & enc_a & dec_a & Henc_a & Hdec_a & Hshape_a & _ & Hlat_a & Hout_a).
  destruct (built_shapes _ _ _ _ _ _ _ _ _ Hb)
    as (_ & _ & enc_b & dec_b & Henc_b & Hdec_b & Hshape_b & _ & Hlat_b & Hout_b).
  split; [rewrite Hshape_a, Hshape_b; reflexivity|].
  exists enc_a, dec_a, enc_b, dec_b. split_and!; try assumption.
  - apply __init___built in Ha as (_ & (_ & _ & _ & xe & _ & _ & _ & _ & _ & He & _) & _).
    apply __init___built in Hb as (_ & (_ & _ & _ & xe' & _ & _ & _ & _ & _ & He' & _) & _).
    rewrite Henc_a in He. rewrite Henc_b in He'.
    injection He as ->. injection He' as ->. reflexivity.
  - rewrite Hlat_a, Hlat_b. reflexivity.
  - apply __init___built in Ha as (_ & (_ & _ & _ & _ & xd & _ & _ & _ & _ & _ & Hd & _) & _).
    apply __init___built in Hb as (_ & (_ & _ & _ & _ & xd' & _ & _ & _ & _ & _ & Hd' & _) & _).
    rewrite Hdec_a in Hd. rewrite Hdec_b in Hd'.
    injection Hd as ->. injection Hd' as ->. reflexivity.
  - rewrite Hout_a, Hout_b. reflexivity.
Qed.

Lemma kernel_sizes_keep_shapes_witness :
  match __init__ (λ _ _, []) [28; 28; 1] [32; 64; 64; 64] [5; 7; 1; 9] [1; 2; 2; 1] 2 with
  | Ok wide => _shape_before_bottleneck script_instance = _shape_before_bottleneck wide
  | Raise _ => False
  end.
Proof.
  destruct (__init__ (λ _ _, []) [28; 28; 1] [32; 64; 64; 64] [5; 7; 1; 9] [1; 2; 2; 1] 2)
    as [wide|e] eqn:Hwide.
  - apply (kernel_sizes_keep_shapes _ _ _ _ _ _ _ _ _ _ _ _ script_instance_built Hwide).
  - vm_compute in Hwide. discriminate.
Defined.

(** ** What the constructor accepts *)

Lemma positive_entries (l : list Z) m :
  (m ≤ length l)%nat ∧ Forall (λ d, 0 < d) (take m l) ↔
  ∀ i, (i < m)%nat → 0 < nth i l 0.
Proof.
  split.
  - intros [Hm Hpos] i Hi. rewrite <- (nth_take l m i Hi).
    apply Forall_positive_nth; [exact Hpos|]. rewrite length_take. lia.
  - intros H.
    assert (m ≤ length l)%nat as Hm.
    { destruct m as [|m]; [lia|].
      pose proof (nth_positive_in_range l m (H m ltac:(lia))). lia. }
    split; [exact Hm|]. apply (Forall_nth _ 0). intros i Hi.
    rewrite length_take in Hi. rewrite nth_take by lia. apply H. lia.
Qed.

(** X5. The constructor returns only when every size it reads is there and
    is one the layer constructors take: the input shape has three entries;
    no filter count is negative; of conv_kernels and of conv_strides the
    first max(n, 1) entries, n = len(conv_filters), are there and positive
    (index 0 is read even when there is no layer); and the bottleneck
    dimensionality is not negative.  Entries beyond those do not matter. *)
Theorem constructor_requires rng input_shape conv_filters conv_kernels conv_strides
    latent_space_dim self :
  __init__ rng input_shape conv_filters conv_kernels conv_strides latent_space_dim
    = Ok self →
  let n := length conv_filters in
  length input_shape = 3%nat ∧
  Forall (λ d, 0 ≤ d) conv_filters ∧
  (n `max` 1 ≤ length conv_kernels)%nat ∧ (n `max` 1 ≤ length conv_strides)%nat ∧
  Forall (λ d, 0 < d) (entries_read conv_filters conv_kernels) ∧
  Forall (λ d, 0 < d) (entries_read conv_filters conv_strides) ∧
  0 ≤ latent_space_dim.
Proof.
  intros Hself n. apply __init___built in Hself as (Hok & _).
  set (blank := new_instance input_shape conv_filters conv_kernels conv_strides
                  latent_space_dim) in *.
  destruct Hok as (Hrank & Hblocks & Hk0 & Hs0 & Hl & _).
  rewrite Forall_forall in Hblocks.
  assert (∀ i, (i < n)%nat → block_ok blank i) as Hblock
    by (intros i Hi; apply Hblocks, elem_of_seq; cbn; fold n; lia).
  assert (∀ i, (i < n `max` 1)%nat → 0 < nth i conv_kernels 0) as Hk.
  { intros i Hi. destruct (decide (i < n)%nat) as [Hlt|Hge]; [apply (Hblock i Hlt)|].
    replace i with 0%nat by lia. exact Hk0. }
  assert (∀ i, (i < n `max` 1)%nat → 0 < nth i conv_strides 0) as Hs.
  { intros i Hi. destruct (decide (i < n)%nat) as [Hlt|Hge]; [apply (Hblock i Hlt)|].
    replace i with 0%nat by lia. exact Hs0. }
  apply positive_entries in Hk as [Hlk Hk]. apply positive_entries in Hs as [Hls Hs].
  unfold entries_read. fold n. split_and!; try assumption.
  apply (Forall_nth _ 0). intros i Hi.
  destruct (Hblock i Hi) as (Hf & _). cbn in Hf. lia.
Qed.

Lemma constructor_requires_witness :
  Forall (λ d, 0 < d) (entries_read [32; 64; 64; 64] [3; 3; 3; 3]) ∧
  Forall (λ d, 0 < d) (entries_read [32; 64; 64; 64] [1; 2; 2; 1]).
Proof.
  destruct (constructor_requires _ _ _ _ _ _ _ script_instance_built)
    as (_ & _ & _ & _ & Hk & Hs & _).
  split; assumption.
Defined.

(** X6. The constructor returns only for an input shape of three entries,
    height, width and channels: for any other it raises, whatever the other
    hyperparameters are. *)
Theorem input_shape_rank rng input_shape conv_filters conv_kernels conv_strides
    latent_space_dim :
  length input_shape ≠ 3%nat →
  ∃ e, __init__ rng input_shape conv_filters conv_kernels conv_strides
         latent_space_dim = Raise e.
Proof.
  intros Hrank.
  destruct (__init__ rng input_shape conv_filters conv_kernels conv_strides
              latent_space_dim) as [self|e] eqn:Hself; [|exists e; reflexivity].
  apply __init___built in Hself as ((Hthree & _) & _). contradiction.
Qed.

Lemma input_shape_rank_witness :
  ∃ e, __init__ (λ _ _, []) [28; 28] [32; 64; 64; 64] [3; 3; 3; 3] [1; 2; 2; 1] 2
       = Raise e.
Proof. apply input_shape_rank. cbn. lia. Defined.




(** ** Layer names *)

Lemma elem_of_flat_map {A B} (f : A → list B) (l : list A) x :
  x ∈ flat_map f l ↔ ∃ a, a ∈ l ∧ x ∈ f a.
Proof.
  induction l as [|a l IH]; cbn.
  - split; [intros H; inversion H | intros (a & Ha & _); inversion Ha].
  - rewrite elem_of_app, IH. split.
    + intros [Hx|(b & Hb & Hx)]; [exists a; split; [left | exact Hx]|].
      exists b. split; [right; exact Hb | exact Hx].
    + intros (b & [->|Hb]%elem_of_cons & Hx); [left; exact Hx|].
      right. exists b. auto.
Qed.

Lemma NoDup_flat_map {A B} (f : A → list B) (l : list A) :
  NoDup l → (∀ a, a ∈ l → NoDup (f a)) →
  (∀ a b x, a ∈ l → b ∈ l → x ∈ f a → x ∈ f b → a = b) →
  NoDup (flat_map f l).
Proof.
  induction 1 as [|a l Ha Hl IH]; intros Heach Hapart; cbn; [constructor|].
  apply NoDup_app. split; [apply Heach; left|]. split.
  - intros x Hx (b & Hb & Hx')%elem_of_flat_map.
    apply Ha. rewrite (Hapart a b x); [exact Hb | left | right; exact Hb | exact Hx | exact Hx'].
  - apply IH.
    + intros b Hb. apply Heach. right. exact Hb.
    + intros b b' x Hb Hb'. apply Hapart; right; assumption.
Qed.

Lemma map_flat_map {A B C} (g : B → C) (f : A → list B) (l : list A) :
  map g (flat_map f l) = flat_map (λ a, map g (f a)) l.
Proof.
  induction l as [|a l IH]; [reflexivity|]. cbn. rewrite map_app, IH. reflexivity.
Qed.

(** Numbers counted down over the layer indices in reverse are the numbers
    counted up. *)
Lemma layer_numbers n :
  map (λ layer_index, (n - layer_index)%nat) (reverse (seq 0 n)) = seq 1 n.
Proof.
  apply list_eq. intros k. change (map ?f ?l) with (f <$> l).
  rewrite list_lookup_fmap. destruct (decide (k < n)%nat) as [Hk|Hk].
  - rewrite reverse_lookup by (rewrite length_seq; exact Hk).
    rewrite length_seq, !lookup_seq_lt by lia. cbn. f_equal. lia.
  - rewrite (lookup_ge_None_2 (reverse _)) by (rewrite length_reverse, length_seq; lia).
    rewrite lookup_seq_ge by lia. reflexivity.
Qed.

(** Two names are told apart by their stems, or by their numbers. *)
Ltac spell H :=
  unfold numbered in H; cbv [String.append] in H; simplify_eq.

Ltac same_number H :=
  unfold numbered in H; cbv [String.append] in H;
  repeat (injection H as H); apply (inj pretty) in H.

Ltac among H :=
  repeat (apply elem_of_cons in H as [H|H]); [..| apply elem_of_nil in H; contradiction].

Lemma encoder_names_distinct self :
  NoDup (map layer_name (encoder_layers self)).
Proof.
  unfold encoder_layers, encoder_body. cbn [map layer_name].
  rewrite map_app, map_flat_map. cbn [map layer_name encoder_block].
  apply NoDup_cons. split.
  { intros [Hin|Hin]%elem_of_app.
    - apply elem_of_flat_map in Hin as (i & _ & Hin). among Hin; spell Hin.
    - among Hin; discriminate. }
  apply NoDup_app. split; [|split].
  - apply NoDup_flat_map; [apply NoDup_seq| |].
    + intros i _. repeat (apply NoDup_cons; split); try apply NoDup_nil_2;
        intros Hin; among Hin; spell Hin.
    + intros i j x _ _ Hi Hj. among Hi; among Hj; subst x;
        try (spell Hj; fail); same_number Hj; lia.
  - intros x (i & _ & Hi)%elem_of_flat_map Hx. among Hi; among Hx; subst x; spell Hx.
  - apply NoDup_cons. split; [|apply NoDup_singleton].
    intros Hin. among Hin. discriminate.
Qed.

Lemma decoder_names self shape :
  map layer_name (decoder_layers self shape) =
  ["decoder_input"; "decoder_dense"; "reshape"]%string
  ++ flat_map
       (λ layer_num,
          [numbered "dcoder_conv_transpose_layer_" layer_num;
           numbered "decoder_relu_" layer_num;
           numbered "decoder_bn_" layer_num])
       (seq 1 (_num_conv_layers self))
  ++ [numbered "decoder_conv_transpose_layer_" (_num_conv_layers self);
      "sigmoid_layer"%string].
Proof.
  unfold decoder_layers, decoder_body, decoder_output_layers.
  cbn [map layer_name app]. rewrite map_app, map_flat_map. cbn [map layer_name decoder_block].
  do 4 f_equal. rewrite <- (layer_numbers (_num_conv_layers self)).
  generalize (reverse (seq 0 (_num_conv_layers self))). intros l.
  induction l as [|i l IH]; [reflexivity|]. cbn. rewrite IH. reflexivity.
Qed.

Lemma decoder_names_distinct self shape :
  NoDup (map layer_name (decoder_layers self shape)).
Proof.
  rewrite decoder_names. cbn [app].
  repeat (apply NoDup_cons; split).
  1-3: intros Hin; repeat (apply elem_of_cons in Hin as [Hin|Hin]); try discriminate;
       apply elem_of_app in Hin as [(k & _ & Hin)%elem_of_flat_map|Hin];
       among Hin; try discriminate; spell Hin.
  apply NoDup_app. split; [|split].
  - apply NoDup_flat_map; [apply NoDup_seq| |].
    + intros i _. repeat (apply NoDup_cons; split); try apply NoDup_nil_2;
        intros Hin; among Hin; spell Hin.
    + intros i j x _ _ Hi Hj. among Hi; among Hj; subst x;
        try (spell Hj; fail); same_number Hj; lia.
  - intros x (i & _ & Hi)%elem_of_flat_map Hx. among Hi; among Hx; subst x; spell Hx.
  - apply NoDup_cons. split; [|apply NoDup_singleton].
    intros Hin. among Hin. spell Hin.
Qed.

(** X8. In each of the three models of a constructed instance the layers
    have pairwise distinct names, as the framework demands of a model.  The
    decoder's blocks carry the numbers 1 to n in the order in which they are
    applied, although the layer indices run from n - 1 down to 0; the
    output layer's transposed convolution carries the number n once more,
    and differs from the last block's only in the stem of the name
    ("decoder_conv_transpose_layer_" against "dcoder_conv_transpose_layer_"). *)
Theorem layer_names_distinct rng input_shape conv_filters conv_kernels conv_strides
    latent_space_dim self :
  __init__ rng input_shape conv_filters conv_kernels conv_strides latent_space_dim
    = Ok self →
  let n := length conv_filters in
  ∃ enc dec mdl,
    encoder self = Some enc ∧ decoder self = Some dec ∧ model self = Some mdl ∧
    NoDup (Keras.summary enc) ∧ NoDup (Keras.summary dec) ∧ NoDup (Keras.summary mdl) ∧
    Keras.summary mdl = ["encoder_input"; "encoder"; "decoder"]%string ∧
    drop 3 (Keras.summary dec) =
      flat_map
        (λ layer_num,
           [numbered "dcoder_conv_transpose_layer_" layer_num;
            numbered "decoder_relu_" layer_num;
            numbered "decoder_bn_" layer_num])
        (seq 1 n)
      ++ [numbered "decoder_conv_transpose_layer_" n; "sigmoid_layer"%string].
Proof.
  intros H n. apply __init___built in H as (_ & Hfrom & _).
  pose proof Hfrom as (_ & _ & _ & x_enc & x_dec & _ & _ & _ & _ & Henc' & Hdec' & _).
  apply built_layers in Hfrom
    as (enc & dec & Henc & Hdec & Hmdl & Hl_enc & Hl_dec & _).
  rewrite Henc in Henc'. injection Henc' as Henc'.
  rewrite Hdec in Hdec'. injection Hdec' as Hdec'.
  eexists enc, dec, _. split; [exact Henc|]. split; [exact Hdec|]. split; [exact Hmdl|].
  unfold Keras.summary. rewrite Hl_enc, Hl_dec.
  split; [apply encoder_names_distinct|]. split; [apply decoder_names_distinct|].
  change (ae.input_shape (new_instance input_shape conv_filters conv_kernels
                            conv_strides latent_space_dim)) with input_shape.
  assert (map layer_name (model_layers (chained input_shape enc dec))
          = ["encoder_input"; "encoder"; "decoder"]%string) as ->
    by (cbn; rewrite Henc', Hdec'; reflexivity).
  split; [repeat (apply NoDup_cons; split); try apply NoDup_nil_2;
          intros Hin; among Hin; discriminate|].
  split; [reflexivity|].
  rewrite decoder_names. reflexivity.
Qed.

Lemma layer_names_distinct_witness :
  ∃ dec, decoder script_instance = Some dec ∧ NoDup (Keras.summary dec) ∧
         drop 3 (Keras.summary dec) !! 0%nat
           = Some "dcoder_conv_transpose_layer_1"%string ∧
         drop 3 (Keras.summary dec) !! 12%nat
           = Some "decoder_conv_transpose_layer_4"%string.
Proof.
  destruct (layer_names_distinct _ _ _ _ _ _ _ script_instance_built)
    as (enc & dec & mdl & _ & Hdec & _ & _ & Hdistinct & _ & _ & Hnames).
  exists dec. split; [exact Hdec|]. split; [exact Hdistinct|].
  rewrite Hnames. split; vm_compute; reflexivity.
Defined.

(** ** The three models of an instance *)

(** The models of an instance, through [compile], [train] and
    [load_weights]: the encoder and the decoder built from its
    hyperparameters, and the model that calls one after the other. *)
Lemma instance_models self :
  instance self →
  let blank := new_instance (input_shape self) (conv_filters self) (conv_kernels self)
                 (conv_strides self) (latent_space_dim self) in
  ∃ enc dec mdl,
    encoder self = Some enc ∧ decoder self = Some dec ∧ model self = Some mdl ∧
    same_graph mdl (chained (input_shape self) enc dec) ∧
    model_input_shape enc = input_shape self ∧
    model_input_shape dec = [latent_space_dim self] ∧
    model_layers enc = encoder_layers blank ∧
    model_layers dec = decoder_layers blank (feature_shape blank) ∧
    model_output_shape enc = [latent_space_dim self] ∧
    model_output_shape dec = decoder_output_shape blank (feature_shape blank) ∧
    map nd_shape (weights self)
      = concat (model_variables (chained (input_shape self) enc dec)).
Proof.
  intros (built & mdl0 & mdl & Hbuilt & Hmdl0 & Hmdl & Hsame & He & Hd & Hw
         )%instance_well_formed blank.
  fold blank in Hbuilt. apply _build_inv in Hbuilt as [_ Hfrom].
  pose proof Hfrom as (_ & _ & _ & x_enc & x_dec & _ & _ & _ & _ & Henc' & Hdec' & _).
  apply built_layers in Hfrom
    as (enc & dec & Henc & Hdec & Hchained & Hl_enc & Hl_dec & Hlatent & Hout).
  rewrite Henc in Henc'. injection Henc' as Henc'.
  rewrite Hdec in Hdec'. injection Hdec' as Hdec'.
  rewrite Hmdl0 in Hchained. injection Hchained as ->.
  exists enc, dec, mdl. rewrite He, Hd.
  split_and!; try assumption; try (subst; reflexivity).
Qed.

(** X9. The model of an instance is its decoder after its encoder, on the
    shared variables: it takes what the encoder takes, hands the encoder's
    output, a vector of [latent_space_dim] elements, to the decoder, and
    returns what the decoder returns.  Whatever the layers compute, its
    prediction is the decoder's prediction on the encoder's prediction, and
    every element of it lies in [0, 1].  This holds after [compile],
    [train] and [load_weights] as well. *)
Theorem autoencoder_composes self :
  instance self →
  ∃ enc dec mdl,
    encoder self = Some enc ∧ decoder self = Some dec ∧ model self = Some mdl ∧
    model_input_shape mdl = model_input_shape enc ∧
    model_output_shape enc = model_input_shape dec ∧
    model_output_shape mdl = model_output_shape dec ∧
    model_layers mdl
      = [InputLayer (input_shape self) "encoder_input"; as_layer enc; as_layer dec] ∧
    ∀ kernels values x,
      predict kernels mdl values x
        = predict kernels dec values (predict kernels enc values x) ∧
      Forall (λ v, (0 <= v <= 1)%R) (predict kernels mdl values x).
Proof.
  intros Hinstance.
  destruct (instance_models self Hinstance)
    as (enc & dec & mdl & Henc & Hdec & Hmdl & (_ & Hin & Hout & Hlayers & _)
        & Hin_enc & Hin_dec & _ & Hl_dec & Hout_enc & _).
  exists enc, dec, mdl. split_and!; try assumption.
  - rewrite Hin, Hin_enc. reflexivity.
  - rewrite Hout_enc, Hin_dec. reflexivity.
  - intros kernels values x.
    assert (predict kernels mdl values x
            = predict kernels dec values (predict kernels enc values x)) as Hcompose
      by (unfold predict; rewrite Hlayers; reflexivity).
    split; [exact Hcompose|]. rewrite Hcompose.
    eapply (predict_sigmoid kernels dec values (_ :: _ :: _ :: _ ++ [_]) "sigmoid_layer").
    rewrite Hl_dec. unfold decoder_layers, decoder_body, decoder_output_layers.
    cbn [app]. rewrite <- app_assoc. reflexivity.
Qed.

Lemma autoencoder_composes_witness :
  ∃ mdl, model trained_instance = Some mdl ∧
         Forall (λ v, (0 <= v <= 1)%R) (predict (λ _ _ x, x) mdl [] [2%R; 5%R]).
Proof.
  destruct (autoencoder_composes trained_instance trained_instance_is_instance)
    as (enc & dec & mdl & _ & _ & Hmdl & _ & _ & _ & _ & Hpredict).
  exists mdl. split; [exact Hmdl | apply Hpredict].
Defined.

(** ** Loading *)

Lemma load_weights_set_weights values self weights_path fs :
  load_weights (set_weights values self) weights_path fs
  = load_weights self weights_path fs.
Proof.
  unfold load_weights. cbn [model set_weights].
  destruct (attribute "model" (model self)) as [mdl|e]; [|reflexivity]. returns.
  destruct (os.h5_load weights_path fs) as [groups|e]; [|reflexivity]. returns.
  destruct (Keras.load_weights mdl groups) as [loaded|e]; reflexivity.
Qed.

(** Constructing and then loading weights: the initial values are gone. *)
Lemma init_then_load_weights rng input_shape conv_filters conv_kernels conv_strides
    latent_space_dim weights_path fs :
  (autoencoder ← __init__ rng input_shape conv_filters conv_kernels conv_strides
                    latent_space_dim;
   load_weights autoencoder weights_path fs)
  = (built ← _build (new_instance input_shape conv_filters conv_kernels conv_strides
                       latent_space_dim);
     load_weights built weights_path fs).
Proof.
  unfold __init__.
  fold (new_instance input_shape conv_filters conv_kernels conv_strides latent_space_dim).
  destruct (_build _) as [built|e]; [|reflexivity]. returns.
  destruct (model built) as [mdl|] eqn:Hmdl.
  - cbn [attribute]. returns. apply load_weights_set_weights.
  - unfold load_weights. rewrite Hmdl. reflexivity.
Qed.

(** X10. What [load] returns does not depend on the initial values the
    rebuilt layers draw: the values read from the weights file replace every
    one of them, and when [load] raises it raises the same exception. *)
Theorem load_ignores_initial_values rng rng' save_folder fs :
  load rng save_folder fs = load rng' save_folder fs.
Proof.
  unfold load. destruct (os.pickle_load _ fs) as [parameters|e]; [|reflexivity].
  returns. unfold Autoencoder_star.
  destruct parameters as [n|items]; [reflexivity|].
  destruct items as [|arg1 [|arg2 [|arg3 [|arg4 [|arg5 [|arg6 items]]]]]];
    try reflexivity.
  destruct (as_shape arg1) as [input_shape|e]; [|reflexivity]. returns.
  destruct (as_ints arg2) as [conv_filters|e]; [|reflexivity]. returns.
  destruct (as_ints arg3) as [conv_kernels|e]; [|reflexivity]. returns.
  destruct (as_ints arg4) as [conv_strides|e]; [|reflexivity]. returns.
  destruct (as_int arg5) as [latent_space_dim|e]; [|reflexivity]. returns.
  rewrite !init_then_load_weights. reflexivity.
Qed.

(** What [load] has done when it returns: read five hyperparameters,
    constructed an instance from them, and replaced its values. *)
Lemma load_Ok rng save_folder fs self :
  load rng save_folder fs = Ok self →
  ∃ arg1 input_shape conv_filters conv_kernels conv_strides latent_space_dim fresh
    groups loaded mdl,
    os.files fs !! os.path_join save_folder "parameters.pkl"
      = Some (os.PickleFile
                (os.PySeq [arg1; py_ints conv_filters;
                           py_ints conv_kernels; py_ints conv_strides;
                           os.PyInt latent_space_dim])) ∧
    as_shape arg1 = Ok input_shape ∧
    __init__ rng input_shape conv_filters conv_kernels conv_strides latent_space_dim
      = Ok fresh ∧
    os.files fs !! os.path_join save_folder "weights.h5" = Some (os.HDF5File groups) ∧
    model fresh = Some mdl ∧ Keras.load_weights mdl groups = Ok loaded ∧
    self = set_weights loaded fresh.
Proof.
  assert (∀ obj l, as_ints obj = Ok l → obj = py_ints l) as Hints.
  { intros [n|items] l; [discriminate|]. unfold as_ints, py_ints.
    revert l. induction items as [|obj items IH]; intros l.
    - intros [= <-]. reflexivity.
    - cbn [as_ints_items]. destruct obj as [n|inner]; [|discriminate].
      cbn [as_int]. returns. intros (l' & Hl' & [= <-])%bind_Ok.
      specialize (IH l' Hl'). injection IH as ->. reflexivity. }
  unfold load, os.pickle_load.
  destruct (os.files fs !! os.path_join save_folder "parameters.pkl")
    as [[parameters|groups]|] eqn:Hparameters; try discriminate.
  returns. intros (fresh & Hstar & Hload)%bind_Ok.
  unfold Autoencoder_star in Hstar.
  destruct parameters as [n|items]; [discriminate|].
  destruct items as [|arg1 [|arg2 [|arg3 [|arg4 [|arg5 [|arg6 items]]]]]];
    try discriminate.
  apply bind_Ok in Hstar as (input_shape & Hshape & Hstar).
  apply bind_Ok in Hstar as (conv_filters & ->%Hints & Hstar).
  apply bind_Ok in Hstar as (conv_kernels & ->%Hints & Hstar).
  apply bind_Ok in Hstar as (conv_strides & ->%Hints & Hstar).
  apply bind_Ok in Hstar as (latent_space_dim & Hint & Hstar).
  destruct arg5 as [n|inner]; [|discriminate]. injection Hint as ->.
  unfold load_weights, os.h5_load in Hload.
  apply bind_Ok in Hload as (mdl & Hmdl & Hload).
  destruct (model fresh) as [mdl'|] eqn:Hmodel; [|discriminate]. injection Hmdl as ->.
  destruct (os.files fs !! os.path_join save_folder "weights.h5")
    as [[obj|groups]|] eqn:Hweights; try discriminate.
  apply bind_Ok in Hload as (groups' & [= <-] & Hload).
  apply bind_Ok in Hload as (loaded & Hloaded & [= <-]).
  exists arg1, input_shape, conv_filters, conv_kernels, conv_strides, latent_space_dim,
    fresh, groups, loaded, mdl.
  split_and!; (assumption || reflexivity).
Qed.



(** X12. [load] unpacks the pickled object into the positional arguments
    of the constructor: when the parameters file holds an integer, or a
    list or tuple of other than five items, [load] raises a TypeError,
    before anything is built and whatever the weights file holds. *)
Theorem load_rejects_wrong_arity rng save_folder fs obj :
  os.files fs !! os.path_join save_folder "parameters.pkl" = Some (os.PickleFile obj) →
  (∀ items, obj = os.PySeq items → length items ≠ 5%nat) →
  ∃ message, load rng save_folder fs = Raise (TypeError message).
Proof.
  intros Hfile Harity. unfold load, os.pickle_load. rewrite Hfile. returns.
  unfold Autoencoder_star. destruct obj as [n|items]; [eexists; reflexivity|].
  specialize (Harity items eq_refl).
  destruct items as [|arg1 [|arg2 [|arg3 [|arg4 [|arg5 [|arg6 items]]]]]];
    try (eexists; reflexivity).
  exfalso. apply Harity. reflexivity.
Qed.

Lemma load_rejects_wrong_arity_witness :
  ∃ message,
    load (λ _ _, []) "model"
      {| os.directories := {["model"%string]};
         os.files :=
           {["model/parameters.pkl"%string :=
               os.PickleFile
                 (os.PySeq [py_ints [28; 28; 1]; py_ints [32; 64]; py_ints [3; 3];
                            py_ints [1; 2]])]} |}
    = Raise (TypeError message).
Proof.
  eapply load_rejects_wrong_arity.
  - apply lookup_singleton_eq.
  - intros items [= <-]. cbn. lia.
Defined.

(** ** Compiling and training *)

Lemma train_uncompiled trainer self mdl x_train batch_size num_epochs :
  model self = Some mdl → model_optimizer mdl = None →
  ∃ message,
    train trainer self x_train batch_size num_epochs = Raise (RuntimeError message).
Proof.
  intros Hmdl Hoptimizer. unfold train, fit. rewrite Hmdl. cbn [attribute]. returns.
  rewrite Hoptimizer. eexists. reflexivity.
Qed.

Lemma constructed_uncompiled rng input_shape conv_filters conv_kernels conv_strides
    latent_space_dim self :
  __init__ rng input_shape conv_filters conv_kernels conv_strides latent_space_dim
    = Ok self →
  ∃ mdl, model self = Some mdl ∧ model_optimizer mdl = None.
Proof.
  intros H. apply __init___built in H as (_ & Hfrom & _).
  apply built_layers in Hfrom as (enc & dec & _ & _ & Hmdl & _).
  eexists. split; [exact Hmdl | reflexivity].
Qed.

(** X13. Neither the constructor nor [load] compiles the model: [train] on
    an instance fresh from the constructor, or on one that [load] returned,
    raises a RuntimeError until [compile] has been called on it.  In
    particular the optimizer does not survive [save] and [load]. *)
Theorem training_needs_compile trainer x_train batch_size num_epochs :
  (∀ rng input_shape conv_filters conv_kernels conv_strides latent_space_dim self,
     __init__ rng input_shape conv_filters conv_kernels conv_strides latent_space_dim
       = Ok self →
     ∃ message,
       train trainer self x_train batch_size num_epochs = Raise (RuntimeError message)) ∧
  (∀ rng save_folder fs self,
     load rng save_folder fs = Ok self →
     ∃ message,
       train trainer self x_train batch_size num_epochs = Raise (RuntimeError message)).
Proof.
  split.
  - intros rng input_shape conv_filters conv_kernels conv_strides latent_space_dim self
      Hself.
    destruct (constructed_uncompiled _ _ _ _ _ _ _ Hself) as (mdl & Hmdl & Hoptimizer).
    apply (train_uncompiled _ _ mdl); assumption.
  - intros rng save_folder fs self
      (arg1 & i & f & k & s & l & fresh & groups & loaded & mdl & _ & _ & Hfresh & _
       & Hmdl & _ & ->)%load_Ok.
    destruct (constructed_uncompiled _ _ _ _ _ _ _ Hfresh) as (mdl' & Hmdl' & Hoptimizer).
    apply (train_uncompiled _ _ mdl'); assumption.
Qed.

Lemma training_needs_compile_witness :
  ∃ message,
    train (λ _ _ _ _ _ _ _, Ok (λ _, [])) script_instance
      {| nd_shape := [1; 28; 28; 1]; nd_data := [] |} 32 20
    = Raise (RuntimeError message).
Proof.
  apply (proj1 (training_needs_compile _ _ _ _) _ _ _ _ _ _ _ script_instance_built).
Defined.

(** X14. What [save] writes does not depend on whether, or with which
    learning rate, the instance has been compiled: the optimizer is in
    neither file. *)
Theorem save_ignores_compile self learning_rate compiled save_folder fs :
  compile self learning_rate = Ok compiled →
  save compiled save_folder fs = save self save_folder fs.
Proof.
  unfold compile. destruct (model self) as [mdl|] eqn:Hmdl; [|discriminate].
  cbn [attribute]. returns. intros [= <-].
  unfold save, _save_weights. cbn [model set_model weights]. rewrite Hmdl.
  reflexivity.
Qed.

Lemma save_ignores_compile_witness :
  ∃ compiled,
    compile script_instance (1 # 100) = Ok compiled ∧
    save compiled "model" empty_fs = save script_instance "model" empty_fs.
Proof.
  destruct (constructed_uncompiled _ _ _ _ _ _ _ script_instance_built)
    as (mdl & Hmdl & _).
  assert (∃ compiled, compile script_instance (1 # 100) = Ok compiled) as [compiled H]
    by (unfold compile; rewrite Hmdl; eexists; reflexivity).
  exists compiled. split; [exact H|].
  apply (save_ignores_compile _ _ _ _ _ H).
Defined.

(** ** Weights files *)

Lemma set_weights_same self : set_weights (weights self) self = self.
Proof. destruct self. reflexivity. Qed.

(** What the instance's own model makes of the weights file it saves. *)
Lemma instance_reloads self mdl :
  instance self → model self = Some mdl →
  Keras.load_weights mdl (save_weights mdl (weights self)) = Ok (weights self).
Proof.
  intros (built & mdl0 & mdl' & _ & _ & Hmdl' & (_ & _ & _ & Hlayers & Hvariables)
          & _ & _ & Hw & Howns)%instance_model Hmdl.
  rewrite Hmdl in Hmdl'. injection Hmdl' as <-.
  apply load_saved_weights; [rewrite Hlayers, Hvariables | rewrite Hvariables];
    assumption.
Qed.

(** X15. When [save] has returned, [load_weights] on the weights file that
    the instance itself has just saved returns the instance as it is: every
    variable gets its own value back, and the optimizer, if there is one,
    stays. *)
Theorem load_weights_after_save self save_folder fs after :
  instance self →
  save self save_folder fs = (Ok (), after) →
  load_weights self (os.path_join save_folder "weights.h5") after = Ok self.
Proof.
  intros Hinstance Hsave.
  destruct (saved_files _ _ _ _ Hsave) as (mdl & Hmdl & Hfiles).
  unfold load_weights, os.h5_load.
  rewrite Hmdl, Hfiles, lookup_insert_eq. cbn [attribute]. returns.
  rewrite (instance_reloads self mdl Hinstance Hmdl). returns.
  rewrite set_weights_same. reflexivity.
Qed.

Lemma load_weights_after_save_witness :
  ∃ after,
    save trained_instance "model" empty_fs = (Ok (), after) ∧
    load_weights trained_instance "model/weights.h5" after = Ok trained_instance.
Proof.
  destruct trained_instance_saves as [after Hsave]. exists after.
  split; [exact Hsave|].
  exact (load_weights_after_save trained_instance "model" empty_fs after
           trained_instance_is_instance Hsave).
Defined.

(** X16. Whatever sequence of [compile], [train] and [load_weights] an
    instance has been through, it has the architecture of a fresh
    construction from its own five hyperparameters: the same encoder and
    decoder, a model with the same graph, and in every variable an array of
    the shape the variable was created with. *)
Theorem instance_keeps_architecture rng self :
  instance self →
  ∃ fresh mdl mdl',
    __init__ rng (input_shape self) (conv_filters self) (conv_kernels self)
      (conv_strides self) (latent_space_dim self) = Ok fresh ∧
    encoder self = encoder fresh ∧ decoder self = decoder fresh ∧
    model self = Some mdl ∧ model fresh = Some mdl' ∧ same_graph mdl mdl' ∧
    map nd_shape (weights self) = map nd_shape (weights fresh) ∧
    map nd_shape (weights self) = concat (model_variables mdl).
Proof.
  intros (built & mdl0 & mdl & Hbuilt & Hmdl0 & Hmdl & Hsame & He & Hd & Hw
         )%instance_well_formed.
  exists (set_weights (initial_weights rng (concat (model_variables mdl0))) built),
    mdl, mdl0.
  split; [apply __init___inv; exists built, mdl0; auto|].
  cbn [encoder decoder model weights set_weights].
  split_and!; try assumption.
  - rewrite initial_weights_shapes. exact Hw.
  - destruct Hsame as (_ & _ & _ & _ & ->). exact Hw.
Qed.

Lemma instance_keeps_architecture_witness :
  ∃ fresh,
    __init__ (λ _ _, [1%Q]) (input_shape trained_instance) (conv_filters trained_instance)
      (conv_kernels trained_instance) (conv_strides trained_instance)
      (latent_space_dim trained_instance) = Ok fresh ∧
    decoder trained_instance = decoder fresh ∧
    map nd_shape (weights trained_instance) = map nd_shape (weights fresh).
Proof.
  destruct (instance_keeps_architecture (λ _ _, [1%Q]) trained_instance
              trained_instance_is_instance)
    as (fresh & mdl & mdl' & Hfresh & _ & Hd & _ & _ & _ & Hw & _).
  exists fresh. split; [exact Hfresh|]. split; [exact Hd | exact Hw].
Defined.

(** X17. When an instance has been saved, loading it back and saving what
    was loaded in the same folder returns and leaves the file system exactly
    as the first [save] left it: the loaded instance writes the same two
    files, with the same contents. *)
Theorem resave_after_load rng self save_folder fs after :
  instance self →
  save self save_folder fs = (Ok (), after) →
  ∃ loaded,
    load rng save_folder after = Ok loaded ∧
    save loaded save_folder after = (Ok (), after).
Proof.
  intros Hinstance Hsave.
  destruct (load_after_save rng self save_folder fs after Hinstance Hsave)
    as (built & mdl0 & mdl & Hbuilt & Hmdl0 & Hmdl & Hsame & _ & _ & Hload).
  exists (set_weights (weights self) built). split; [exact Hload|].
  apply _build_inv in Hbuilt as [_ ((Hi & Hf & Hk & Hs & Hl & _) & _)].
  cbn in Hi, Hf, Hk, Hs, Hl.
  set (loaded := set_weights (weights self) built).
  assert (model loaded = Some mdl0) as Hloaded by exact Hmdl0.
  destruct (save_again self loaded save_folder fs after Hsave) as (after' & H1 & H2);
    [eauto|].
  rewrite H2. f_equal.
  destruct (saved_files _ _ _ _ H1) as (mdl0' & Hmdl0' & Hfiles').
  rewrite Hloaded in Hmdl0'. injection Hmdl0' as <-.
  destruct (saved_files _ _ _ _ Hsave) as (mdl' & Hmdl' & Hfiles).
  rewrite Hmdl in Hmdl'. injection Hmdl' as <-.
  destruct (saved_directories _ _ _ _ H1) as [_ Hdirs'].
  destruct (saved_directories _ _ _ _ Hsave) as [_ Hdirs].
  apply file_system_eq; [rewrite Hdirs', Hdirs; reflexivity|].
  rewrite Hfiles', Hfiles. unfold saved_parameters, loaded.
  cbn [ae.input_shape ae.conv_filters ae.conv_kernels ae.conv_strides
       ae.latent_space_dim weights set_weights].
  rewrite <- Hi, <- Hf, <- Hk, <- Hs, <- Hl.
  assert (save_weights mdl0 (weights self) = save_weights mdl (weights self)) as ->.
  { unfold save_weights. destruct Hsame as (_ & _ & _ & -> & ->). reflexivity. }
  reflexivity.
Qed.

Lemma resave_after_load_witness :
  ∃ after loaded,
    save trained_instance "model" empty_fs = (Ok (), after) ∧
    load (λ _ _, [1%Q]) "model" after = Ok loaded ∧
    save loaded "model" after = (Ok (), after).
Proof.
  destruct trained_instance_saves as [after Hsave].
  destruct (resave_after_load (λ _ _, [1%Q]) trained_instance "model" empty_fs after
              trained_instance_is_instance Hsave) as (loaded & Hload & Hagain).
  exists after, loaded. split; [exact Hsave|]. split; [exact Hload | exact Hagain].
Defined.







(** ** The training script *)

(** The steps of [train] in [train.py], when it returns. *)
Lemma train_steps rng trainer x_train learning_rate batch_size epochs printed autoencoder :
  train_py.train rng trainer x_train learning_rate batch_size epochs
    = Ok (printed, autoencoder) →
  ∃ constructed compiled,
    __init__ rng [28; 28; 1] [32; 64; 64; 64] [3; 3; 3; 3] [1; 2; 2; 1] 2
      = Ok constructed ∧
    summary constructed = Ok printed ∧
    compile constructed learning_rate = Ok compiled ∧
    train trainer compiled x_train batch_size epochs = Ok autoencoder.
Proof.
  unfold train_py.train.
  intros (constructed & Hinit & H)%bind_Ok.
  apply bind_Ok in H as (printed' & Hsummary & H).
  apply bind_Ok in H as (compiled & Hcompile & H).
  apply bind_Ok in H as (trained & Htrain & [= <- <-]).
  exists constructed, compiled. auto.
Qed.

Lemma train_returns_instance rng trainer x_train learning_rate batch_size epochs printed
    autoencoder :
  train_py.train rng trainer x_train learning_rate batch_size epochs
    = Ok (printed, autoencoder) →
  instance autoencoder.
Proof.
  intros (constructed & compiled & Hinit & _ & Hcompile & Htrain)%train_steps.
  eapply instance_train; [|exact Htrain].
  eapply instance_compile; [|exact Hcompile].
  eapply instance_init. exact Hinit.
Qed.

(** X19. Whatever it is given to train on, when [train] of [train.py]
    returns it returns an instance with the hyperparameters written in it;
    the encoder maps 28 x 28 x 1 to 2 values through a 7 x 7 x 64 feature
    map, and decoder and model put out 28 x 28 x 1, the shape of the input.
    The model is compiled with the given learning rate and the mean squared
    error, and the summary was printed before the training, from the
    layers the returned instance still has. *)
Theorem train_function rng trainer x_train learning_rate batch_size epochs printed
    autoencoder :
  train_py.train rng trainer x_train learning_rate batch_size epochs
    = Ok (printed, autoencoder) →
  input_shape autoencoder = [28; 28; 1] ∧
  conv_filters autoencoder = [32; 64; 64; 64] ∧
  conv_kernels autoencoder = [3; 3; 3; 3] ∧
  conv_strides autoencoder = [1; 2; 2; 1] ∧
  latent_space_dim autoencoder = 2 ∧
  _shape_before_bottleneck autoencoder = Some [7; 7; 64] ∧
  summary autoencoder = Ok printed ∧
  ∃ enc dec mdl,
    encoder autoencoder = Some enc ∧ decoder autoencoder = Some dec ∧
    model autoencoder = Some mdl ∧
    model_input_shape enc = [28; 28; 1] ∧ model_output_shape enc = [2] ∧
    model_input_shape dec = [2] ∧ model_output_shape dec = [28; 28; 1] ∧
    model_input_shape mdl = [28; 28; 1] ∧ model_output_shape mdl = [28; 28; 1] ∧
    model_optimizer mdl = Some (learning_rate, "mean_squared_error"%string).
Proof.
  intros (constructed & compiled & Hinit & Hsummary & Hcompile & Htrain)%train_steps.
  destruct (built_shapes _ _ _ _ _ _ _ _ _ Hinit)
    as (_ & _ & enc & dec & Henc & Hdec & Hshape & _ & Hlatent & Hout).
  pose proof Hinit as Hbuilt.
  apply __init___built in Hbuilt
    as (_ & ((Hi & Hf & Hk & Hs & Hl & _) & _ & _ & x_enc & x_dec & _ & _ & _ & _ & Henc'
             & Hdec' & Hmdl) & _).
  cbn in Hi, Hf, Hk, Hs, Hl.
  rewrite Henc in Henc'. injection Henc' as Henc'.
  rewrite Hdec in Hdec'. injection Hdec' as Hdec'.
  cbn [ae.input_shape ae.latent_space_dim new_instance] in Hmdl.
  rewrite <- Henc', <- Hdec' in Hmdl.
  unfold compile in Hcompile. rewrite Hmdl in Hcompile. injection Hcompile as <-.
  unfold train in Htrain. cbn [model set_model attribute] in Htrain.
  apply bind_Ok in Htrain as (mdl & [= <-] & Htrain).
  apply bind_Ok in Htrain as (trained & _ & [= <-]).
  cbn [ae.input_shape ae.conv_filters ae.conv_kernels ae.conv_strides
       ae.latent_space_dim _shape_before_bottleneck set_weights set_model
       encoder decoder model].
  split_and!; try (symmetry; assumption).
  - exact Hshape.
  - unfold summary in Hsummary |- *.
    cbn [encoder decoder model set_weights set_model].
    rewrite Henc, Hdec, Hmdl in Hsummary. rewrite Henc, Hdec. exact Hsummary.
  - exists enc, dec. eexists. split; [exact Henc|]. split; [exact Hdec|].
    split; [reflexivity|]. cbn.
    split_and!; try assumption; try reflexivity.
    + rewrite Henc'. reflexivity.
    + rewrite Hdec'. reflexivity.
Qed.

Lemma train_function_witness :
  ∃ printed autoencoder,
    train_py.train (λ _ _, []) (λ _ _ _ _ _ _ _, Ok (λ _, []))
      {| nd_shape := [1; 28; 28; 1]; nd_data := [] |}
      train_py.LEARNING_RATE train_py.BATCH_SIZE train_py.EPOCHS
    = Ok (printed, autoencoder) ∧
    _shape_before_bottleneck autoencoder = Some [7; 7; 64].
Proof.
  assert (∃ printed autoencoder,
            train_py.train (λ _ _, []) (λ _ _ _ _ _ _ _, Ok (λ _, []))
              {| nd_shape := [1; 28; 28; 1]; nd_data := [] |}
              train_py.LEARNING_RATE train_py.BATCH_SIZE train_py.EPOCHS
            = Ok (printed, autoencoder)) as (printed & autoencoder & Hrun)
    by (eexists _, _; vm_compute; reflexivity).
  exists printed, autoencoder. split; [exact Hrun|].
  apply (train_function _ _ _ _ _ _ _ _ Hrun).
Defined.

(** X20. When the script of [train.py] runs to its end: the dataset was
    loaded; the script has trained on the first 500 training images at
    most, each pixel converted to single precision and divided by 255 and
    each image with a channel dimension; it has saved the trained instance
    in the folder "model", which since the dataset was loaded has changed
    the two files there and no other; and the instance it loads back from
    there has the hyperparameters, the encoder, the decoder and the values
    of all variables of the trained one, but a model that is not
    compiled. *)
Theorem script_round_trip (mnist_load_data : train_py.Loader) rng rng2 trainer fs
    training_input autoencoder autoencoder2 fs' :
  train_py.main mnist_load_data rng rng2 trainer fs
    = (Ok (training_input, autoencoder, autoencoder2), fs') →
  ∃ images labels test_images test_labels loaded_fs,
    mnist_load_data fs
      = (Ok ((images, labels), (test_images, test_labels)), loaded_fs) ∧
    training_input =
      train_py.take_first 500
        {| nd_shape := nd_shape images ++ [1];
           nd_data := map (λ p, float32_div (float32_of_Z p) (float32_of_Z 255))
                        (nd_data images) |} ∧
    (∀ n inner, nd_shape images = n :: inner → 0 ≤ n →
       nd_shape training_input = Z.min 500 n :: inner ++ [1] ∧
       nd_data training_input =
         take (Z.to_nat (Z.min 500 n * np_prod inner))
           (map (λ p, float32_div (float32_of_Z p) (float32_of_Z 255))
              (nd_data images))) ∧
    instance autoencoder ∧
    save autoencoder "model" loaded_fs = (Ok (), fs') ∧
    (∀ path, path ≠ "model/parameters.pkl"%string → path ≠ "model/weights.h5"%string →
             os.files fs' !! path = os.files loaded_fs !! path) ∧
    input_shape autoencoder2 = input_shape autoencoder ∧
    conv_filters autoencoder2 = conv_filters autoencoder ∧
    conv_kernels autoencoder2 = conv_kernels autoencoder ∧
    conv_strides autoencoder2 = conv_strides autoencoder ∧
    latent_space_dim autoencoder2 = latent_space_dim autoencoder ∧
    encoder autoencoder2 = encoder autoencoder ∧
    decoder autoencoder2 = decoder autoencoder ∧
    weights autoencoder2 = weights autoencoder ∧
    ∃ mdl mdl2,
      model autoencoder = Some mdl ∧ model autoencoder2 = Some mdl2 ∧
      same_graph mdl mdl2 ∧
      model_optimizer mdl = Some (train_py.LEARNING_RATE, "mean_squared_error"%string) ∧
      model_optimizer mdl2 = None.
Proof.
  unfold train_py.main.
  destruct (mnist_load_data fs)
    as [[[[images labels] [test_images test_labels]]|e] loaded_fs] eqn:Hdata;
    [|unfold train_py.load_mnist; rewrite Hdata; discriminate].
  rewrite (load_mnist_returns _ _ _ _ _ _ _ Hdata).
  set (x_train := {| nd_shape := nd_shape images ++ [1];
                     nd_data := map (λ p, float32_div (float32_of_Z p) (float32_of_Z 255))
                                  (nd_data images) |}).
  cbv beta iota zeta.
  destruct (train_py.train rng trainer (train_py.take_first 500 x_train)
              train_py.LEARNING_RATE train_py.BATCH_SIZE train_py.EPOCHS)
    as [[printed trained]|e] eqn:Htrain; [|discriminate].
  pose proof (train_returns_instance _ _ _ _ _ _ _ _ Htrain) as Hinstance.
  destruct (save trained "model" loaded_fs) as [[[]|e] fs1] eqn:Hsaved; [|discriminate].
  destruct (load_after_save rng2 trained "model" loaded_fs fs1 Hinstance Hsaved)
    as (built & mdl0 & mdl & Hbuilt & Hmdl0 & Hmdl & Hsame & He & Hd & Hload).
  rewrite Hload. cbn.
  intros [= <- <- <- <-].
  exists images, labels, test_images, test_labels, loaded_fs.
  split; [reflexivity|]. split; [reflexivity|]. split.
  { intros n inner Hshape Hn. unfold train_py.take_first, x_train. cbn [nd_shape nd_data].
    rewrite Hshape. cbn [app].
    replace (Z.min (Z.max 500 0) n) with (Z.min 500 n) by lia.
    rewrite np_prod_channel. split; reflexivity. }
  split; [exact Hinstance|]. split; [exact Hsaved|].
  split.
  { intros path Hp Hw.
    destruct (saved_files _ _ _ _ Hsaved) as (mdl' & _ & Hfiles).
    rewrite Hfiles, !lookup_insert_ne; [reflexivity | |];
      intros <-; [apply Hp | apply Hw]; reflexivity. }
  apply _build_inv in Hbuilt
    as [_ ((Hi & Hf & Hk & Hs & Hl & _) & _ & _ & xe & xd & _ & _ & _ & _ & _ & _ & Hchained)].
  cbn in Hi, Hf, Hk, Hs, Hl. cbn [set_weights].
  split_and!; try (symmetry; assumption); try reflexivity.
  exists mdl, mdl0. split; [exact Hmdl|]. split; [exact Hmdl0|]. split; [exact Hsame|].
  split.
  - apply train_steps in Htrain
      as (constructed & compiled & Hinit & _ & Hcompile & Htrained).
    destruct (constructed_uncompiled _ _ _ _ _ _ _ Hinit) as (m & Hm & _).
    unfold compile in Hcompile. rewrite Hm in Hcompile. injection Hcompile as <-.
    unfold train in Htrained. cbn [model set_model attribute] in Htrained.
    apply bind_Ok in Htrained as (m' & [= <-] & Htrained).
    apply bind_Ok in Htrained as (values & _ & [= <-]).
    cbn [model set_model set_weights] in Hmdl. injection Hmdl as <-. reflexivity.
  - rewrite Hmdl0 in Hchained. injection Hchained as ->. reflexivity.
Qed.

Lemma script_round_trip_witness :
  ∃ training_input autoencoder autoencoder2 fs',
    train_py.main
      (cached
         (({| nd_shape := [1; 28; 28]; nd_data := repeat 255 784 |},
           {| nd_shape := [1]; nd_data := [7] |}),
          ({| nd_shape := [0; 28; 28]; nd_data := [] |},
           {| nd_shape := [0]; nd_data := [] |})))
      (λ _ _, []) (λ _ _, [1%Q]) (λ _ _ _ _ _ _ _, Ok (λ i, [inject_Z (Z.of_nat i)]))
      empty_fs
    = (Ok (training_input, autoencoder, autoencoder2), fs') ∧
    weights autoencoder2 = weights autoencoder ∧
    save autoencoder "model" empty_fs = (Ok (), fs').
Proof.
  assert (∃ training_input autoencoder autoencoder2 fs',
            train_py.main
              (cached
                 (({| nd_shape := [1; 28; 28]; nd_data := repeat 255 784 |},
                   {| nd_shape := [1]; nd_data := [7] |}),
                  ({| nd_shape := [0; 28; 28]; nd_data := [] |},
                   {| nd_shape := [0]; nd_data := [] |})))
              (λ _ _, []) (λ _ _, [1%Q])
              (λ _ _ _ _ _ _ _, Ok (λ i, [inject_Z (Z.of_nat i)]))
              empty_fs
            = (Ok (training_input, autoencoder, autoencoder2), fs'))
    as (training_input & autoencoder & autoencoder2 & fs' & Hrun)
    by (eexists _, _, _, _; vm_compute; reflexivity).
  exists training_input, autoencoder, autoencoder2, fs'. split; [exact Hrun|].
  destruct (script_round_trip _ _ _ _ _ _ _ _ _ Hrun)
    as (images & labels & test_images & test_labels & loaded_fs & Hdata & _ & _ & _
        & Hsave & _ & _ & _ & _ & _ & _ & _ & _ & Hweights & _).
  split; [exact Hweights|].
  injection Hdata as _ _ _ _ <-. exact Hsave.
Defined.
